(** * Pose-sequence pools and occupancy-grid decoding of the 3D panel

    A shallow embedding of [OccupancyGrids.ts] (grid normalisation, the
    PNG dispatch, the dimension check, texture management, the three
    palettes and the vendor costmap adapter) and of the pose-array scene
    extension (pool synchronisation for axes, arrows and trolley arrows,
    the gradient parameter, the release of pools on a settings change and
    the vendor robot-state-path adapter).

    ECMAScript numbers are IEEE 754 binary64 values; they are modelled by
    the Standard Library's executable specification of binary floats at
    precision 53.  Typed arrays are lists of integers with the wrap-around
    of their element type written out.  Scene objects carry an identity
    drawn from an allocation counter, so that "the same object" and "a new
    object" can be told apart. *)

From Stdlib Require Import ZArith NArith Lia Bool.
From Stdlib Require Import Floats.SpecFloat.
From stdpp Require Import base option list strings pretty gmap.

(* ===================================================================== *)
(** * ECMAScript values                                                   *)
(* ===================================================================== *)

Module Js.

(** A JavaScript [number]: binary64. *)
Definition number : Type := spec_float.

Definition prec : Z := 53.
Definition emax : Z := 1024.

(** The number denoted by an integer literal or by an array length. *)
Definition of_Z (z : Z) : number := binary_normalize prec emax z 0 false.
Definition of_nat (n : nat) : number := of_Z (Z.of_nat n).

Definition zero : number := S754_zero false.
Definition one : number := S754_finite false 4503599627370496 (-52).
Definition minus_one : number := S754_finite true 4503599627370496 (-52).
Definition NaN : number := S754_nan.

Definition div : number -> number -> number := SFdiv prec emax.
Definition mul : number -> number -> number := SFmul prec emax.
Definition add : number -> number -> number := SFadd prec emax.
Definition sub : number -> number -> number := SFsub prec emax.

(** [a === b] and [a !== b] on numbers: NaN differs from itself, the
    two zeros are equal. *)
Definition strict_eq (a b : number) : bool := SFeqb a b.
Definition strict_ne (a b : number) : bool := negb (SFeqb a b).

(** [x ?? d] *)
Definition nullish {A : Type} (x : option A) (d : A) : A :=
  match x with Some v => v | None => d end.

(** [ToInt32]: what the bit operators do to their operands; [undefined]
    becomes 0. *)
Definition ToInt32 (v : option Z) : Z :=
  match v with
  | None => 0
  | Some z => ((z + 2147483648) mod 4294967296 - 2147483648)%Z
  end.

(** [v >> s] and [v & m] on (possibly undefined) integer operands. *)
Definition shr (v : option Z) (s : Z) : Z := Z.shiftr (ToInt32 v) s.
Definition band (v : option Z) (m : Z) : Z := Z.land (ToInt32 v) m.

(** Storing into an [Int8Array], a [Uint8Array] and a
    [Uint8ClampedArray]. *)
Definition to_int8 (z : Z) : Z := ((z + 128) mod 256 - 128)%Z.
Definition to_uint8 (z : Z) : Z := (z mod 256)%Z.
Definition clamp8 (z : Z) : Z := Z.max 0 (Z.min 255 z).

(** [a[i] = v] on a typed array: a store outside the array is ignored. *)
Definition store (a : list Z) (i : nat) (v : Z) : list Z := <[i := v]> a.

(** [a[n / d]] where [n / d] is the number division of two non-negative
    integers: the quotient is an index only when it is an integer; at
    any other number the array has no element and the read gives
    [undefined]. *)
Definition get_div (a : list Z) (n d : nat) : option Z :=
  if (n mod d =? 0)%nat then a !! (n / d)%nat else None.

(** [v == n] for an array element [v] and an integer literal [n]:
    [undefined] equals no number. *)
Definition loose_eq (v : option Z) (n : Z) : bool :=
  match v with Some z => (z =? n)%Z | None => false end.

(** [hay.includes(needle)] on strings. *)
Fixpoint includes (needle hay : string) : bool :=
  String.prefix needle hay
  || match hay with
     | EmptyString => false
     | String _ rest => includes needle rest
     end.

(** [for (let i = lo; i < hi; i++) body], with the loop state threaded
    through. *)
Definition for_range {A : Type} (lo hi : nat) (body : nat -> A -> A) (a : A) : A :=
  foldl (fun acc i => body i acc) a (seq lo (hi - lo)).

End Js.

Abbreviation number := Js.number.

(* ===================================================================== *)
(** * Messages                                                            *)
(* ===================================================================== *)

Record Time := { sec : Z; nsec : Z }.

(** [toNanoSec] of the time library: a bigint. *)
Definition toNanoSec (t : Time) : Z := (sec t * 1000000000 + nsec t)%Z.

Record Header := { stamp : Time; frame_id : string }.

Record Vector3 := { v_x : number; v_y : number; v_z : number }.
Record Quaternion := { q_x : number; q_y : number; q_z : number; q_w : number }.
Record Pose := { position : Vector3; orientation : Quaternion }.

(** The partial forms in which messages arrive: every field may be absent. *)
Record PartialTime := { p_sec : option Z; p_nsec : option Z }.
Record PartialHeader := { p_stamp : option PartialTime; p_frame_id : option string }.
Record PartialVector3 := { pv_x : option number; pv_y : option number; pv_z : option number }.
Record PartialQuaternion :=
  { pq_x : option number; pq_y : option number; pq_z : option number; pq_w : option number }.
Record PartialPose :=
  { p_position : option PartialVector3; p_orientation : option PartialQuaternion }.

Record MessageEvent (M : Type) := {
  ev_topic : string;
  ev_schemaName : string;
  ev_receiveTime : Time;
  ev_publishTime : option Time;
  ev_message : M;
  ev_sizeInBytes : N;
}.
Arguments ev_topic {M} _.
Arguments ev_schemaName {M} _.
Arguments ev_receiveTime {M} _.
Arguments ev_publishTime {M} _.
Arguments ev_message {M} _.
Arguments ev_sizeInBytes {M} _.
Arguments Build_MessageEvent {M} _ _ _ _ _ _.

(** Modelled from the spec: [normalizeTime], [normalizeHeader] and
    [normalizePose] of [normalizeMessages.ts] are not among the sources.
    Absent numeric fields become 0, an absent frame id the empty string,
    an absent origin the zero origin with the identity orientation.  The
    identity orientation stands for an orientation that is absent as a
    whole; in an orientation that is present an absent component,
    [w] included, is a numeric field and becomes 0. *)
Definition normalizeTime (t : option PartialTime) : Time :=
  match t with
  | None => {| sec := 0; nsec := 0 |}
  | Some t => {| sec := Js.nullish (p_sec t) 0%Z; nsec := Js.nullish (p_nsec t) 0%Z |}
  end.

Definition normalizeHeader (h : option PartialHeader) : Header :=
  match h with
  | None => {| stamp := normalizeTime None; frame_id := EmptyString |}
  | Some h => {| stamp := normalizeTime (p_stamp h); frame_id := Js.nullish (p_frame_id h) EmptyString |}
  end.

Definition normalizeVector3 (v : option PartialVector3) : Vector3 :=
  match v with
  | None => {| v_x := Js.zero; v_y := Js.zero; v_z := Js.zero |}
  | Some v => {| v_x := Js.nullish (pv_x v) Js.zero;
                 v_y := Js.nullish (pv_y v) Js.zero;
                 v_z := Js.nullish (pv_z v) Js.zero |}
  end.

Definition normalizeQuaternion (q : option PartialQuaternion) : Quaternion :=
  match q with
  | None => {| q_x := Js.zero; q_y := Js.zero; q_z := Js.zero; q_w := Js.one |}
  | Some q => {| q_x := Js.nullish (pq_x q) Js.zero;
                 q_y := Js.nullish (pq_y q) Js.zero;
                 q_z := Js.nullish (pq_z q) Js.zero;
                 q_w := Js.nullish (pq_w q) Js.zero |}
  end.

Definition normalizePose (p : option PartialPose) : Pose :=
  match p with
  | None => {| position := normalizeVector3 None; orientation := normalizeQuaternion None |}
  | Some p => {| position := normalizeVector3 (p_position p);
                 orientation := normalizeQuaternion (p_orientation p) |}
  end.

(** Modelled from the spec: [normalizeInt8Array] of [normalizeMessages.ts]
    is not among the sources.  A missing cell buffer is the empty grid
    (zero cells); a present one becomes the [Int8Array] of the canonical
    grid.  The buffer of a message is a list of numbers here: the cells
    of an [Int8Array], which are signed bytes and stay as they are, or
    the numbers of a plain array, each of which is stored as a signed
    byte.  Typed arrays of another element type are not in the model. *)
Definition normalizeInt8Array (d : option (list Z)) : list Z :=
  match d with
  | None => []
  | Some d => map Js.to_int8 d
  end.

(* ===================================================================== *)
(** * Occupancy grids: data model                                         *)
(* ===================================================================== *)

Module Grid.

Record MapMetaData := {
  map_load_time : Time;
  resolution : number;
  width : nat;
  height : nat;
  origin : Pose;
}.

(** The canonical grid; [data] is an [Int8Array]. *)
Record OccupancyGrid := {
  header : Header;
  info : MapMetaData;
  data : list Z;
}.

Record PartialMapMetaData := {
  p_map_load_time : option PartialTime;
  p_resolution : option number;
  p_width : option nat;
  p_height : option nat;
  p_origin : option PartialPose;
}.

Record PartialOccupancyGrid := {
  p_header : option PartialHeader;
  p_info : option PartialMapMetaData;
  p_data : option (list Z);
}.

(** The vendor costmap message: two bits per cell, packed in bytes. *)
Record CostmapData := {
  c_header : option PartialHeader;
  c_resolution : option number;
  c_width : nat;
  c_height : nat;
  c_offset_x : option number;
  c_offset_y : option number;
  c_data : list Z;
}.

Record LayerSettingsOccupancyGrid := { visible : bool; frameLocked : bool }.
Record PartialSettings := { p_visible : option bool; p_frameLocked : option bool }.

Definition DEFAULT_SETTINGS : LayerSettingsOccupancyGrid :=
  {| visible := false; frameLocked := false |}.

(** [{ ...DEFAULT_SETTINGS, ...settings }] *)
Definition mergeSettings (s : option PartialSettings) : LayerSettingsOccupancyGrid :=
  match s with
  | None => DEFAULT_SETTINGS
  | Some s => {| visible := Js.nullish (p_visible s) (visible DEFAULT_SETTINGS);
                 frameLocked := Js.nullish (p_frameLocked s) (frameLocked DEFAULT_SETTINGS) |}
  end.

(** A [THREE.DataTexture] over a [Uint8ClampedArray]; [tex_id] is the
    identity of the object. *)
Record DataTexture := {
  tex_id : nat;
  image_width : nat;
  image_height : nat;
  image_data : list Z;
  needsUpdate : bool;
}.

(** The material refers to its texture ([material.map]). *)
Record Material := { mat_map : nat; transparent : bool; depthWrite : bool }.

(** [OccupancyGridRenderable]: the user data and the scale of the node. *)
Record Renderable := {
  receiveTime : Z;
  messageTime : Z;
  frameId : string;
  pose : Pose;
  settings : LayerSettingsOccupancyGrid;
  topic : string;
  occupancyGrid : OccupancyGrid;
  texture : DataTexture;
  material : Material;
  scale : Vector3;
}.

(** Modelled from the spec: the class [LayerErrors] behind
    [renderer.settings.errors] is not among the sources.  The spec gives
    the diagnostics interface as a report of a channel, an error code
    and a message, and the extensions only ever call [addToTopic] on it.
    A [LayerError] is one such call, with the channel, the error id and
    the message it was given, and the field [errors] is the sequence of
    the calls made, the newest first.  What the store keeps of the
    reports it received is outside the model. *)
Record LayerError := { err_topic : string; err_id : string; err_message : string }.

(** The part of the renderer the extension touches: the reports made to
    the error store, the user configuration, the textures disposed so
    far and the allocation counter of scene objects. *)
Record Renderer := {
  errors : list LayerError;
  config_topics : gmap string PartialSettings;
  disposed : list nat;
  next_id : nat;
}.

Inductive completion := Rendered | Rejected | Threw.

Definition INVALID_OCCUPANCY_GRID : string := "INVALID_OCCUPANCY_GRID".

Definition png_signature : list Z := [-119; 80; 78; 71]%Z.

(* ------------------------------------------------------------------- *)
(** ** Palettes                                                         *)
(* ------------------------------------------------------------------- *)

Definition rgba : Type := (Z * Z * Z * Z)%type.

(** The [switch (value)] of the "/traffic_map" channel. *)
Definition traffic_pixel (value : Z) : rgba :=
  if (value =? 0)%Z then (0, 255, 0, 128)%Z
  else if (value =? 100)%Z then (0, 0, 255, 128)%Z
  else (0, 0, 0, 0)%Z.

(** The body of the loop of the "/one_way_map" channel, statement by
    statement. *)
Definition one_way_pixel (value : Z) : rgba :=
  let red := 0%Z in
  let green := 0%Z in
  let blue := 0%Z in
  let alpha := 128%Z in
  let alpha := if (value =? 255)%Z then 0%Z else alpha in
  let red := if (Z.land value 0xC7 =? 0xC7)%Z then Z.lor red 0x80 else red in
  let green := if (Z.land value 0x8F =? 0x8F)%Z then Z.lor green 0x40 else green in
  let red := if (Z.land value 0x1F =? 0x1F)%Z then Z.lor red 0x20 else red in
  let blue := if (Z.land value 0x3E =? 0x3E)%Z then Z.lor blue 0x80 else blue in
  let green := if (Z.land value 0x7C =? 0x7C)%Z then Z.lor green 0x20 else green in
  let green := if (Z.land value 0xF8 =? 0xF8)%Z then Z.lor green 0x80 else green in
  let red := if (Z.land value 0xF1 =? 0xF1)%Z then Z.lor red 0x40 else red in
  let blue := if (Z.land value 0xE3 =? 0xE3)%Z then Z.lor blue 0x40 else blue in
  (red, green, blue, alpha).

(** The [switch (value)] of every other channel. *)
Definition default_pixel (value : Z) : rgba :=
  if (value =? 0)%Z then (255, 255, 255, 128)%Z
  else if (value =? 224)%Z then (0, 0, 0, 128)%Z
  else if (value =? 192)%Z then (255, 168, 168, 128)%Z
  else if (value =? 96)%Z then (128, 128, 128, 128)%Z
  else if (value =? 95)%Z then (255, 165, 0, 128)%Z
  else (0, 0, 0, 0)%Z.

Definition px_red (p : rgba) : Z := p.1.1.1.
Definition px_green (p : rgba) : Z := p.1.1.2.
Definition px_blue (p : rgba) : Z := p.1.2.
Definition px_alpha (p : rgba) : Z := p.2.

(** The "one-way" palette in the words of the specification: eight
    fixed 8-bit masks, one per 45-degree wedge of heading; a cell that
    has all the bits of a mask sets one bit of one colour channel, each
    wedge on its own; alpha is 0 only for the value 255 and 128
    otherwise.  The table lists the wedges by heading: 0, +45, +90,
    +135, 180, -135, -90 and -45 degrees. *)
Inductive channel := Red | Green | Blue.

Definition channel_eqb (a b : channel) : bool :=
  match a, b with
  | Red, Red | Green, Green | Blue, Blue => true
  | _, _ => false
  end.

Definition wedges : list (Z * channel * Z) :=
  [ (0xC7, Red, 0x80); (0x8F, Green, 0x40); (0x1F, Red, 0x20); (0x3E, Blue, 0x80);
    (0x7C, Green, 0x20); (0xF8, Green, 0x80); (0xF1, Red, 0x40); (0xE3, Blue, 0x40) ]%Z.

Definition wedge_hit (value : Z) (w : Z * channel * Z) : bool :=
  (Z.land value w.1.1 =? w.1.1)%Z.

Definition channel_bits (c : channel) (value : Z) : Z :=
  foldr
    (fun w acc => if channel_eqb w.1.2 c && wedge_hit value w then Z.lor acc w.2 else acc)
    0%Z wedges.

Definition one_way_spec (value : Z) : rgba :=
  (channel_bits Red value, channel_bits Green value, channel_bits Blue value,
   if (value =? 255)%Z then 0%Z else 128%Z).

Definition px_channel (c : channel) (p : rgba) : Z :=
  match c with Red => px_red p | Green => px_green p | Blue => px_blue p end.

(** [rgba[offset + 0] = r; ... rgba[offset + 3] = a] on the clamped
    byte array. *)
Definition write_pixel (buf : list Z) (offset : nat) (p : rgba) : list Z :=
  let '(r, g, b, a) := p in
  let buf := Js.store buf (offset + 0) (Js.clamp8 r) in
  let buf := Js.store buf (offset + 1) (Js.clamp8 g) in
  let buf := Js.store buf (offset + 2) (Js.clamp8 b) in
  Js.store buf (offset + 3) (Js.clamp8 a).

(** One of the three loops [for (let i = 0; i < size; i++)]: the cell
    is read as [data[i] & 0xFF] and its pixel written at [i * 4]. *)
Definition paint (pixel : Z -> rgba) (size : nat) (cells buf : list Z) : list Z :=
  Js.for_range 0 size
    (fun i buf =>
       let value := Js.band (cells !! i) 0xFF in
       let offset := i * 4 in
       write_pixel buf offset (pixel value))
    buf.

Definition updateTexture (topic : string) (tex : DataTexture) (g : OccupancyGrid)
  : DataTexture :=
  let size := width (info g) * height (info g) in
  let buf := image_data tex in
  let buf :=
    if String.eqb topic "/traffic_map" then paint traffic_pixel size (data g) buf
    else if String.eqb topic "/one_way_map" then paint one_way_pixel size (data g) buf
    else paint default_pixel size (data g) buf in
  {| tex_id := tex_id tex;
     image_width := image_width tex;
     image_height := image_height tex;
     image_data := buf;
     needsUpdate := true |}.

(* ------------------------------------------------------------------- *)
(** ** Normalisation and the vendor costmap adapter                     *)
(* ------------------------------------------------------------------- *)

Definition normalizeOccupancyGrid (message : PartialOccupancyGrid) : OccupancyGrid :=
  let info := p_info message in
  let field {A} (f : PartialMapMetaData -> option A) : option A :=
    match info with Some i => f i | None => None end in
  {| header := normalizeHeader (p_header message);
     info := {| map_load_time := normalizeTime (field p_map_load_time);
                resolution := Js.nullish (field p_resolution) Js.zero;
                width := Js.nullish (field p_width) 0;
                height := Js.nullish (field p_height) 0;
                origin := normalizePose (field p_origin) |};
     data := normalizeInt8Array (p_data message) |}.

(** The body of the inner loop of [MirToRos] at row counter [y] and
    column counter [x]: the value stored at [width * y + x].  The index
    [(width * y + x) / 4] is a number division. *)
Definition unpack_cell (packed : list Z) (width y x : nat) : Z :=
  let offset := (6 - Z.of_nat ((width * y + x) mod 4) * 2)%Z in
  let value := Js.get_div packed (width * y + x) 4 in
  Z.land (Js.shr value offset) 3.

(** The unpacking in the words of the specification: the cell of index
    [k] is the 2-bit field of the byte of integer index [k / 4], taken at
    bit offset [6 - (k % 4) * 2]. *)
Definition unpack_cell_spec (packed : list Z) (k : nat) : Z :=
  Z.land (Z.shiftr (Js.nullish (packed !! (k / 4)) 0%Z) (6 - Z.of_nat (k mod 4) * 2)) 3.

Definition unpack (packed : list Z) (width height : nat) : list Z :=
  let occupancy_grid_data := replicate (length packed) 0%Z in
  Js.for_range 0 width
    (fun y out =>
       Js.for_range 0 height
         (fun x out =>
            Js.store out (width * y + x) (Js.to_int8 (unpack_cell packed width y x)))
         out)
    occupancy_grid_data.

Definition MirToRos (messageEvent : MessageEvent CostmapData)
  : MessageEvent PartialOccupancyGrid :=
  let m := ev_message messageEvent in
  let width := c_width m in
  let height := c_height m in
  let offset_x := c_offset_x m in
  let offset_y := c_offset_y m in
  let occupancy_grid_data := unpack (c_data m) width height in
  {| ev_topic := ev_topic messageEvent;
     ev_schemaName := ev_schemaName messageEvent;
     ev_receiveTime := ev_receiveTime messageEvent;
     ev_publishTime := ev_publishTime messageEvent;
     ev_message :=
       {| p_header := c_header m;
          p_info := Some
            {| p_map_load_time := Some {| p_sec := Some 0%Z; p_nsec := Some 0%Z |};
               p_resolution := c_resolution m;
               p_width := Some width;
               p_height := Some height;
               p_origin := Some
                 {| p_position := Some {| pv_x := offset_x; pv_y := offset_y;
                                          pv_z := Some Js.zero |};
                    p_orientation := Some {| pq_x := Some Js.zero; pq_y := Some Js.zero;
                                             pq_z := Some Js.zero; pq_w := Some Js.one |} |} |};
          p_data := Some occupancy_grid_data |};
     ev_sizeInBytes := ev_sizeInBytes messageEvent |}.

(* ------------------------------------------------------------------- *)
(** ** Textures and the update of a renderable                          *)
(* ------------------------------------------------------------------- *)

(** [texture.dispose()] *)
Definition dispose_texture (rdr : Renderer) (tex : DataTexture) : Renderer :=
  {| errors := errors rdr; config_topics := config_topics rdr;
     disposed := tex_id tex :: disposed rdr; next_id := next_id rdr |}.

Definition createTexture (rdr : Renderer) (g : OccupancyGrid) : Renderer * DataTexture :=
  let width := width (info g) in
  let height := height (info g) in
  let size := width * height in
  let rgba := replicate (size * 4) 0%Z in
  ({| errors := errors rdr; config_topics := config_topics rdr;
      disposed := disposed rdr; next_id := S (next_id rdr) |},
   {| tex_id := next_id rdr; image_width := width; image_height := height;
      image_data := rgba; needsUpdate := false |}).

(** [renderer.settings.errors.addToTopic(topic, INVALID_OCCUPANCY_GRID,
    message)]: one more report, recorded in front of the earlier
    ones. *)
Definition invalidOccupancyGridError (rdr : Renderer) (r : Renderable) (message : string)
  : Renderer :=
  {| errors := {| err_topic := topic r; err_id := INVALID_OCCUPANCY_GRID;
                  err_message := message |} :: errors rdr;
     config_topics := config_topics rdr;
     disposed := disposed rdr; next_id := next_id rdr |}.

(** The template literal of the diagnostic. *)
Definition invalid_message (g : OccupancyGrid) : string :=
  "OccupancyGrid data length (" +:+ pretty (length (data g))
    +:+ ") is not equal to width " +:+ pretty (width (info g))
    +:+ " * height " +:+ pretty (height (info g)).

Definition has_png_signature (d : list Z) : bool :=
  Js.loose_eq (d !! 0) (nth 0 png_signature 0%Z)
  && Js.loose_eq (d !! 1) (nth 1 png_signature 0%Z)
  && Js.loose_eq (d !! 2) (nth 2 png_signature 0%Z)
  && Js.loose_eq (d !! 3) (nth 3 png_signature 0%Z).

(** [new Int8Array(imgData.length)] filled by the copy loop. *)
Definition copy_pixels (imgData : list Z) : list Z :=
  let pixels := replicate (length imgData) 0%Z in
  Js.for_range 0 (length pixels)
    (fun i pixels => Js.store pixels i (Js.to_int8 (Js.nullish (imgData !! i) 0%Z)))
    pixels.

Definition set_data (g : OccupancyGrid) (d : list Z) : OccupancyGrid :=
  {| header := header g; info := info g; data := d |}.

Definition set_message (r : Renderable) (g : OccupancyGrid) (time : Z) (frame : string)
  : Renderable :=
  {| receiveTime := time; messageTime := toNanoSec (stamp (header g));
     frameId := frame; pose := origin (info g);
     settings := settings r; topic := topic r; occupancyGrid := g;
     texture := texture r; material := material r; scale := scale r |}.

Definition set_occupancyGrid (r : Renderable) (g : OccupancyGrid) : Renderable :=
  {| receiveTime := receiveTime r; messageTime := messageTime r;
     frameId := frameId r; pose := pose r;
     settings := settings r; topic := topic r; occupancyGrid := g;
     texture := texture r; material := material r; scale := scale r |}.

Definition set_texture (r : Renderable) (tex : DataTexture) : Renderable :=
  {| receiveTime := receiveTime r; messageTime := messageTime r;
     frameId := frameId r; pose := pose r;
     settings := settings r; topic := topic r; occupancyGrid := occupancyGrid r;
     texture := tex; material := material r; scale := scale r |}.

Definition set_material_map (r : Renderable) (tex : DataTexture) : Renderable :=
  {| receiveTime := receiveTime r; messageTime := messageTime r;
     frameId := frameId r; pose := pose r;
     settings := settings r; topic := topic r; occupancyGrid := occupancyGrid r;
     texture := texture r;
     material := {| mat_map := tex_id tex; transparent := transparent (material r);
                    depthWrite := depthWrite (material r) |};
     scale := scale r |}.

Definition set_scale (r : Renderable) (x y z : number) : Renderable :=
  {| receiveTime := receiveTime r; messageTime := messageTime r;
     frameId := frameId r; pose := pose r;
     settings := settings r; topic := topic r; occupancyGrid := occupancyGrid r;
     texture := texture r; material := material r;
     scale := {| v_x := x; v_y := y; v_z := z |} |}.

Section Extension.

(** External collaborators: the renderer's frame-id normalisation and
    the PNG library, [PNG.load(bytes).decodePixels()], which gives the
    pixel bytes or throws ([None]). *)
Variable normalizeFrameId : string -> string.
Variable decodePixels : list Z -> option (list Z).

(** The format dispatch at the head of the update: the grid whose
    buffer the rest of the update reads, or [None] when the PNG
    library throws. *)
Definition dispatch (g : OccupancyGrid) : option OccupancyGrid :=
  if has_png_signature (data g) then
    let bytes := map Js.to_uint8 (data g) in
    match decodePixels bytes with
    | None => None
    | Some imgData => Some (set_data g (copy_pixels imgData))
    end
  else Some g.

Definition _updateOccupancyGridRenderable
    (rdr : Renderer) (renderable : Renderable) (g : OccupancyGrid) (time : Z)
  : Renderer * Renderable * completion :=
  let renderable :=
    set_message renderable g time (normalizeFrameId (frame_id (header g))) in
  match dispatch g with
  | None => (rdr, renderable, Threw)
  | Some g =>
      (* [occupancyGrid.data = pixels] writes to the object that
         [userData.occupancyGrid] refers to *)
      let renderable := set_occupancyGrid renderable g in
      let size := width (info g) * height (info g) in
      if negb (length (data g) =? size) then
        (invalidOccupancyGridError rdr renderable (invalid_message g),
         renderable, Rejected)
      else
        let tex := texture renderable in
        let w := width (info g) in
        let h := height (info g) in
        let res := resolution (info g) in
        let '(rdr, renderable, tex) :=
          if negb (w =? image_width tex) || negb (h =? image_height tex) then
            let rdr := dispose_texture rdr tex in
            let '(rdr, tex) := createTexture rdr g in
            let renderable := set_texture renderable tex in
            let renderable := set_material_map renderable tex in
            (rdr, renderable, tex)
          else (rdr, renderable, tex) in
        (* [updateTexture] writes into the texture object held by the
           renderable *)
        let renderable := set_texture renderable (updateTexture (topic renderable) tex g) in
        let renderable :=
          set_scale renderable (Js.mul res (Js.of_nat w)) (Js.mul res (Js.of_nat h)) Js.one in
        (rdr, renderable, Rendered)
  end.

(** [handleOccupancyGrid]: the renderable of the channel is created on
    its first message, with a texture of the size of that message. *)
Definition handleOccupancyGrid
    (rdr : Renderer) (renderables : gmap string Renderable)
    (messageEvent : MessageEvent PartialOccupancyGrid)
  : Renderer * gmap string Renderable * completion :=
  let tp := ev_topic messageEvent in
  let g := normalizeOccupancyGrid (ev_message messageEvent) in
  let time := toNanoSec (ev_receiveTime messageEvent) in
  let '(rdr, renderable) :=
    match renderables !! tp with
    | Some r => (rdr, r)
    | None =>
        let userSettings := config_topics rdr !! tp in
        let '(rdr, tex) := createTexture rdr g in
        (rdr,
         {| receiveTime := time;
            messageTime := toNanoSec (stamp (header g));
            frameId := normalizeFrameId (frame_id (header g));
            pose := origin (info g);
            settings := mergeSettings userSettings;
            topic := tp;
            occupancyGrid := g;
            texture := tex;
            material := {| mat_map := tex_id tex; transparent := true;
                           depthWrite := false |};
            scale := {| v_x := Js.one; v_y := Js.one; v_z := Js.one |} |})
    end in
  let '(rdr, renderable, c) := _updateOccupancyGridRenderable rdr renderable g time in
  (rdr, <[tp := renderable]> renderables, c).

Definition handleCostmapData
    (rdr : Renderer) (renderables : gmap string Renderable)
    (messageEvent : MessageEvent CostmapData)
  : Renderer * gmap string Renderable * completion :=
  let new_msg := MirToRos messageEvent in
  handleOccupancyGrid rdr renderables new_msg.

End Extension.

(** A field that is missing or has the given value. *)
Definition absent_or {A : Type} (x : option A) (v : A) : Prop := x = None \/ x = Some v.

(** A texture as [createTexture] makes it: four bytes per cell. *)
Definition texture_wf (tex : DataTexture) : Prop :=
  length (image_data tex) = image_width tex * image_height tex * 4.

End Grid.

(* ===================================================================== *)
(** * Pose arrays: data model                                             *)
(* ===================================================================== *)

Module PoseArrays.

Inductive DisplayType := axis | arrow | line.

Definition DisplayType_eqb (a b : DisplayType) : bool :=
  match a, b with
  | axis, axis | arrow, arrow | line, line => true
  | _, _ => false
  end.

Record ColorRGBA := { c_r : number; c_g : number; c_b : number; c_a : number }.

Record LayerSettingsPoseArray := {
  visible : bool;
  type : DisplayType;
  axisScale : number;
  arrowScale : number * number * number;
  lineWidth : number;
  gradient : string * string;
  trolley : bool;
}.

Record PoseArray := { header : Header; poses : list Pose }.

(** The vendor robot-state path and its elements. *)
Record MirRobotState := {
  pose_x : option number;
  pose_y : option number;
  pose_theta : option number;
  velocity_x : option number;
  velocity_theta : option number;
  hook_angle : option number;
}.

Record MirRobotStatePath := {
  mir_header : option PartialHeader;
  path : option (list (option MirRobotState));
  has_trolley : option bool;
  robot_to_trolley_dist : option number;
}.

(** [THREE.Euler], in the default order. *)
Record Euler := { e_x : number; e_y : number; e_z : number }.

(** [new THREE.Euler(x, y, z)]: a parameter that is [undefined] takes
    its default, 0. *)
Definition new_Euler (x y z : option number) : Euler :=
  {| e_x := Js.nullish x Js.zero; e_y := Js.nullish y Js.zero; e_z := Js.nullish z Js.zero |}.

(** The marker of the connected line: its header, its width
    ([scale.x]), its vertices and their colours; the other fields of
    the marker are constants. *)
Record LineStripMarker := {
  ls_header : Header;
  ls_width : number;
  ls_points : list Vector3;
  ls_colors : list ColorRGBA;
}.

Section Objects.

(** The marker type of an arrow is that of [createArrowMarker]. *)
Variable Marker : Type.

(** Scene objects.  The [_id] field is the identity of the object. *)
Record Axis := {
  axis_id : nat;
  axis_visible : bool;
  axis_scale : Vector3;
  axis_position : Vector3;
  axis_quaternion : Quaternion;
}.

Record RenderableArrow := {
  arrow_id : nat;
  arrow_visible : bool;
  arrow_marker : Marker;
  arrow_position : Vector3;
  arrow_quaternion : Quaternion;
}.

Record RenderableLineStrip := { line_id : nat; line_marker : LineStripMarker }.

(** [PoseArrayRenderable]: the user data (without the untyped copy of
    the original message) and the ids of the children attached to the
    node in the scene graph. *)
Record Renderable := {
  receiveTime : Z;
  messageTime : Z;
  frameId : string;
  settings : LayerSettingsPoseArray;
  topic : string;
  poseArrayMessage : PoseArray;
  axes : list Axis;
  arrows : list RenderableArrow;
  trolley_arrows : list RenderableArrow;
  trolley_numbers : list number;
  robot_angle : list number;
  trolley_length : number;
  lineStrip : option RenderableLineStrip;
  children : list nat;
}.

End Objects.

Arguments axis_id : clear implicits.
Arguments arrow_id {Marker} _.
Arguments arrow_visible {Marker} _.
Arguments arrow_marker {Marker} _.
Arguments arrow_position {Marker} _.
Arguments arrow_quaternion {Marker} _.
Arguments Build_RenderableArrow {Marker} _ _ _ _ _.
Arguments receiveTime {Marker} _.
Arguments messageTime {Marker} _.
Arguments frameId {Marker} _.
Arguments settings {Marker} _.
Arguments topic {Marker} _.
Arguments poseArrayMessage {Marker} _.
Arguments axes {Marker} _.
Arguments arrows {Marker} _.
Arguments trolley_arrows {Marker} _.
Arguments trolley_numbers {Marker} _.
Arguments robot_angle {Marker} _.
Arguments trolley_length {Marker} _.
Arguments lineStrip {Marker} _.
Arguments children {Marker} _.
Arguments Build_Renderable {Marker} _ _ _ _ _ _ _ _ _ _ _ _ _ _.

(** The scene: the allocation counter of objects and the ids of the
    objects on which [dispose()] was called. *)
Record Scene := { next_id : nat; disposed : list nat }.

Definition alloc (sc : Scene) : Scene :=
  {| next_id := S (next_id sc); disposed := disposed sc |}.

Definition dispose (sc : Scene) (id : nat) : Scene :=
  {| next_id := next_id sc; disposed := id :: disposed sc |}.

(** [Math.PI] *)
Definition PI : number := S754_finite false 7074237752028440 (-51).

(** Modelled from the spec: [vecEqual] of [math.ts] is not among the
    sources.  Two settings vectors are compared by value, component by
    component, with [!==] on the components. *)
Definition vecEqual_numbers (a b : number * number * number) : bool :=
  let '(a1, a2, a3) := a in
  let '(b1, b2, b3) := b in
  Js.strict_eq a1 b1 && Js.strict_eq a2 b2 && Js.strict_eq a3 b3.

Definition vecEqual_strings (a b : string * string) : bool :=
  String.eqb (fst a) (fst b) && String.eqb (snd a) (snd b).

(** The gradient parameter of the child at index [i] of a pose array of
    [count] poses: [i / (poses.length - 1)], a number division. *)
Definition gradient_t (i count : nat) : number :=
  Js.div (Js.of_nat i) (Js.of_Z (Z.of_nat count - 1)).

Section Extension.

(** External collaborators: the length of an axis, the colour parser
    and the gradient of [color.ts], the arrow marker of [Poses.ts],
    the renderer's frame-id normalisation and the two quaternion
    constructions of the graphics library. *)
Variable AXIS_LENGTH : number.
Variable stringToRgba : string -> ColorRGBA.
Variable rgbaGradient : ColorRGBA -> ColorRGBA -> number -> ColorRGBA.
Variable Marker : Type.
Variable createArrowMarker : number * number * number -> ColorRGBA -> Marker.
Variable normalizeFrameId : string -> string.
Variable setFromAxisAngle : Vector3 -> number -> Quaternion.
Variable setFromEuler : Euler -> Quaternion.

Abbreviation Arrow := (RenderableArrow Marker).
Abbreviation Node := (Renderable Marker).
Abbreviation state := (Scene * Renderable Marker)%type.

(** Modelled from the spec: the classes [Axis], [RenderableArrow] and
    [RenderableLineStrip] are not among the sources.  A scene object
    is constructed visible, at the origin, with the identity
    orientation and unit scale, and receives the next identity. *)
Definition origin3 : Vector3 := {| v_x := Js.zero; v_y := Js.zero; v_z := Js.zero |}.
Definition identityq : Quaternion :=
  {| q_x := Js.zero; q_y := Js.zero; q_z := Js.zero; q_w := Js.one |}.

Definition new_Axis (id : nat) : Axis :=
  {| axis_id := id; axis_visible := true;
     axis_scale := {| v_x := Js.one; v_y := Js.one; v_z := Js.one |};
     axis_position := origin3; axis_quaternion := identityq |}.

Definition new_RenderableArrow (id : nat) (marker : Marker) : Arrow :=
  {| arrow_id := id; arrow_visible := true; arrow_marker := marker;
     arrow_position := origin3; arrow_quaternion := identityq |}.

Definition new_RenderableLineStrip (id : nat) (marker : LineStripMarker)
  : RenderableLineStrip :=
  {| line_id := id; line_marker := marker |}.

(** Field assignments on the objects. *)
Definition axis_show (s : number) (a : Axis) : Axis :=
  {| axis_id := axis_id a; axis_visible := true;
     axis_scale := {| v_x := s; v_y := s; v_z := s |};
     axis_position := axis_position a; axis_quaternion := axis_quaternion a |}.

Definition axis_set_scale (s : number) (a : Axis) : Axis :=
  {| axis_id := axis_id a; axis_visible := axis_visible a;
     axis_scale := {| v_x := s; v_y := s; v_z := s |};
     axis_position := axis_position a; axis_quaternion := axis_quaternion a |}.

Definition axis_hide (a : Axis) : Axis :=
  {| axis_id := axis_id a; axis_visible := false;
     axis_scale := axis_scale a;
     axis_position := axis_position a; axis_quaternion := axis_quaternion a |}.

Definition axis_set_pose (p : Pose) (a : Axis) : Axis :=
  {| axis_id := axis_id a; axis_visible := axis_visible a;
     axis_scale := axis_scale a;
     axis_position := position p; axis_quaternion := orientation p |}.

(** [arrow.visible = true; arrow.update(marker, undefined)] *)
Definition arrow_show (marker : Marker) (a : Arrow) : Arrow :=
  {| arrow_id := arrow_id a; arrow_visible := true; arrow_marker := marker;
     arrow_position := arrow_position a; arrow_quaternion := arrow_quaternion a |}.

Definition arrow_hide (a : Arrow) : Arrow :=
  {| arrow_id := arrow_id a; arrow_visible := false; arrow_marker := arrow_marker a;
     arrow_position := arrow_position a; arrow_quaternion := arrow_quaternion a |}.

Definition arrow_set_pose (p : Vector3) (q : Quaternion) (a : Arrow) : Arrow :=
  {| arrow_id := arrow_id a; arrow_visible := arrow_visible a;
     arrow_marker := arrow_marker a;
     arrow_position := p; arrow_quaternion := q |}.

(** Field assignments on the renderable. *)
Definition set_axes (r : Node) (l : list Axis) : Node :=
  {| receiveTime := receiveTime r; messageTime := messageTime r; frameId := frameId r;
     settings := settings r; topic := topic r; poseArrayMessage := poseArrayMessage r;
     axes := l; arrows := arrows r; trolley_arrows := trolley_arrows r;
     trolley_numbers := trolley_numbers r; robot_angle := robot_angle r;
     trolley_length := trolley_length r; lineStrip := lineStrip r;
     children := children r |}.

Definition set_arrows (r : Node) (l : list Arrow) : Node :=
  {| receiveTime := receiveTime r; messageTime := messageTime r; frameId := frameId r;
     settings := settings r; topic := topic r; poseArrayMessage := poseArrayMessage r;
     axes := axes r; arrows := l; trolley_arrows := trolley_arrows r;
     trolley_numbers := trolley_numbers r; robot_angle := robot_angle r;
     trolley_length := trolley_length r; lineStrip := lineStrip r;
     children := children r |}.

Definition set_trolley_arrows (r : Node) (l : list Arrow) : Node :=
  {| receiveTime := receiveTime r; messageTime := messageTime r; frameId := frameId r;
     settings := settings r; topic := topic r; poseArrayMessage := poseArrayMessage r;
     axes := axes r; arrows := arrows r; trolley_arrows := l;
     trolley_numbers := trolley_numbers r; robot_angle := robot_angle r;
     trolley_length := trolley_length r; lineStrip := lineStrip r;
     children := children r |}.

Definition set_lineStrip (r : Node) (l : option RenderableLineStrip) : Node :=
  {| receiveTime := receiveTime r; messageTime := messageTime r; frameId := frameId r;
     settings := settings r; topic := topic r; poseArrayMessage := poseArrayMessage r;
     axes := axes r; arrows := arrows r; trolley_arrows := trolley_arrows r;
     trolley_numbers := trolley_numbers r; robot_angle := robot_angle r;
     trolley_length := trolley_length r; lineStrip := l;
     children := children r |}.

Definition set_children (r : Node) (l : list nat) : Node :=
  {| receiveTime := receiveTime r; messageTime := messageTime r; frameId := frameId r;
     settings := settings r; topic := topic r; poseArrayMessage := poseArrayMessage r;
     axes := axes r; arrows := arrows r; trolley_arrows := trolley_arrows r;
     trolley_numbers := trolley_numbers r; robot_angle := robot_angle r;
     trolley_length := trolley_length r; lineStrip := lineStrip r;
     children := l |}.

Definition set_settings (r : Node) (s : LayerSettingsPoseArray) : Node :=
  {| receiveTime := receiveTime r; messageTime := messageTime r; frameId := frameId r;
     settings := s; topic := topic r; poseArrayMessage := poseArrayMessage r;
     axes := axes r; arrows := arrows r; trolley_arrows := trolley_arrows r;
     trolley_numbers := trolley_numbers r; robot_angle := robot_angle r;
     trolley_length := trolley_length r; lineStrip := lineStrip r;
     children := children r |}.

Definition set_message (r : Node) (m : PoseArray) (time : Z) : Node :=
  {| receiveTime := time; messageTime := toNanoSec (stamp (header m));
     frameId := normalizeFrameId (frame_id (header m));
     settings := settings r; topic := topic r; poseArrayMessage := m;
     axes := axes r; arrows := arrows r; trolley_arrows := trolley_arrows r;
     trolley_numbers := trolley_numbers r; robot_angle := robot_angle r;
     trolley_length := trolley_length r; lineStrip := lineStrip r;
     children := children r |}.

(** [renderable.add(object)] and [renderable.remove(object)] *)
Definition add_child (r : Node) (id : nat) : Node :=
  set_children r (children r ++ [id]).

Definition remove_child (r : Node) (id : nat) : Node :=
  set_children r (filter (fun c => c ≠ id) (children r)).

(** [removeAxes], [removeArrows], [removeTrolley], [removeLineStrip]:
    every object of the pool is detached from the node and disposed, and
    the pool is emptied. *)
Definition release (st : state) (id : nat) : state :=
  let '(sc, r) := st in
  (dispose sc id, remove_child r id).

Definition removeArrows (st : state) : state :=
  let '(sc, r) := foldl (fun st a => release st (arrow_id a)) st (arrows (snd st)) in
  (sc, set_arrows r []).

Definition removeAxes (st : state) : state :=
  let '(sc, r) := foldl (fun st a => release st (axis_id a)) st (axes (snd st)) in
  (sc, set_axes r []).

Definition removeTrolley (st : state) : state :=
  let '(sc, r) :=
    foldl (fun st a => release st (arrow_id a)) st (trolley_arrows (snd st)) in
  (sc, set_trolley_arrows r []).

Definition removeLineStrip (st : state) : state :=
  match lineStrip (snd st) with
  | Some l =>
      let '(sc, r) := release st (line_id l) in
      (sc, set_lineStrip r None)
  | None => st
  end.

(** ** Pool synchronisation *)

Definition _createAxesToMatchPoses (st : state) (poseArray : PoseArray) : state :=
  let '(sc, r) := st in
  let scale := Js.mul (axisScale (settings r)) (Js.div Js.one AXIS_LENGTH) in
  let count := length (poses poseArray) in
  (* update the scale and visibility of existing axes *)
  let existingUpdateCount := min (length (axes r)) count in
  let r :=
    Js.for_range 0 existingUpdateCount
      (fun i r => set_axes r (alter (axis_show scale) i (axes r))) r in
  (* create any axes as needed *)
  let '(sc, r) :=
    Js.for_range (length (axes r)) count
      (fun i '(sc, r) =>
         let a := new_Axis (next_id sc) in
         let sc := alloc sc in
         let r := set_axes r (axes r ++ [axis_set_scale scale a]) in
         let r := add_child r (axis_id a) in
         (sc, r))
      (sc, r) in
  (* hide any axes as needed *)
  let r :=
    Js.for_range count (length (axes r))
      (fun i r => set_axes r (alter axis_hide i (axes r))) r in
  (sc, r).

(** The colour handed to [createArrowMarker] for the child at index [i]. *)
Definition arrow_color (colorStart colorEnd : ColorRGBA) (count i : nat) : ColorRGBA :=
  let t := gradient_t i count in
  rgbaGradient colorStart colorEnd t.

Definition createArrowMarkerFromIndex
    (r : Node) (poseArray : PoseArray) (colorStart colorEnd : ColorRGBA) (i : nat) : Marker :=
  let color := arrow_color colorStart colorEnd (length (poses poseArray)) i in
  createArrowMarker (arrowScale (settings r)) color.

Definition _createArrowsToMatchPoses
    (st : state) (poseArray : PoseArray) (colorStart colorEnd : ColorRGBA) : state :=
  let '(sc, r) := st in
  let count := length (poses poseArray) in
  let marker := createArrowMarkerFromIndex r poseArray colorStart colorEnd in
  let existingUpdateCount := min (length (arrows r)) count in
  let r :=
    Js.for_range 0 existingUpdateCount
      (fun i r => set_arrows r (alter (arrow_show (marker i)) i (arrows r))) r in
  let '(sc, r) :=
    Js.for_range (length (arrows r)) count
      (fun i '(sc, r) =>
         let a := new_RenderableArrow (next_id sc) (marker i) in
         let sc := alloc sc in
         let r := set_arrows r (arrows r ++ [a]) in
         let r := add_child r (arrow_id a) in
         (sc, r))
      (sc, r) in
  let r :=
    Js.for_range count (length (arrows r))
      (fun i r => set_arrows r (alter arrow_hide i (arrows r))) r in
  (sc, r).

(** The literal [0.025]. *)
Definition lit_0_025 : number := S754_finite false 7205759403792794 (-58).

Definition trolley_marker (r : Node) : Marker :=
  let color := {| c_r := Js.zero; c_g := Js.zero; c_b := Js.one; c_a := Js.one |} in
  createArrowMarker (trolley_length r, lit_0_025, lit_0_025) color.

Definition _createTrolleyArrowsToMatchPoses (st : state) (poseArray : PoseArray) : state :=
  let '(sc, r) := st in
  let count := length (poses poseArray) in
  let existingUpdateCount := min (length (trolley_arrows r)) count in
  let r :=
    Js.for_range 0 existingUpdateCount
      (fun i r =>
         set_trolley_arrows r (alter (arrow_show (trolley_marker r)) i (trolley_arrows r)))
      r in
  let '(sc, r) :=
    Js.for_range (length (trolley_arrows r)) count
      (fun i '(sc, r) =>
         let a := new_RenderableArrow (next_id sc) (trolley_marker r) in
         let sc := alloc sc in
         let r := set_trolley_arrows r (trolley_arrows r ++ [a]) in
         let r := add_child r (arrow_id a) in
         (sc, r))
      (sc, r) in
  let r :=
    Js.for_range count (length (trolley_arrows r))
      (fun i r => set_trolley_arrows r (alter arrow_hide i (trolley_arrows r))) r in
  (sc, r).

(** ** The connected line *)

Definition createLineStripMarker
    (message : PoseArray) (lineWidth : number) (colorStart colorEnd : ColorRGBA)
  : LineStripMarker :=
  let colors :=
    Js.for_range 0 (length (poses message))
      (fun i colors =>
         let t := gradient_t i (length (poses message)) in
         colors ++ [rgbaGradient colorStart colorEnd t])
      [] in
  {| ls_header := header message;
     ls_width := lineWidth;
     ls_points := map position (poses message);
     ls_colors := colors |}.

(** [lineStrip.update(marker, undefined)] *)
Definition line_update (marker : LineStripMarker) (l : RenderableLineStrip)
  : RenderableLineStrip :=
  {| line_id := line_id l; line_marker := marker |}.

(** ** Placing the children *)

(** [setObjectPose(axes[i], poses[i])] for every pose. *)
Definition place_axes (r : Node) (ps : list Pose) : Node :=
  Js.for_range 0 (length ps)
    (fun i r =>
       match ps !! i with
       | Some p => set_axes r (alter (axis_set_pose p) i (axes r))
       | None => r
       end)
    r.

Definition place_arrows (r : Node) (ps : list Pose) : Node :=
  Js.for_range 0 (length ps)
    (fun i r =>
       match ps !! i with
       | Some p =>
           set_arrows r (alter (arrow_set_pose (position p) (orientation p)) i (arrows r))
       | None => r
       end)
    r.

(** [setObjectPoseTrolley]: the heading is [robot_angle + trolley_angle +
    Math.PI] about the z axis; an angle missing from its array makes the
    sum NaN. *)
Definition trolley_heading (r : Node) (i : nat) : Quaternion :=
  let trolley_angle := Js.nullish (trolley_numbers r !! i) Js.NaN in
  let robot := Js.nullish (robot_angle r !! i) Js.NaN in
  setFromAxisAngle {| v_x := Js.zero; v_y := Js.zero; v_z := Js.one |}
    (Js.add (Js.add robot trolley_angle) PI).

Definition place_trolley (r : Node) (ps : list Pose) : Node :=
  Js.for_range 0 (length ps)
    (fun i r =>
       match ps !! i with
       | Some p =>
           set_trolley_arrows r
             (alter (arrow_set_pose (position p) (trolley_heading r i)) i (trolley_arrows r))
       | None => r
       end)
    r.

(** ** The update of a renderable *)

(** [axisOrArrowSettingsChanged]: one of the five compared fields
    differs, or both pools are empty. *)
Definition fieldsChanged (new prev : LayerSettingsPoseArray) : bool :=
  negb (Bool.eqb (trolley new) (trolley prev))
  || negb (DisplayType_eqb (type new) (type prev))
  || Js.strict_ne (axisScale new) (axisScale prev)
  || negb (vecEqual_numbers (arrowScale new) (arrowScale prev))
  || negb (vecEqual_strings (gradient new) (gradient prev)).

Definition settingsChanged (r : Node) (new prev : LayerSettingsPoseArray) : bool :=
  fieldsChanged new prev
  || ((length (arrows r) =? 0) && (length (axes r) =? 0)).

(** The branch taken when the settings changed: the pools are released
    and, in line mode, the line is built. *)
Definition rebuild
    (st : state) (poseArrayMessage : PoseArray) (colorStart colorEnd : ColorRGBA) : state :=
  let st := if trolley (settings (snd st)) then removeTrolley st else st in
  match type (settings (snd st)) with
  | axis =>
      let st := removeArrows st in
      removeLineStrip st
  | arrow =>
      let st := removeAxes st in
      removeLineStrip st
  | line =>
      let st := removeArrows st in
      let '(sc, r) := removeAxes st in
      let lineStripMarker :=
        createLineStripMarker poseArrayMessage (lineWidth (settings r)) colorStart colorEnd in
      let '(sc, r) :=
        match lineStrip r with
        | Some _ => (sc, r)
        | None =>
            let l := new_RenderableLineStrip (next_id sc) lineStripMarker in
            let sc := alloc sc in
            let r := set_lineStrip r (Some l) in
            (sc, add_child r (line_id l))
        end in
      (sc, set_lineStrip r (line_update lineStripMarker <$> lineStrip r))
  end.

(** The second half of the update, under the source's comment "update
    the pose for each pose renderable": the pass over the trolley arrows
    when the attachment is on, then the pool of the display mode. *)
Definition sync_pools
    (st : state) (poseArrayMessage : PoseArray) (new_settings : LayerSettingsPoseArray)
    (colorStart colorEnd : ColorRGBA) : state :=
  let st :=
    if trolley new_settings then
      let '(sc, r) := _createTrolleyArrowsToMatchPoses st poseArrayMessage in
      (sc, place_trolley r (poses poseArrayMessage))
    else st in
  match type new_settings with
  | axis =>
      let '(sc, r) := _createAxesToMatchPoses st poseArrayMessage in
      (sc, place_axes r (poses poseArrayMessage))
  | arrow =>
      let '(sc, r) := _createArrowsToMatchPoses st poseArrayMessage colorStart colorEnd in
      (sc, place_arrows r (poses poseArrayMessage))
  | line =>
      let '(sc, r) := st in
      let lineStripMarker :=
        createLineStripMarker poseArrayMessage (lineWidth new_settings) colorStart colorEnd in
      (sc, set_lineStrip r (line_update lineStripMarker <$> lineStrip r))
  end.

Definition _updatePoseArrayRenderable
    (st : state) (poseArrayMessage : PoseArray) (time : Z)
    (new_settings : LayerSettingsPoseArray) : state :=
  let '(sc, r) := st in
  let r := set_message r poseArrayMessage time in
  let prevSettings := settings r in
  let axisOrArrowSettingsChanged := settingsChanged r new_settings prevSettings in
  let r := set_settings r new_settings in
  let colorStart := stringToRgba (fst (gradient new_settings)) in
  let colorEnd := stringToRgba (snd (gradient new_settings)) in
  let st :=
    if axisOrArrowSettingsChanged
    then rebuild (sc, r) poseArrayMessage colorStart colorEnd
    else (sc, r) in
  sync_pools st poseArrayMessage new_settings colorStart colorEnd.

(** ** The vendor robot-state-path adapter *)

Definition normalizeMirPose (input_pose : option MirRobotState) : Pose :=
  match input_pose with
  | None => normalizePose None
  | Some p =>
      let euler :=
        new_Euler
          (Some (Js.mul Js.minus_one (Js.nullish (velocity_theta p) Js.zero)))
          (Some Js.zero)
          (pose_theta p) in
      let q1 := setFromEuler euler in
      {| position := {| v_x := Js.nullish (pose_x p) Js.zero;
                        v_y := Js.nullish (pose_y p) Js.zero;
                        v_z := Js.nullish (velocity_x p) Js.zero |};
         orientation := q1 |}
  end.

Definition normalizeMirPoseArray (poseArray : option MirRobotStatePath) : PoseArray :=
  match poseArray with
  | None => {| header := normalizeHeader None; poses := [] |}
  | Some m =>
      {| header := normalizeHeader (mir_header m);
         poses := Js.nullish (map normalizeMirPose <$> path m) [] |}
  end.

End Extension.

Arguments new_RenderableArrow {Marker} _ _.
Arguments arrow_show {Marker} _ _.
Arguments arrow_hide {Marker} _.
Arguments arrow_set_pose {Marker} _ _ _.
Arguments set_axes {Marker} _ _.
Arguments set_arrows {Marker} _ _.
Arguments set_trolley_arrows {Marker} _ _.
Arguments set_lineStrip {Marker} _ _.
Arguments set_children {Marker} _ _.
Arguments set_settings {Marker} _ _.
Arguments set_message {Marker} _ _ _ _.
Arguments add_child {Marker} _ _.
Arguments remove_child {Marker} _ _.
Arguments release {Marker} _ _.
Arguments removeArrows {Marker} _.
Arguments removeAxes {Marker} _.
Arguments removeTrolley {Marker} _.
Arguments removeLineStrip {Marker} _.
Arguments _createAxesToMatchPoses _ {Marker} _ _.
Arguments createArrowMarkerFromIndex _ {Marker} _ _ _ _ _ _.
Arguments _createArrowsToMatchPoses _ {Marker} _ _ _ _ _.
Arguments trolley_marker {Marker} _ _.
Arguments _createTrolleyArrowsToMatchPoses {Marker} _ _ _.
Arguments place_axes {Marker} _ _.
Arguments place_arrows {Marker} _ _.
Arguments trolley_heading {Marker} _ _ _.
Arguments place_trolley {Marker} _ _ _.
Arguments settingsChanged {Marker} _ _ _.
Arguments rebuild _ {Marker} _ _ _ _.
Arguments sync_pools _ _ {Marker} _ _ _ _ _ _ _.
Arguments _updatePoseArrayRenderable _ _ _ {Marker} _ _ _ _ _ _ _.

(** The identities of the objects of each pool. *)
Definition axes_ids {Marker : Type} (r : Renderable Marker) : list nat :=
  map axis_id (axes r).
Definition arrows_ids {Marker : Type} (r : Renderable Marker) : list nat :=
  map arrow_id (arrows r).
Definition trolley_ids {Marker : Type} (r : Renderable Marker) : list nat :=
  map arrow_id (trolley_arrows r).
Definition line_ids {Marker : Type} (r : Renderable Marker) : list nat :=
  match lineStrip r with Some l => [line_id l] | None => [] end.

(** A step from [st] to [st'] releases the objects [ids]: [dispose()] is
    called on each of them, in order, and on nothing else; they are
    detached from the node and no other child is; nothing is allocated
    and the settings stay. *)
Definition releases {Marker : Type} (ids : list nat) (st st' : Scene * Renderable Marker)
  : Prop :=
  disposed st'.1 = rev ids ++ disposed st.1
  /\ next_id st'.1 = next_id st.1
  /\ (forall c, c ∈ children st'.2 <-> c ∈ children st.2 /\ c ∉ ids)
  /\ settings st'.2 = settings st.2.

(** What a pass over one pool leaves alone: it disposes nothing and
    keeps the settings, the line and the trolley data. *)
Record untouched {Marker : Type} (sc sc' : Scene) (r r' : Renderable Marker) : Prop := {
  same_disposed : disposed sc' = disposed sc;
  same_settings : settings r' = settings r;
  same_lineStrip : lineStrip r' = lineStrip r;
  same_trolley_numbers : trolley_numbers r' = trolley_numbers r;
  same_robot_angle : robot_angle r' = robot_angle r;
  same_trolley_length : trolley_length r' = trolley_length r;
}.

(** The pool of a display mode, seen as the identity and the visibility
    of each child, in index order; line mode has no pool. *)
Definition pool_view {Marker : Type} (ty : DisplayType) (r : Renderable Marker)
  : list (nat * bool) :=
  match ty with
  | axis => map (fun a => (axis_id a, axis_visible a)) (axes r)
  | arrow => map (fun a => (arrow_id a, arrow_visible a)) (arrows r)
  | line => []
  end.

(** The position and the orientation of the child at an index of the
    pool of a display mode. *)
Definition pool_pose {Marker : Type} (ty : DisplayType) (r : Renderable Marker) (i : nat)
  : option (Vector3 * Quaternion) :=
  match ty with
  | axis => (fun a => (axis_position a, axis_quaternion a)) <$> axes r !! i
  | arrow => (fun a => (arrow_position a, arrow_quaternion a)) <$> arrows r !! i
  | line => None
  end.

(** The objects that belong to the pools a display mode does not use. *)
Definition other_pool_ids {Marker : Type} (ty : DisplayType) (r : Renderable Marker)
  : list nat :=
  match ty with
  | axis => arrows_ids r ++ line_ids r
  | arrow => axes_ids r ++ line_ids r
  | line => arrows_ids r ++ axes_ids r
  end.

End PoseArrays.

(* ===================================================================== *)
(** * Sample inputs                                                       *)
(* ===================================================================== *)

Module Samples.

Definition header0 : Header := normalizeHeader None.
Definition pose0 : Pose := normalizePose None.
Definition time0 : Time := {| sec := 0; nsec := 0 |}.

Definition grid (w h : nat) (cells : list Z) : Grid.OccupancyGrid :=
  {| Grid.header := header0;
     Grid.info := {| Grid.map_load_time := time0; Grid.resolution := Js.one;
                     Grid.width := w; Grid.height := h; Grid.origin := pose0 |};
     Grid.data := cells |}.

Definition renderer0 : Grid.Renderer :=
  {| Grid.errors := []; Grid.config_topics := ∅; Grid.disposed := []; Grid.next_id := 1 |}.

(** A renderable that shows [g] on channel [tp], with the texture 0. *)
Definition grid_renderable (tp : string) (g : Grid.OccupancyGrid) : Grid.Renderable :=
  let w := Grid.width (Grid.info g) in
  let h := Grid.height (Grid.info g) in
  {| Grid.receiveTime := 0; Grid.messageTime := 0; Grid.frameId := EmptyString;
     Grid.pose := pose0; Grid.settings := Grid.DEFAULT_SETTINGS; Grid.topic := tp;
     Grid.occupancyGrid := g;
     Grid.texture := {| Grid.tex_id := 0; Grid.image_width := w; Grid.image_height := h;
                        Grid.image_data := replicate (w * h * 4) 7%Z;
                        Grid.needsUpdate := false |};
     Grid.material := {| Grid.mat_map := 0; Grid.transparent := true;
                         Grid.depthWrite := false |};
     Grid.scale := {| v_x := Js.one; v_y := Js.one; v_z := Js.one |} |}.

Definition zeros (n : nat) : list Z := replicate n 0%Z.
Definition grid_4x4 : Grid.OccupancyGrid := grid 4 4 (zeros 16).
Definition grid_4x4_short : Grid.OccupancyGrid := grid 4 4 (zeros 15).
Definition grid_2x3 : Grid.OccupancyGrid := grid 2 3 (zeros 6).
Definition map_renderable : Grid.Renderable := grid_renderable "/map" grid_4x4.

Definition same_frame (f : string) : string := f.

(** Two PNG libraries: one that throws on every input, one that decodes
    every input to the same four pixels. *)
Definition png_throws (bytes : list Z) : option (list Z) := None.
Definition png_four (bytes : list Z) : option (list Z) := Some [1; 200; 3; 255]%Z.

Definition grid_event (tp : string) (m : Grid.PartialOccupancyGrid)
  : MessageEvent Grid.PartialOccupancyGrid :=
  {| ev_topic := tp; ev_schemaName := "nav_msgs/OccupancyGrid"; ev_receiveTime := time0;
     ev_publishTime := None; ev_message := m; ev_sizeInBytes := 0 |}.

Definition empty_message : Grid.PartialOccupancyGrid :=
  {| Grid.p_header := None; Grid.p_info := None; Grid.p_data := None |}.

Definition costmap_event (w h : nat) (packed : list Z) : MessageEvent Grid.CostmapData :=
  {| ev_topic := "/costmap"; ev_schemaName := "mirMsgs/CostmapData"; ev_receiveTime := time0;
     ev_publishTime := None;
     ev_message := {| Grid.c_header := None; Grid.c_resolution := Some Js.one;
                      Grid.c_width := w; Grid.c_height := h;
                      Grid.c_offset_x := Some Js.one; Grid.c_offset_y := Some Js.minus_one;
                      Grid.c_data := packed |};
     ev_sizeInBytes := 0 |}.

End Samples.

Module PoseSamples.

Import PoseArrays.

Definition white : ColorRGBA :=
  {| c_r := Js.one; c_g := Js.one; c_b := Js.one; c_a := Js.one |}.
Definition black : ColorRGBA :=
  {| c_r := Js.zero; c_g := Js.zero; c_b := Js.zero; c_a := Js.one |}.

(** A colour parser that knows two colours. *)
Definition parse_color (s : string) : ColorRGBA :=
  if String.eqb s "#ffffff" then white else black.

(** A gradient: the start colour at 0, the end colour at 1, and the
    channel-wise [a + (b - a) * t] elsewhere. *)
Definition mix (a b t : number) : number := Js.add a (Js.mul (Js.sub b a) t).

Definition linear_gradient (a b : ColorRGBA) (t : number) : ColorRGBA :=
  match t with
  | S754_zero false => a
  | S754_finite false 4503599627370496 (-52) => b
  | _ => {| c_r := mix (c_r a) (c_r b) t; c_g := mix (c_g a) (c_g b) t;
            c_b := mix (c_b a) (c_b b) t; c_a := mix (c_a a) (c_a b) t |}
  end.


(** An arrow marker: its scale and its colour. *)
Definition marker : Type := (number * number * number * ColorRGBA)%type.
Definition make_marker (scale : number * number * number) (c : ColorRGBA) : marker :=
  (scale, c).

Definition upright (axis : Vector3) (angle : number) : Quaternion :=
  {| q_x := Js.zero; q_y := Js.zero; q_z := Js.zero; q_w := Js.one |}.

Definition flat (e : Euler) : Quaternion :=
  {| q_x := e_x e; q_y := e_y e; q_z := e_z e; q_w := Js.one |}.

Definition settings_of (ty : DisplayType) (tr : bool) : LayerSettingsPoseArray :=
  {| visible := true; type := ty; axisScale := Js.one;
     arrowScale := (Js.one, Js.one, Js.one); lineWidth := Js.one;
     gradient := ("#ffffff", "#000000"); trolley := tr |}.

Definition pose_at (x : Z) : Pose :=
  {| position := {| v_x := Js.of_Z x; v_y := Js.zero; v_z := Js.zero |};
     orientation := {| q_x := Js.zero; q_y := Js.zero; q_z := Js.zero; q_w := Js.one |} |}.

Definition pose_array (n : nat) : PoseArray :=
  {| header := Samples.header0; poses := map (fun i => pose_at (Z.of_nat i)) (seq 0 n) |}.

Definition scene0 : Scene := {| next_id := 0; disposed := [] |}.

(** The renderable of a channel before its first message. *)
Definition node0 (s : LayerSettingsPoseArray) : Renderable marker :=
  {| receiveTime := 0; messageTime := 0; frameId := EmptyString; settings := s;
     topic := "/path"; poseArrayMessage := pose_array 0;
     axes := []; arrows := []; trolley_arrows := [];
     trolley_numbers := []; robot_angle := []; trolley_length := Js.one;
     lineStrip := None; children := [] |}.

Definition run :=
  _updatePoseArrayRenderable Js.one parse_color linear_gradient make_marker
    Samples.same_frame upright.

End PoseSamples.

(* ===================================================================== *)
(** * The handlers, the registries and the settings actions               *)
(* ===================================================================== *)

Module Palettes.
Import Grid.
(** The palette that [updateTexture] uses on a channel: the
    [switch (topic)]. *)
Definition palette (topic : string) : Z -> rgba :=
  if String.eqb topic "/traffic_map" then traffic_pixel
  else if String.eqb topic "/one_way_map" then one_way_pixel
  else default_pixel.
End Palettes.

Module CellSamples.
Import Grid Samples.
Definition grid_2x1 : OccupancyGrid := grid 2 1 [100; -32]%Z.
Definition tex_2x1 : DataTexture := texture (grid_renderable "/traffic_map" grid_2x1).
End CellSamples.

Module GridRegistry.
Import Grid.


(** The renderer and the renderable with which the update of a message
    starts: the renderable of the channel or, on the first message of
    the channel, the one [handleOccupancyGrid] constructs. *)
Definition starting_point (normalizeFrameId : string -> string)
    (rdr : Renderer) (renderables : gmap string Renderable)
    (tp : string) (g : OccupancyGrid) (time : Z) : Renderer * Renderable :=
  match renderables !! tp with
  | Some r => (rdr, r)
  | None =>
      let tex := snd (createTexture rdr g) in
      (fst (createTexture rdr g),
       {| receiveTime := time;
          messageTime := toNanoSec (stamp (header g));
          frameId := normalizeFrameId (frame_id (header g));
          pose := origin (info g);
          settings := mergeSettings (config_topics rdr !! tp);
          topic := tp;
          occupancyGrid := g;
          texture := tex;
          material := {| mat_map := tex_id tex; transparent := true; depthWrite := false |};
          scale := {| v_x := Js.one; v_y := Js.one; v_z := Js.one |} |})
  end.

End GridRegistry.

Module CostmapCells.
(** The cell indices that the two loops of [MirToRos] visit: [width * y
    + x] for a row counter [y] below the width and a column counter [x]
    below the height. *)
Definition visited (width height k : nat) : Prop :=
  exists y x, y < width /\ x < height /\ k = width * y + x.
End CostmapCells.

Module PngSamples.
Import Grid Samples.
Definition png_grid : OccupancyGrid := grid 2 2 [-119; 80; 78; 71; 13; 10; 26; 10]%Z.
Definition four_pixels : list Z := [1; 200; 3; 255]%Z.
End PngSamples.

Module GridSettings.
Import Grid.

(** A settings-tree action: its kind and, from its payload, the path of
    the edited field and the new value. *)
Record SettingsTreeAction (Value : Type) := {
  action : string;
  payload_path : list string;
  payload_value : Value;
}.
Arguments action {Value} _.
Arguments payload_path {Value} _.
Arguments payload_value {Value} _.

Definition occupancyGridHasTransparency : bool := true.

Definition set_settings (r : Renderable) (s : LayerSettingsOccupancyGrid) : Renderable :=
  {| receiveTime := receiveTime r; messageTime := messageTime r;
     frameId := frameId r; pose := pose r;
     settings := s; topic := topic r; occupancyGrid := occupancyGrid r;
     texture := texture r; material := material r; scale := scale r |}.

(** [material.transparent = t; material.depthWrite = !t]; the
    [needsUpdate] flag of the material has no counterpart in the data
    model. *)
Definition set_transparency (r : Renderable) (t : bool) : Renderable :=
  {| receiveTime := receiveTime r; messageTime := messageTime r;
     frameId := frameId r; pose := pose r;
     settings := settings r; topic := topic r; occupancyGrid := occupancyGrid r;
     texture := texture r;
     material := {| mat_map := mat_map (material r); transparent := t;
                    depthWrite := negb t |};
     scale := scale r |}.

Section Extension.

(** External collaborators, besides those of the message handlers:
    [saveSetting] of the scene-extension base class, which records the
    value in the renderer's configuration. *)
Variable normalizeFrameId : string -> string.
Variable decodePixels : list Z -> option (list Z).
Variable Value : Type.
Variable saveSetting : Renderer -> list string -> Value -> Renderer.

(** [handleSettingsAction]; the third component is the outcome of the
    update when one is run. *)
Definition handleSettingsAction
    (rdr : Renderer) (renderables : gmap string Renderable)
    (act : SettingsTreeAction Value)
  : Renderer * gmap string Renderable * option completion :=
  let path := payload_path act in
  if negb (String.eqb (action act) "update") || negb (length path =? 3) then
    (rdr, renderables, None)
  else
    let rdr := saveSetting rdr path (payload_value act) in
    (* update the renderable *)
    let topicName := default EmptyString (path !! 1) in
    match renderables !! topicName with
    | Some renderable =>
        let prevTransparent := occupancyGridHasTransparency in
        let settings := config_topics rdr !! topicName in
        let renderable := set_settings renderable (mergeSettings settings) in
        (* check if the transparency changed *)
        let newTransparent := occupancyGridHasTransparency in
        let renderable :=
          if negb (Bool.eqb prevTransparent newTransparent)
          then set_transparency renderable newTransparent
          else renderable in
        let '(rdr, renderable, c) :=
          _updateOccupancyGridRenderable normalizeFrameId decodePixels rdr renderable
            (occupancyGrid renderable) (receiveTime renderable) in
        (rdr, <[topicName := renderable]> renderables, Some c)
    | None => (rdr, renderables, None)
    end.

End Extension.

End GridSettings.

Module TrolleyData.
Import PoseArrays.
(** The data of the trolley attachment a renderable holds: the hook
    angles, the robot headings and the distance to the trolley. *)
Definition trolley_data {Marker : Type} (r : Renderable Marker)
  : list number * list number * number :=
  (trolley_numbers r, robot_angle r, trolley_length r).
End TrolleyData.

Module PoseMeta.
Import PoseArrays.
(** What a renderable records about the message it shows, about its
    channel and about the trolley attachment. *)
Definition meta {Marker : Type} (r : Renderable Marker)
  : Z * Z * string * LayerSettingsPoseArray * string * PoseArray
    * list number * list number * number :=
  (receiveTime r, messageTime r, frameId r, settings r, topic r, poseArrayMessage r,
   trolley_numbers r, robot_angle r, trolley_length r).
End PoseMeta.

Module PoseHandlers.
Import PoseArrays.

(** [Partial<LayerSettingsPoseArray>]: the configuration a user saved
    for a channel; a field that was never set is absent. *)
Record PartialSettings := {
  p_visible : option bool;
  p_type : option DisplayType;
  p_axisScale : option number;
  p_arrowScale : option (number * number * number);
  p_lineWidth : option number;
  p_gradient : option (string * string);
  p_trolley : option bool;
}.

(** A topic of the data source. *)
Record Topic := { topic_name : string; schemaName : string }.

(** The messages of the four subscriptions, in their partial form. *)
Record PartialPoseArray := {
  pa_header : option PartialHeader;
  pa_poses : option (list PartialPose);
}.

Record PartialPoseStamped := {
  ps_header : option PartialHeader;
  ps_pose : option PartialPose;
}.

Record PartialNavPath := {
  np_header : option PartialHeader;
  np_poses : option (list PartialPoseStamped);
}.

Record PartialPosesInFrame := {
  pf_timestamp : option PartialTime;
  pf_frame_id : option string;
  pf_poses : option (list PartialPose);
}.

(** A settings-tree action: its kind and, from its payload, the path of
    the edited field and the new value. *)
Record SettingsTreeAction (Value : Type) := {
  action : string;
  payload_path : list string;
  payload_value : Value;
}.
Arguments action {Value} _.
Arguments payload_path {Value} _.
Arguments payload_value {Value} _.

(** The part of the scene extension and of its renderer that the
    handlers touch: the scene objects, the reports made to the error
    store (the calls of [addToTopic], newest first), the user
    configuration, the topics of the data source by name and the
    renderables by channel. *)
Record Extension (Marker : Type) := {
  scene : Scene;
  errors : list Grid.LayerError;
  config_topics : gmap string PartialSettings;
  topicsByName : option (gmap string Topic);
  renderables : gmap string (Renderable Marker);
}.
Arguments scene {Marker} _.
Arguments errors {Marker} _.
Arguments config_topics {Marker} _.
Arguments topicsByName {Marker} _.
Arguments renderables {Marker} _.
Arguments Build_Extension {Marker} _ _ _ _ _.

(** How a handler ends: normally, or by the [TypeError] of reading a
    field of [undefined]. *)
Inductive outcome := Returned | Threw.

Definition MISMATCHED_FRAME_ID : string := "MISMATCHED_FRAME_ID".

(** The literals [0.15], [0.2] and [0.5]. *)
Definition lit_0_15 : number := S754_finite false 5404319552844595 (-55).
Definition lit_0_2 : number := S754_finite false 7205759403792794 (-55).
Definition lit_0_5 : number := S754_finite false 4503599627370496 (-53).

Definition DEFAULT_TROLLEY : bool := false.
Definition DEFAULT_TYPE : DisplayType := axis.
Definition DEFAULT_ARROW_SCALE : number * number * number := (Js.one, lit_0_15, lit_0_15).
Definition DEFAULT_LINE_WIDTH : number := lit_0_2.
Definition DEFAULT_GRADIENT : ColorRGBA * ColorRGBA :=
  ({| c_r := Js.div (Js.of_Z 124) (Js.of_Z 255); c_g := Js.div (Js.of_Z 107) (Js.of_Z 255);
      c_b := Js.one; c_a := Js.one |},
   {| c_r := Js.div (Js.of_Z 124) (Js.of_Z 255); c_g := Js.div (Js.of_Z 107) (Js.of_Z 255);
      c_b := Js.one; c_a := lit_0_5 |}).

(** The double quote of the diagnostic's message. *)
Definition dquote : string := String (Ascii.ascii_of_nat 34) EmptyString.

Section Extension.

(** External collaborators: those of the update of a renderable, the
    colour printer of [color.ts], the set [NAV_PATH_DATATYPES] of
    [ros.ts] and [saveSetting] of the scene-extension base class. *)
Variable AXIS_LENGTH : number.
Variable stringToRgba : string -> ColorRGBA.
Variable rgbaGradient : ColorRGBA -> ColorRGBA -> number -> ColorRGBA.
Variable rgbaToCssString : ColorRGBA -> string.
Variable Marker : Type.
Variable createArrowMarker : number * number * number -> ColorRGBA -> Marker.
Variable normalizeFrameId : string -> string.
Variable setFromAxisAngle : Vector3 -> number -> Quaternion.
Variable setFromEuler : Euler -> Quaternion.
Variable NAV_PATH_DATATYPES_has : string -> bool.
Variable Value : Type.
Variable saveSetting : Extension Marker -> list string -> Value -> Extension Marker.

Abbreviation Node := (Renderable Marker).
Abbreviation Ext := (Extension Marker).

Definition DEFAULT_AXIS_SCALE : number := AXIS_LENGTH.

Definition DEFAULT_GRADIENT_STR : string * string :=
  (rgbaToCssString (fst DEFAULT_GRADIENT), rgbaToCssString (snd DEFAULT_GRADIENT)).

Definition DEFAULT_SETTINGS : LayerSettingsPoseArray :=
  {| visible := false;
     type := DEFAULT_TYPE;
     axisScale := DEFAULT_AXIS_SCALE;
     arrowScale := DEFAULT_ARROW_SCALE;
     lineWidth := DEFAULT_LINE_WIDTH;
     gradient := DEFAULT_GRADIENT_STR;
     trolley := false |}.

Definition getDefaultType (topic : option Topic) : DisplayType :=
  match topic with
  | Some t => if NAV_PATH_DATATYPES_has (schemaName t) then line else DEFAULT_TYPE
  | None => DEFAULT_TYPE
  end.

(** [{ ...DEFAULT_SETTINGS, ...defaultType, ...userSettings }]; without
    a default type, [{ ...DEFAULT_SETTINGS, ...settings }]. *)
Definition mergeSettings (defaultType : option DisplayType) (user : option PartialSettings)
  : LayerSettingsPoseArray :=
  let field {A : Type} (f : PartialSettings -> option A) : option A :=
    match user with Some u => f u | None => None end in
  {| visible := Js.nullish (field p_visible) (visible DEFAULT_SETTINGS);
     type := Js.nullish (field p_type) (Js.nullish defaultType (type DEFAULT_SETTINGS));
     axisScale := Js.nullish (field p_axisScale) (axisScale DEFAULT_SETTINGS);
     arrowScale := Js.nullish (field p_arrowScale) (arrowScale DEFAULT_SETTINGS);
     lineWidth := Js.nullish (field p_lineWidth) (lineWidth DEFAULT_SETTINGS);
     gradient := Js.nullish (field p_gradient) (gradient DEFAULT_SETTINGS);
     trolley := Js.nullish (field p_trolley) (trolley DEFAULT_SETTINGS) |}.

(** ** Normalisation of the messages *)

Definition normalizePoseArray (poseArray : PartialPoseArray) : PoseArray :=
  {| header := normalizeHeader (pa_header poseArray);
     poses := Js.nullish (map (fun p => normalizePose (Some p)) <$> pa_poses poseArray) [] |}.

Definition normalizeNavPathToPoseArray (navPath : PartialNavPath) : PoseArray :=
  {| header := normalizeHeader (np_header navPath);
     poses := Js.nullish (map (fun p => normalizePose (ps_pose p)) <$> np_poses navPath) [] |}.

Definition normalizePosesInFrameToPoseArray (poseArray : PartialPosesInFrame) : PoseArray :=
  {| header := {| stamp := normalizeTime (pf_timestamp poseArray);
                  frame_id := Js.nullish (pf_frame_id poseArray) EmptyString |};
     poses := Js.nullish (map (fun p => normalizePose (Some p)) <$> pf_poses poseArray) [] |}.

(** ** Validation of a path *)

(** [validateNavPath] calls [renderer.settings.errors.addToTopic] for
    every pose whose frame differs from the frame of the path; each call
    is recorded in front of the reports made before. *)

Definition mismatch_message (baseFrameId curFrameId : string) : string :=
  "Path frame does not match frames of all poses. " +:+ dquote +:+ baseFrameId +:+ dquote
    +:+ " != " +:+ dquote +:+ curFrameId +:+ dquote.

Definition validateNavPath (messageEvent : MessageEvent PartialNavPath)
    (errs : list Grid.LayerError) : list Grid.LayerError * bool :=
  let topic := ev_topic messageEvent in
  let navPath := ev_message messageEvent in
  let errs :=
    match np_poses navPath with
    | Some poses =>
        let baseFrameId :=
          normalizeFrameId
            (Js.nullish (match np_header navPath with Some h => p_frame_id h | None => None end)
               EmptyString) in
        foldl
          (fun errs pose =>
             let curFrameId :=
               normalizeFrameId
                 (Js.nullish
                    (match ps_header pose with Some h => p_frame_id h | None => None end)
                    EmptyString) in
             if negb (String.eqb baseFrameId curFrameId) then
               {| Grid.err_topic := topic; Grid.err_id := MISMATCHED_FRAME_ID;
                  Grid.err_message := mismatch_message baseFrameId curFrameId |} :: errs
             else errs)
          errs poses
    | None => errs
    end in
  (errs, true).

(** ** The handlers *)

(** [new PoseArrayRenderable(topic, renderer, { ... })] *)
Definition new_PoseArrayRenderable (topic : string) (poseArrayMessage : PoseArray)
    (receiveTime : Z) (settings : LayerSettingsPoseArray) : Node :=
  {| PoseArrays.receiveTime := receiveTime;
     messageTime := toNanoSec (stamp (header poseArrayMessage));
     frameId := normalizeFrameId (frame_id (header poseArrayMessage));
     PoseArrays.settings := settings;
     PoseArrays.topic := topic;
     PoseArrays.poseArrayMessage := poseArrayMessage;
     axes := [];
     arrows := [];
     trolley_arrows := [];
     trolley_numbers := [];
     robot_angle := [];
     trolley_length := Js.zero;
     lineStrip := None;
     children := [] |}.

Definition set_scene (ext : Ext) (sc : Scene) : Ext :=
  {| scene := sc; errors := errors ext; config_topics := config_topics ext;
     topicsByName := topicsByName ext; renderables := renderables ext |}.

Definition set_errors (ext : Ext) (errs : list Grid.LayerError) : Ext :=
  {| scene := scene ext; errors := errs; config_topics := config_topics ext;
     topicsByName := topicsByName ext; renderables := renderables ext |}.

(** [this.renderables.set(topic, renderable)], also the write-back of
    the renderable a handler changed. *)
Definition set_renderable (ext : Ext) (topic : string) (r : Node) : Ext :=
  {| scene := scene ext; errors := errors ext; config_topics := config_topics ext;
     topicsByName := topicsByName ext; renderables := <[topic := r]> (renderables ext) |}.

Definition update_renderable (ext : Ext) (topic : string) (renderable : Node)
    (poseArrayMessage : PoseArray) (receiveTime : Z) (settings : LayerSettingsPoseArray)
  : Ext :=
  let '(sc, renderable) :=
    _updatePoseArrayRenderable AXIS_LENGTH stringToRgba rgbaGradient createArrowMarker
      normalizeFrameId setFromAxisAngle (scene ext, renderable) poseArrayMessage receiveTime
      settings in
  set_renderable (set_scene ext sc) topic renderable.

Definition addPoseArray (ext : Ext) (topic : string) (poseArrayMessage : PoseArray)
    (receiveTime : Z) : Ext :=
  let renderable :=
    match renderables ext !! topic with
    | Some renderable => renderable
    | None =>
        (* the initial settings: default values merged with any user settings *)
        let userSettings := config_topics ext !! topic in
        let defaultType :=
          getDefaultType (match topicsByName ext with Some m => m !! topic | None => None end) in
        let settings := mergeSettings (Some defaultType) userSettings in
        new_PoseArrayRenderable topic poseArrayMessage receiveTime settings
    end in
  update_renderable ext topic renderable poseArrayMessage receiveTime
    (PoseArrays.settings renderable).

Definition handlePoseArray (ext : Ext) (messageEvent : MessageEvent PartialPoseArray) : Ext :=
  let poseArrayMessage := normalizePoseArray (ev_message messageEvent) in
  let receiveTime := toNanoSec (ev_receiveTime messageEvent) in
  addPoseArray ext (ev_topic messageEvent) poseArrayMessage receiveTime.

Definition handleNavPath (ext : Ext) (messageEvent : MessageEvent PartialNavPath) : Ext :=
  let '(errs, valid) := validateNavPath messageEvent (errors ext) in
  let ext := set_errors ext errs in
  if negb valid then ext
  else
    let poseArrayMessage := normalizeNavPathToPoseArray (ev_message messageEvent) in
    let receiveTime := toNanoSec (ev_receiveTime messageEvent) in
    addPoseArray ext (ev_topic messageEvent) poseArrayMessage receiveTime.

Definition handlePosesInFrame (ext : Ext) (messageEvent : MessageEvent PartialPosesInFrame)
  : Ext :=
  let poseArrayMessage := normalizePosesInFrameToPoseArray (ev_message messageEvent) in
  let receiveTime := toNanoSec (ev_receiveTime messageEvent) in
  addPoseArray ext (ev_topic messageEvent) poseArrayMessage receiveTime.

(** [path?.forEach((_value) => out.push(_value.field ?? 0))] on an
    array emptied before: the values pushed and whether the loop ran to
    its end; reading the field of an element that is [undefined]
    throws. *)
Definition push_fields (field : MirRobotState -> option number)
    (path : option (list (option MirRobotState))) : list number * bool :=
  match path with
  | Some l =>
      foldl
        (fun (acc : list number * bool) (_value : option MirRobotState) =>
           let '(out, running) := acc in
           if running then
             match _value with
             | Some v => (out ++ [Js.nullish (field v) Js.zero], true)
             | None => (out, false)
             end
           else acc)
        ([], true) l
  | None => ([], true)
  end.

Definition set_trolley_length (r : Node) (d : number) : Node :=
  {| PoseArrays.receiveTime := PoseArrays.receiveTime r; messageTime := messageTime r;
     frameId := frameId r; PoseArrays.settings := PoseArrays.settings r;
     PoseArrays.topic := PoseArrays.topic r;
     PoseArrays.poseArrayMessage := PoseArrays.poseArrayMessage r;
     axes := axes r; arrows := arrows r; trolley_arrows := trolley_arrows r;
     trolley_numbers := trolley_numbers r; robot_angle := robot_angle r;
     trolley_length := d; lineStrip := lineStrip r; children := children r |}.

Definition set_robot_angle (r : Node) (l : list number) : Node :=
  {| PoseArrays.receiveTime := PoseArrays.receiveTime r; messageTime := messageTime r;
     frameId := frameId r; PoseArrays.settings := PoseArrays.settings r;
     PoseArrays.topic := PoseArrays.topic r;
     PoseArrays.poseArrayMessage := PoseArrays.poseArrayMessage r;
     axes := axes r; arrows := arrows r; trolley_arrows := trolley_arrows r;
     trolley_numbers := trolley_numbers r; robot_angle := l;
     trolley_length := trolley_length r; lineStrip := lineStrip r; children := children r |}.

Definition set_trolley_numbers (r : Node) (l : list number) : Node :=
  {| PoseArrays.receiveTime := PoseArrays.receiveTime r; messageTime := messageTime r;
     frameId := frameId r; PoseArrays.settings := PoseArrays.settings r;
     PoseArrays.topic := PoseArrays.topic r;
     PoseArrays.poseArrayMessage := PoseArrays.poseArrayMessage r;
     axes := axes r; arrows := arrows r; trolley_arrows := trolley_arrows r;
     trolley_numbers := l; robot_angle := robot_angle r;
     trolley_length := trolley_length r; lineStrip := lineStrip r; children := children r |}.

Definition handleMirRobotStatePath (ext : Ext)
    (messageEvent : MessageEvent MirRobotStatePath) : Ext * outcome :=
  let message := ev_message messageEvent in
  let poseArrayMessage := normalizeMirPoseArray setFromEuler (Some message) in
  let receiveTime := toNanoSec (ev_receiveTime messageEvent) in
  let topic := ev_topic messageEvent in
  let renderable :=
    match renderables ext !! topic with
    | Some renderable => renderable
    | None =>
        let userSettings := config_topics ext !! topic in
        let defaultType :=
          getDefaultType (match topicsByName ext with Some m => m !! topic | None => None end) in
        let settings := mergeSettings (Some defaultType) userSettings in
        new_PoseArrayRenderable topic poseArrayMessage receiveTime settings
    end in
  let ext := set_renderable ext topic renderable in
  let finish (renderable : Node) : Ext * outcome :=
    (update_renderable ext topic renderable poseArrayMessage receiveTime
       (PoseArrays.settings renderable), Returned) in
  if match has_trolley message with Some true => true | _ => false end then
    let renderable :=
      set_trolley_length renderable (Js.nullish (robot_to_trolley_dist message) Js.zero) in
    let '(angles, running) := push_fields pose_theta (path message) in
    let renderable := set_robot_angle renderable angles in
    if negb running then (set_renderable ext topic renderable, Threw)
    else
      let '(numbers, running) := push_fields hook_angle (path message) in
      let renderable := set_trolley_numbers renderable numbers in
      if negb running then (set_renderable ext topic renderable, Threw)
      else finish renderable
  else finish renderable.

(** [handleSettingsAction] *)
Definition handleSettingsAction (ext : Ext) (act : SettingsTreeAction Value) : Ext :=
  let path := payload_path act in
  if negb (String.eqb (action act) "update") || negb (length path =? 3) then ext
  else
    let ext := saveSetting ext path (payload_value act) in
    (* update the renderable *)
    let topicName := default EmptyString (path !! 1) in
    match renderables ext !! topicName with
    | Some renderable =>
        let settings := config_topics ext !! topicName in
        update_renderable ext topicName renderable
          (PoseArrays.poseArrayMessage renderable) (PoseArrays.receiveTime renderable)
          (mergeSettings None settings)
    | None => ext
    end.

End Extension.

Arguments new_PoseArrayRenderable {Marker} _ _ _ _ _.
Arguments set_scene {Marker} _ _.
Arguments set_errors {Marker} _ _.
Arguments set_renderable {Marker} _ _ _.
Arguments set_trolley_length {Marker} _ _.
Arguments set_robot_angle {Marker} _ _.
Arguments set_trolley_numbers {Marker} _ _.
Arguments update_renderable _ _ _ {Marker} _ _ _ _ _ _ _ _ _.
Arguments addPoseArray _ _ _ _ {Marker} _ _ _ _ _ _ _ _.
Arguments handlePoseArray _ _ _ _ {Marker} _ _ _ _ _ _.
Arguments handleNavPath _ _ _ _ {Marker} _ _ _ _ _ _.
Arguments handlePosesInFrame _ _ _ _ {Marker} _ _ _ _ _ _.
Arguments handleMirRobotStatePath _ _ _ _ {Marker} _ _ _ _ _ _ _.
Arguments handleSettingsAction _ _ _ _ {Marker} _ _ _ {Value} _ _ _.

(** The settings a renderable gets when the first message of its channel
    creates it: the defaults, the default type of the topic and the
    user's configuration of the channel. *)
Definition initial_settings {Marker : Type} (AXIS_LENGTH : number)
    (rgbaToCssString : ColorRGBA -> string) (NAV_PATH_DATATYPES_has : string -> bool)
    (ext : Extension Marker) (topic : string) : LayerSettingsPoseArray :=
  mergeSettings AXIS_LENGTH rgbaToCssString
    (Some (getDefaultType NAV_PATH_DATATYPES_has
             (match topicsByName ext with Some m => m !! topic | None => None end)))
    (config_topics ext !! topic).

(** The frame of a header, as the validation of a path reads it. *)
Definition frame_of (normalizeFrameId : string -> string) (h : option PartialHeader)
  : string :=
  normalizeFrameId
    (Js.nullish (match h with Some h => p_frame_id h | None => None end) EmptyString).

End PoseHandlers.

Module HandlerSamples.

Import PoseArrays PoseHandlers Samples PoseSamples.

(** A colour printer that prints every colour alike, and the set of
    path datatypes with one member. *)
Definition print_color (c : ColorRGBA) : string := "#000000".
Definition is_path (schema : string) : bool := String.eqb schema "nav_msgs/Path".

Definition plan_topic : Topic := {| topic_name := "/plan"; schemaName := "nav_msgs/Path" |}.

(** The extension before any message, without and with a data source
    that has the topic "/plan". *)
Definition ext0 : Extension marker :=
  {| scene := scene0; errors := []; config_topics := ∅; topicsByName := None;
     renderables := ∅ |}.

Definition topics1 : gmap string Topic := <["/plan" := plan_topic]> ∅.

Definition ext1 : Extension marker :=
  {| scene := scene0; errors := []; config_topics := ∅; topicsByName := Some topics1;
     renderables := ∅ |}.

Definition partial_pose (x : Z) : PartialPose :=
  {| p_position := Some {| pv_x := Some (Js.of_Z x); pv_y := None; pv_z := None |};
     p_orientation := None |}.

Definition poses_event : MessageEvent PartialPoseArray :=
  {| ev_topic := "/poses"; ev_schemaName := "geometry_msgs/PoseArray";
     ev_receiveTime := time0; ev_publishTime := None;
     ev_message := {| pa_header := None;
                      pa_poses := Some [partial_pose 1; partial_pose 2] |};
     ev_sizeInBytes := 0 |}.

Definition framed (f : string) : option PartialHeader :=
  Some {| p_stamp := None; p_frame_id := Some f |}.

Definition plan_event : MessageEvent PartialNavPath :=
  {| ev_topic := "/plan"; ev_schemaName := "nav_msgs/Path";
     ev_receiveTime := time0; ev_publishTime := None;
     ev_message :=
       {| np_header := framed "map";
          np_poses := Some [ {| ps_header := framed "map"; ps_pose := Some (partial_pose 1) |};
                             {| ps_header := framed "odom"; ps_pose := Some (partial_pose 2) |} ]
       |};
     ev_sizeInBytes := 0 |}.

(** A [saveSetting] that records a frame lock for the channel the path
    names. *)
Definition save_frame_lock (rdr : Grid.Renderer) (path : list string) (v : bool)
  : Grid.Renderer :=
  {| Grid.errors := Grid.errors rdr;
     Grid.config_topics :=
       <[default EmptyString (path !! 1)
         := {| Grid.p_visible := None; Grid.p_frameLocked := Some v |}]>
         (Grid.config_topics rdr);
     Grid.disposed := Grid.disposed rdr;
     Grid.next_id := Grid.next_id rdr |}.

Definition lock_action : GridSettings.SettingsTreeAction bool :=
  {| GridSettings.action := "update";
     GridSettings.payload_path := ["topics"; "/map"; "frameLocked"];
     GridSettings.payload_value := true |}.

(** The renderable of "/map" after one rendered grid, and the registry
    that holds it. *)
Definition rendered_map : Grid.Renderable :=
  (Grid._updateOccupancyGridRenderable same_frame png_throws renderer0 map_renderable
     grid_4x4 0).1.2.

Definition map_registry : gmap string Grid.Renderable := <["/map" := rendered_map]> ∅.

End HandlerSamples.

(* ===================================================================== *)
(** * The binary message writer                                           *)
(* ===================================================================== *)

Module BinaryWriter.

Import PoseHandlers.

(** A field of a ROS datatype, a datatype and the datatypes by name, in
    the order of [Object.keys]. *)
Record RosMsgField := {
  f_type : string;
  f_name : string;
  f_isArray : option bool;
  f_arrayLength : option Z;
  f_isConstant : option bool;
}.

Record RosDatatype := { fields : list RosMsgField }.

Definition RosDatatypes : Type := list (string * RosDatatype).

(** A message of the player: its topic and its bytes (an
    [ArrayBuffer]). *)
Record Message := { m_topic : string; m_message : list Z }.

Definition byteLength (m : Message) : nat := length (m_message m).

Record BinaryObjects := {
  dataType : string;
  offsets : list Z;
  buffer : list Z;
  bigString : string;
}.

(** What a method gives: a value, or the message of the [Error] it
    throws. *)
Inductive result (A : Type) := Ok (a : A) | Throw (message : string).
Arguments Ok {A} _.
Arguments Throw {A} _.

(** [sumBy] and [maxBy] of the utility library: the sum of a measure,
    and the first element whose measure is the greatest ([undefined] on
    an empty array). *)
Definition sumBy {A : Type} (l : list A) (f : A -> nat) : nat :=
  foldl (fun acc x => acc + f x) 0 l.

Definition maxBy {A : Type} (l : list A) (f : A -> nat) : option A :=
  foldl
    (fun (best : option A) (x : A) =>
       match best with
       | None => Some x
       | Some b => if f b <? f x then Some x else best
       end)
    None l.

Section Writer.

(** The WebAssembly module is external.  Its objects are handles, and
    every call into it is an event of a trace; what a call returns is a
    function of the trace up to it. *)
Variable Bridge : Type.
Variable Registry : Type.
Variable Definition_ : Type.
Variable Writer : Type.

Inductive event :=
| NewRegistry (bridge : Bridge)
| Create (name : string)
| AddField (d : Definition_) (type name : string) (isArray : option bool) (arrayLength : Z)
| Finalize
| Get (name : string)
| GetCommands (d : Definition_)
| NewWriter
| Reserve (w : Writer) (d : Definition_) (count total : nat)
| Malloc (size : option nat)
| HeapSet (bytes : list Z) (ptr : Z)
| Write (w : Writer) (d : Definition_) (ptr : Z) (len : nat)
| Free (ptr : Z)
| GetBuffer (w : Writer)
| GetBigString (w : Writer)
| Delete (w : Writer).

Definition trace : Type := list event.

Variable ModuleFactory : option string -> option Bridge.
Variable ModuleWasm : string.
Variable process_defined : bool.
Variable browser_in_process : bool.
Variable NODE_ENV_test : bool.
Variable new_registry : trace -> Registry.
Variable created : trace -> Definition_.
Variable field_added : trace -> bool.
Variable finalized : trace -> bool.
Variable found : trace -> option Definition_.
Variable commands : trace -> list Z.
Variable new_writer : trace -> Writer.
Variable allocated : trace -> Z.
Variable written : trace -> Z.
Variable buffer_of : trace -> list Z.
Variable big_string_of : trace -> list Z.
Variable decode_ascii : list Z -> string.

(** The fields [_bridgeInstance] and [_definitionRegistry]; [null] is
    [None]. *)
Record BinaryMessageWriter := {
  _bridgeInstance : option Bridge;
  _definitionRegistry : option Registry;
}.

Definition isNodeModule : bool := negb process_defined || negb browser_in_process.

Definition getModuleFactory : option Bridge :=
  if isNodeModule then ModuleFactory None else ModuleFactory (Some ModuleWasm).

Definition initialize (this : BinaryMessageWriter) (tr : trace)
  : trace * BinaryMessageWriter :=
  let bridge := getModuleFactory in
  match bridge with
  | Some b =>
      let tr := tr ++ [NewRegistry b] in
      (tr, {| _bridgeInstance := bridge; _definitionRegistry := Some (new_registry tr) |})
  | None =>
      (tr, {| _bridgeInstance := bridge; _definitionRegistry := _definitionRegistry this |})
  end.

Definition _getBridge (this : BinaryMessageWriter) : result Bridge :=
  match _bridgeInstance this with
  | Some b => Ok b
  | None => Throw "Wasm bridge not initialized"
  end.

Definition _getDefinitions (this : BinaryMessageWriter) : result Registry :=
  match _definitionRegistry this with
  | Some r => Ok r
  | None => Throw "Definition registry not initialized"
  end.

Definition truthy (b : option bool) : bool := Js.nullish b false.

(** The loop over the fields of [_createDefinition]: constants are
    skipped, and the first field the registry refuses ends the loop with
    an error. *)
Fixpoint add_fields (definition : Definition_) (fs : list RosMsgField) (tr : trace)
  : trace * result unit :=
  match fs with
  | [] => (tr, Ok tt)
  | field :: rest =>
      if truthy (f_isConstant field) then add_fields definition rest tr
      else
        let tr :=
          tr ++ [AddField definition (f_type field) (f_name field) (f_isArray field)
                   (Js.nullish (f_arrayLength field) (-1)%Z)] in
        if negb (field_added tr) then
          (tr, Throw ("Could not add field with type " +:+ dquote +:+ f_type field +:+ dquote))
        else add_fields definition rest tr
  end.

Definition _createDefinition (this : BinaryMessageWriter) (name : string)
    (dataType : RosDatatype) (tr : trace) : trace * result Definition_ :=
  match _getDefinitions this with
  | Throw e => (tr, Throw e)
  | Ok _ =>
      let tr := tr ++ [Create name] in
      let definition := created tr in
      match add_fields definition (fields dataType) tr with
      | (tr, Throw e) => (tr, Throw e)
      | (tr, Ok _) => (tr, Ok definition)
      end
  end.

Definition registerDefinition (this : BinaryMessageWriter) (name : string)
    (dataType : RosDatatype) (tr : trace) : trace * result Definition_ :=
  match _createDefinition this name dataType tr with
  | (tr, Throw e) => (tr, Throw e)
  | (tr, Ok definition) =>
      match _getDefinitions this with
      | Throw e => (tr, Throw e)
      | Ok _ =>
          let tr := tr ++ [Finalize] in
          if negb (finalized tr) then
            (tr, Throw ("Invalid definition " +:+ dquote +:+ name +:+ dquote))
          else (tr, Ok definition)
      end
  end.

(** [Object.keys(dataTypes).map(...)]: the first definition that
    throws ends the map. *)
Fixpoint create_all (this : BinaryMessageWriter) (dataTypes : RosDatatypes) (tr : trace)
  : trace * result (list Definition_) :=
  match dataTypes with
  | [] => (tr, Ok [])
  | (type, dt) :: rest =>
      match _createDefinition this type dt tr with
      | (tr, Throw e) => (tr, Throw e)
      | (tr, Ok d) =>
          match create_all this rest tr with
          | (tr, Throw e) => (tr, Throw e)
          | (tr, Ok ds) => (tr, Ok (d :: ds))
          end
      end
  end.

Definition registerDefinitions (this : BinaryMessageWriter) (dataTypes : RosDatatypes)
    (tr : trace) : trace * result (list Definition_) :=
  match create_all this dataTypes tr with
  | (tr, Throw e) => (tr, Throw e)
  | (tr, Ok definitions) =>
      match _getDefinitions this with
      | Throw e => (tr, Throw e)
      | Ok _ =>
          let tr := tr ++ [Finalize] in
          if negb (finalized tr) then (tr, Throw "Failed to validate definitions")
          else (tr, Ok definitions)
      end
  end.

Definition no_definition (definitionName : string) : string :=
  "No definition found with type " +:+ dquote +:+ definitionName +:+ dquote.

Definition getDefinitionCommands (this : BinaryMessageWriter) (definitionName : string)
    (tr : trace) : trace * result (list Z) :=
  match _getDefinitions this with
  | Throw e => (tr, Throw e)
  | Ok _ =>
      let tr := tr ++ [Get definitionName] in
      match found tr with
      | None => (tr, Throw (no_definition definitionName))
      | Some definition =>
          let tr := tr ++ [GetCommands definition] in
          let cmds := commands tr in
          let ret :=
            Js.for_range 0 (length cmds)
              (fun i ret => match cmds !! i with Some c => ret ++ [c] | None => ret end) [] in
          (tr, Ok ret)
      end
  end.

(** [`${maxMessageBytes}`] *)
Definition show_size (size : option nat) : string :=
  match size with Some n => pretty n | None => "undefined" end.

(** [messages.map((m) => { ... })] of [rewriteMessages]: each message
    is copied to the buffer and written; a negative offset throws. *)
Fixpoint write_all (writer : Writer) (definition : Definition_) (inDataPtr : Z)
    (definitionName : string) (messages : list Message) (tr : trace)
  : trace * result (list Z) :=
  match messages with
  | [] => (tr, Ok [])
  | m :: rest =>
      let topic := m_topic m in
      let data := m_message m in
      let dataLength := length data in
      let view := map Js.to_uint8 data in
      let tr := tr ++ [HeapSet view inDataPtr] in
      let tr := tr ++ [Write writer definition inDataPtr dataLength] in
      let offset := written tr in
      if (offset <? 0)%Z then
        (tr, Throw ("Could not write message from " +:+ dquote +:+ topic +:+ dquote
                      +:+ " with undefined type " +:+ dquote +:+ definitionName +:+ dquote))
      else
        match write_all writer definition inDataPtr definitionName rest tr with
        | (tr, Throw e) => (tr, Throw e)
        | (tr, Ok offsets) => (tr, Ok (offset :: offsets))
        end
  end.

Definition rewriteMessages (this : BinaryMessageWriter) (definitionName : string)
    (messages : list Message) (tr : trace) : trace * result BinaryObjects :=
  match _getBridge this with
  | Throw e => (tr, Throw e)
  | Ok bridge =>
      match _getDefinitions this with
      | Throw e => (tr, Throw e)
      | Ok _ =>
          let tr := tr ++ [Get definitionName] in
          match found tr with
          | None => (tr, Throw (no_definition definitionName))
          | Some definition =>
              let tr := tr ++ [NewWriter] in
              let writer := new_writer tr in
              (* the memory requirements of all the messages *)
              let totalBytes := sumBy messages byteLength in
              let maxMessageBytes := byteLength <$> maxBy messages byteLength in
              let tr := tr ++ [Reserve writer definition (length messages) totalBytes] in
              let tr := tr ++ [Malloc maxMessageBytes] in
              let inDataPtr := allocated tr in
              if (inDataPtr =? 0)%Z then
                (tr, Throw ("Could not allocate memory for data buffer with size " +:+ dquote
                              +:+ show_size maxMessageBytes +:+ dquote))
              else
                match write_all writer definition inDataPtr definitionName messages tr with
                | (tr, Throw e) => (tr, Throw e)
                | (tr, Ok offsets) =>
                    let tr := tr ++ [Free inDataPtr] in
                    let tr := tr ++ [GetBuffer writer] in
                    let buffer := map Js.to_uint8 (buffer_of tr) in
                    let tr := tr ++ [GetBigString writer] in
                    let stringBuffer := big_string_of tr in
                    let stringBuffer := if NODE_ENV_test then stringBuffer else stringBuffer in
                    let bigString := decode_ascii stringBuffer in
                    let tr := tr ++ [Delete writer] in
                    (tr, Ok {| dataType := definitionName; offsets := offsets;
                               buffer := buffer; bigString := bigString |})
                end
          end
      end
  end.

End Writer.

Arguments NewRegistry {Bridge Definition_ Writer} _.
Arguments Create {Bridge Definition_ Writer} _.
Arguments AddField {Bridge Definition_ Writer} _ _ _ _ _.
Arguments Finalize {Bridge Definition_ Writer}.
Arguments Get {Bridge Definition_ Writer} _.
Arguments GetCommands {Bridge Definition_ Writer} _.
Arguments NewWriter {Bridge Definition_ Writer}.
Arguments Reserve {Bridge Definition_ Writer} _ _ _ _.
Arguments Malloc {Bridge Definition_ Writer} _.
Arguments HeapSet {Bridge Definition_ Writer} _ _.
Arguments Write {Bridge Definition_ Writer} _ _ _ _.
Arguments Free {Bridge Definition_ Writer} _.
Arguments GetBuffer {Bridge Definition_ Writer} _.
Arguments GetBigString {Bridge Definition_ Writer} _.
Arguments Delete {Bridge Definition_ Writer} _.
Arguments _bridgeInstance {Bridge Registry} _.
Arguments _definitionRegistry {Bridge Registry} _.

(** The calls a definition and a list of messages stand for: one
    [addField] for a field that is not a constant, and a copy to the
    buffer followed by a [write] for a message. *)
Definition not_constant (f : RosMsgField) : bool := negb (truthy (f_isConstant f)).

Definition field_call {Bridge Definition_ Writer : Type} (d : Definition_) (f : RosMsgField)
  : event Bridge Definition_ Writer :=
  AddField d (f_type f) (f_name f) (f_isArray f) (Js.nullish (f_arrayLength f) (-1)%Z).

Definition message_calls {Bridge Definition_ Writer : Type} (w : Writer) (d : Definition_)
    (ptr : Z) (m : Message) : list (event Bridge Definition_ Writer) :=
  [HeapSet (map Js.to_uint8 (m_message m)) ptr; Write w d ptr (byteLength m)].

Definition definition_calls {Bridge Definition_ Writer : Type} (named : string * RosDatatype)
    (d : Definition_) : list (event Bridge Definition_ Writer) :=
  Create named.1 ::
  map (field_call d) (filter (fun f => not_constant f = true) (fields named.2)).

End BinaryWriter.

(** Sample modules, datatypes and messages for the writer. *)
Module WriterSamples.

Import BinaryWriter.

Definition no_module (_ : option string) : option unit := None.

Definition fresh_writer : BinaryMessageWriter unit unit :=
  {| _bridgeInstance := None; _definitionRegistry := None |}.

Definition ready_writer : BinaryMessageWriter unit unit :=
  {| _bridgeInstance := Some tt; _definitionRegistry := Some tt |}.

Definition handle (tr : trace unit nat nat) : nat := length tr.
Definition accepts (_ : trace unit nat nat) : bool := true.
Definition finds (_ : trace unit nat nat) : option nat := Some 0.
Definition at_8 (_ : trace unit nat nat) : Z := 8%Z.
Definition offset_of (tr : trace unit nat nat) : Z := Z.of_nat (length tr).
Definition refuses (_ : trace unit nat nat) : Z := (-1)%Z.
Definition no_bytes (_ : trace unit nat nat) : list Z := [].
Definition ascii (l : list Z) : string :=
  String.string_of_list_ascii (map (fun z => Ascii.ascii_of_nat (Z.to_nat z)) l).

Definition point_type : RosDatatype :=
  {| fields :=
       [ {| f_type := "float64"; f_name := "x"; f_isArray := None; f_arrayLength := None;
            f_isConstant := None |};
         {| f_type := "uint8"; f_name := "KIND"; f_isArray := None; f_arrayLength := None;
            f_isConstant := Some true |};
         {| f_type := "float64"; f_name := "cov"; f_isArray := Some true;
            f_arrayLength := Some 9%Z; f_isConstant := Some false |} ] |}.

Definition two_messages : list Message :=
  [ {| m_topic := "/a"; m_message := [1; 2; 3]%Z |};
    {| m_topic := "/b"; m_message := [4]%Z |} ].

End WriterSamples.

#[local] Set Default Proof Using "Type".

(* ===================================================================== *)
(** * Facts about binary64 division                                       *)
(* ===================================================================== *)

Section NumberFacts.

Local Open Scope Z_scope.



Lemma digits2_pos_iter_xO (p k : positive) :
  digits2_pos (Pos.iter xO p k) = (digits2_pos p + k)%positive.
Proof.
  induction k as [|k IH] using Pos.peano_ind.
  - simpl. lia.
  - rewrite Pos.iter_succ. simpl. rewrite IH. lia.
Qed.




(** [0 / x] is +0 for every finite positive [x]. *)
Lemma div_zero_finite (m : positive) (e : Z) :
  Js.div Js.zero (S754_finite false m e) = Js.zero.
Proof. reflexivity. Qed.



(** With a single pose the parameter is [0 / 0]: not a number. *)
Lemma gradient_t_single : PoseArrays.gradient_t 0 1 = Js.NaN.
Proof. reflexivity. Qed.

End NumberFacts.

(* ===================================================================== *)
(** * Loops                                                               *)
(* ===================================================================== *)

Section LoopFacts.

Context {A : Type}.

Lemma for_range_empty (lo hi : nat) (body : nat -> A -> A) (a : A) :
  hi <= lo -> Js.for_range lo hi body a = a.
Proof.
  intros H. unfold Js.for_range. replace (hi - lo) with 0 by lia. reflexivity.
Qed.

(** The last iteration of a loop. *)
Lemma for_range_S (lo hi : nat) (body : nat -> A -> A) (a : A) :
  lo <= hi ->
  Js.for_range lo (S hi) body a = body hi (Js.for_range lo hi body a).
Proof.
  intros H. unfold Js.for_range.
  replace (S hi - lo) with (S (hi - lo)) by lia.
  rewrite seq_S, foldl_app. simpl.
  replace (lo + (hi - lo)) with hi by lia. reflexivity.
Qed.

(** An invariant that every iteration keeps holds after the loop. *)
Lemma for_range_invariant (P : A -> Prop) (lo hi : nat) (body : nat -> A -> A) (a : A) :
  P a -> (forall i x, lo <= i < hi -> P x -> P (body i x)) ->
  P (Js.for_range lo hi body a).
Proof.
  intros Ha Hstep.
  destruct (le_lt_dec hi lo) as [Hle|Hlt].
  - rewrite for_range_empty by assumption. exact Ha.
  - induction hi as [|hi IH]; [lia|].
    destruct (decide (hi = lo)) as [->|Hne].
    + rewrite for_range_S by lia. apply Hstep; [lia|].
      rewrite for_range_empty by lia. exact Ha.
    + rewrite for_range_S by lia. apply Hstep; [lia|].
      apply IH; [|lia]. intros i x Hi. apply Hstep. lia.
Qed.

End LoopFacts.

(* ===================================================================== *)
(** * Occupancy grids: painting the texture                               *)
(* ===================================================================== *)

Section PaintFacts.

Import Grid.

Lemma write_pixel_length (buf : list Z) (off : nat) (p : rgba) :
  length (write_pixel buf off p) = length buf.
Proof.
  destruct p as [[[r g] b] a]. unfold write_pixel, Js.store.
  rewrite !length_insert. reflexivity.
Qed.

Lemma write_pixel_other (buf : list Z) (off : nat) (p : rgba) (j : nat) :
  j < off \/ off + 4 <= j -> write_pixel buf off p !! j = buf !! j.
Proof.
  intros H. destruct p as [[[r g] b] a]. unfold write_pixel, Js.store.
  rewrite !list_lookup_insert_ne by lia. reflexivity.
Qed.

Lemma write_pixel_here (buf : list Z) (off : nat) (r g b a : Z) :
  off + 3 < length buf ->
  write_pixel buf off (r, g, b, a) !! off = Some (Js.clamp8 r)
  /\ write_pixel buf off (r, g, b, a) !! (off + 1) = Some (Js.clamp8 g)
  /\ write_pixel buf off (r, g, b, a) !! (off + 2) = Some (Js.clamp8 b)
  /\ write_pixel buf off (r, g, b, a) !! (off + 3) = Some (Js.clamp8 a).
Proof.
  intros H. unfold write_pixel, Js.store. replace (off + 0) with off by lia.
  repeat split.
  - rewrite !list_lookup_insert_ne by lia.
    apply list_lookup_insert_eq. lia.
  - rewrite !list_lookup_insert_ne by lia.
    apply list_lookup_insert_eq. rewrite length_insert. lia.
  - rewrite list_lookup_insert_ne by lia.
    apply list_lookup_insert_eq. rewrite !length_insert. lia.
  - apply list_lookup_insert_eq. rewrite !length_insert. lia.
Qed.

Lemma paint_S (pixel : Z -> rgba) (n : nat) (cells buf : list Z) :
  paint pixel (S n) cells buf
  = write_pixel (paint pixel n cells buf) (n * 4) (pixel (Js.band (cells !! n) 255)).
Proof. unfold paint. rewrite for_range_S by lia. reflexivity. Qed.

Lemma paint_length (pixel : Z -> rgba) (size : nat) (cells buf : list Z) :
  length (paint pixel size cells buf) = length buf.
Proof.
  induction size as [|n IH]; [reflexivity|].
  rewrite paint_S, write_pixel_length. exact IH.
Qed.

(** Bytes past the painted cells keep their value. *)
Lemma paint_beyond (pixel : Z -> rgba) (size : nat) (cells buf : list Z) (j : nat) :
  size * 4 <= j -> paint pixel size cells buf !! j = buf !! j.
Proof.
  induction size as [|n IH]; intros H; [reflexivity|].
  rewrite paint_S, write_pixel_other by lia. apply IH. lia.
Qed.

(** After the loop the four bytes of every cell hold the pixel of that
    cell, whatever the buffer held before. *)
Lemma paint_cell (pixel : Z -> rgba) (size : nat) (cells buf : list Z) (i : nat) :
  i < size -> size * 4 <= length buf ->
  forall r g b a, pixel (Js.band (cells !! i) 255) = (r, g, b, a) ->
  paint pixel size cells buf !! (i * 4) = Some (Js.clamp8 r)
  /\ paint pixel size cells buf !! (i * 4 + 1) = Some (Js.clamp8 g)
  /\ paint pixel size cells buf !! (i * 4 + 2) = Some (Js.clamp8 b)
  /\ paint pixel size cells buf !! (i * 4 + 3) = Some (Js.clamp8 a).
Proof.
  induction size as [|n IH]; intros Hi Hlen r g b a Hp; [lia|].
  rewrite paint_S.
  destruct (decide (i = n)) as [->|Hne].
  - rewrite Hp. apply write_pixel_here. rewrite paint_length. lia.
  - rewrite !write_pixel_other by lia. apply IH; [lia | lia | exact Hp].
Qed.

Lemma updateTexture_length (tp : string) (tex : DataTexture) (g : OccupancyGrid) :
  length (image_data (updateTexture tp tex g)) = length (image_data tex).
Proof.
  unfold updateTexture. simpl.
  destruct (String.eqb tp "/traffic_map"); [apply paint_length|].
  destruct (String.eqb tp "/one_way_map"); apply paint_length.
Qed.

Lemma updateTexture_wf (tp : string) (tex : DataTexture) (g : OccupancyGrid) :
  texture_wf tex -> texture_wf (updateTexture tp tex g).
Proof.
  unfold texture_wf. rewrite updateTexture_length. intros ->. reflexivity.
Qed.

Lemma createTexture_wf (rdr : Renderer) (g : OccupancyGrid) :
  texture_wf (snd (createTexture rdr g)).
Proof. unfold texture_wf, createTexture. simpl. apply length_replicate. Qed.

End PaintFacts.

(* ===================================================================== *)
(** * Occupancy grids: the palette of the one-way channel                 *)
(* ===================================================================== *)

Section OneWayPalette.

Import Grid.

Local Open Scope Z_scope.

(** The loop body computes the table-driven palette. *)
Lemma one_way_pixel_spec (value : Z) : one_way_pixel value = one_way_spec value.
Proof.
  unfold one_way_pixel, one_way_spec, channel_bits, wedges, wedge_hit.
  cbn [foldr channel_eqb andb fst snd].
  destruct (Z.land value 199 =? 199), (Z.land value 143 =? 143),
    (Z.land value 31 =? 31), (Z.land value 62 =? 62), (Z.land value 124 =? 124),
    (Z.land value 248 =? 248), (Z.land value 241 =? 241), (Z.land value 227 =? 227);
    reflexivity.
Qed.

(** A cell read from the signed buffer as [data[i] & 0xFF] is an 8-bit
    value. *)
Lemma cell_value_range (v : option Z) : 0 <= Js.band v 0xFF <= 255.
Proof.
  unfold Js.band. split.
  - apply Z.land_nonneg. right. lia.
  - assert (H : 0 <= Z.land (Js.ToInt32 v) 255) by (apply Z.land_nonneg; right; lia).
    change 255 with (Z.ones 8) in *. rewrite Z.land_ones in * by lia.
    pose proof (Z.mod_pos_bound (Js.ToInt32 v) (2 ^ 8) ltac:(lia)).
    change (Z.ones 8) with 255. change (2 ^ 8) with 256 in *. lia.
Qed.

(** The signed byte -1 is the cell value 255; no other signed byte is. *)
Lemma cell_value_255 (raw : Z) :
  -128 <= raw <= 127 -> (Js.band (Some raw) 0xFF = 255 <-> raw = -1).
Proof.
  intros Hr. unfold Js.band, Js.ToInt32.
  replace ((raw + 2147483648) mod 4294967296 - 2147483648) with raw.
  2:{ rewrite Z.mod_small by lia. lia. }
  change 255 with (Z.ones 8). rewrite Z.land_ones by lia.
  change (2 ^ 8) with 256. change (Z.ones 8) with 255.
  split.
  - intros H. pose proof (Z.div_mod raw 256 ltac:(lia)) as D.
    assert (raw / 256 = -1 \/ raw / 256 = 0) as [Q|Q].
    { assert (-1 <= raw / 256 <= 0); [|lia].
      split.
      - apply Z.div_le_lower_bound; lia.
      - apply Z.lt_succ_r. apply Z.div_lt_upper_bound; lia. }
    + lia.
    + lia.
  - intros ->. reflexivity.
Qed.

(** No component leaves the range of a byte, so the clamped store keeps
    it as it is. *)
Lemma one_way_pixel_bytes (value : Z) :
  let p := one_way_pixel value in
  Js.clamp8 (px_red p) = px_red p /\ Js.clamp8 (px_green p) = px_green p
  /\ Js.clamp8 (px_blue p) = px_blue p /\ Js.clamp8 (px_alpha p) = px_alpha p.
Proof.
  unfold one_way_pixel. cbn [px_red px_green px_blue px_alpha fst snd].
  repeat split;
    repeat match goal with
      | |- context [(?a =? ?b)] => destruct (a =? b)
      end; reflexivity.
Qed.

Ltac wedge_iff :=
  split; intros ?H;
  first [ reflexivity
        | apply Z.eqb_eq; assumption
        | exfalso; vm_compute in H; discriminate H
        | exfalso; rewrite <- Z.eqb_eq in H; congruence ].

(** C6.  Under the palette of the "/one_way_map" channel, for every cell
    value: the pixel is the one of the table of eight masks; each wedge
    whose mask test [value & mask == mask] succeeds has its bit set in
    its colour channel, and a wedge whose test fails has not, whatever
    the other wedges do; alpha is 0 exactly when the value is 255 and
    128 otherwise. *)
Theorem one_way_palette (value : Z) :
  let p := one_way_pixel value in
  p = one_way_spec value
  /\ Forall
       (fun w => Z.land (px_channel w.1.2 p) w.2 = w.2 <-> Z.land value w.1.1 = w.1.1)
       wedges
  /\ (px_alpha p = 0 <-> value = 255)
  /\ px_alpha p = (if value =? 255 then 0 else 128).
Proof.
  cbv zeta. split; [apply one_way_pixel_spec|]. split; [|split].
  - unfold wedges.
    repeat (constructor;
            [ unfold one_way_pixel; cbn [px_channel px_red px_green px_blue fst snd];
              repeat match goal with
                | |- context [(?a =? ?b)] => destruct (a =? b) eqn:?
                end; cbn; wedge_iff | ]).
    constructor.
  - unfold one_way_pixel, px_alpha. cbn [snd].
    destruct (Z.eqb_spec value 255) as [->|Hne]; split; intros H;
      try reflexivity; try discriminate H; contradiction.
  - unfold one_way_pixel, px_alpha. cbn [snd]. reflexivity.
Qed.

(** The spec's scenario value [0b11100100] and the value 255, at which
    wedges combine in every channel. *)
Example one_way_pixel_228 : one_way_pixel 228 = (0, 0, 0, 128).
Proof. reflexivity. Qed.

Example one_way_pixel_255 : one_way_pixel 255 = (0xE0, 0xE0, 0xC0, 0).
Proof. reflexivity. Qed.

Example one_way_pixel_31 : one_way_pixel 31 = (0x20, 0, 0, 128).
Proof. reflexivity. Qed.

End OneWayPalette.

(* ===================================================================== *)
(** * Occupancy grids: format dispatch, dimension check, texture          *)
(* ===================================================================== *)

Section GridFacts.
Import Grid.

Variable normalizeFrameId : string -> string.
Variable decodePixels : list Z -> option (list Z).

Local Abbreviation update := (_updateOccupancyGridRenderable normalizeFrameId decodePixels).
Local Abbreviation dispatch := (Grid.dispatch decodePixels).

(** The copy loop stores every decoded byte as a signed byte. *)
Lemma store_loop_lookup (F : nat -> Z) (n : nat) (l : list Z) (j : nat) :
  n <= length l ->
  Js.for_range 0 n (fun i a => Js.store a i (F i)) l !! j
  = if decide (j < n) then Some (F j) else l !! j.
Proof.
  induction n as [|n IH]; intros Hn.
  - rewrite for_range_empty by lia. rewrite decide_False by lia. reflexivity.
  - rewrite for_range_S by lia. unfold Js.store at 1.
    destruct (decide (j = n)) as [->|Hne].
    + rewrite decide_True by lia. apply list_lookup_insert_eq.
      apply (for_range_invariant (fun a => n < length a)); [lia|].
      intros i x _ Hx. unfold Js.store. rewrite length_insert. exact Hx.
    + rewrite list_lookup_insert_ne by congruence. rewrite IH by lia.
      destruct (decide (j < n)).
      * rewrite decide_True by lia. reflexivity.
      * rewrite decide_False by lia. reflexivity.
Qed.

Lemma copy_pixels_map (imgData : list Z) : copy_pixels imgData = map Js.to_int8 imgData.
Proof.
  unfold copy_pixels. apply list_eq. intros j.
  rewrite length_replicate.
  rewrite (store_loop_lookup (fun i => Js.to_int8 (Js.nullish (imgData !! i) 0%Z)))
    by (rewrite length_replicate; lia).
  rewrite list_lookup_fmap.
  destruct (decide (j < length imgData)) as [Hj|Hj].
  - destruct (lookup_lt_is_Some_2 imgData j Hj) as [x ->]. reflexivity.
  - rewrite (lookup_ge_None_2 imgData) by lia.
    apply lookup_replicate_None. lia.
Qed.


Lemma has_png_signature_iff (d : list Z) :
  has_png_signature d = true <-> exists rest, d = (-119 :: 80 :: 78 :: 71 :: rest)%Z.
Proof.
  unfold has_png_signature, png_signature. cbn [nth].
  split.
  - intros H. repeat (apply andb_true_iff in H; destruct H as [H ?]).
    destruct d as [|a [|b [|c [|e rest]]]]; try discriminate.
    cbn in *. exists rest.
    repeat match goal with E : (_ =? _)%Z = true |- _ => apply Z.eqb_eq in E end.
    congruence.
  - intros [rest ->]. reflexivity.
Qed.

Lemma dispatch_eq (g : OccupancyGrid) :
  dispatch g
  = if has_png_signature (data g)
    then (fun px => set_data g (map Js.to_int8 px)) <$> decodePixels (map Js.to_uint8 (data g))
    else Some g.
Proof.
  unfold Grid.dispatch. destruct (has_png_signature (data g)); [|reflexivity].
  destruct (decodePixels _) as [px|]; [|reflexivity].
  cbn. rewrite copy_pixels_map. reflexivity.
Qed.

Lemma dispatch_info (g g' : OccupancyGrid) :
  dispatch g = Some g' -> info g' = info g /\ header g' = header g.
Proof.
  rewrite dispatch_eq. destruct (has_png_signature (data g)).
  - destruct (decodePixels _); cbn; [|discriminate]. intros [= <-]. split; reflexivity.
  - intros [= <-]. split; reflexivity.
Qed.

(** The three ways an update ends. *)
Lemma update_threw (rdr : Renderer) (r : Renderable) (g : OccupancyGrid) (t : Z) :
  dispatch g = None ->
  update rdr r g t
  = (rdr, set_message r g t (normalizeFrameId (frame_id (header g))), Threw).
Proof. intros H. unfold _updateOccupancyGridRenderable. rewrite H. reflexivity. Qed.

Lemma update_rejected (rdr : Renderer) (r : Renderable) (g g' : OccupancyGrid) (t : Z) :
  dispatch g = Some g' ->
  length (data g') <> width (info g') * height (info g') ->
  let r' :=
    set_occupancyGrid (set_message r g t (normalizeFrameId (frame_id (header g)))) g' in
  update rdr r g t = (invalidOccupancyGridError rdr r' (invalid_message g'), r', Rejected).
Proof.
  intros H Hne. unfold _updateOccupancyGridRenderable. rewrite H.
  apply Nat.eqb_neq in Hne. rewrite Hne. reflexivity.
Qed.

Lemma update_rendered (rdr : Renderer) (r : Renderable) (g g' : OccupancyGrid) (t : Z) :
  dispatch g = Some g' ->
  length (data g') = width (info g') * height (info g') ->
  let r1 :=
    set_occupancyGrid (set_message r g t (normalizeFrameId (frame_id (header g)))) g' in
  let w := width (info g') in
  let h := height (info g') in
  let finish (r2 : Renderable) (tex : DataTexture) :=
    set_scale (set_texture r2 (updateTexture (topic r) tex g'))
      (Js.mul (resolution (info g')) (Js.of_nat w))
      (Js.mul (resolution (info g')) (Js.of_nat h)) Js.one in
  update rdr r g t
  = if negb (w =? image_width (texture r)) || negb (h =? image_height (texture r))
    then
      let rdr1 := dispose_texture rdr (texture r) in
      let tex := snd (createTexture rdr1 g') in
      (fst (createTexture rdr1 g'),
       finish (set_material_map (set_texture r1 tex) tex) tex, Rendered)
    else (rdr, finish r1 (texture r), Rendered).
Proof.
  intros H He. unfold _updateOccupancyGridRenderable. rewrite H.
  apply Nat.eqb_eq in He. rewrite He. cbn [negb].
  cbn [texture set_occupancyGrid set_message].
  destruct (negb (width (info g') =? image_width (texture r))
            || negb (height (info g') =? image_height (texture r))); reflexivity.
Qed.


(** How an update that reaches the dimension check ends. *)
Lemma update_completion
    (rdr : Renderer) (r : Renderable) (g g' : OccupancyGrid) (t : Z) :
  dispatch g = Some g' ->
  let res := update rdr r g t in
  let size := width (info g') * height (info g') in
  (res.2 = Rendered <-> length (data g') = size)
  /\ (res.2 = Rejected <-> length (data g') <> size)
  /\ (length (data g') = size -> errors res.1.1 = errors rdr)
  /\ occupancyGrid res.1.2 = g'.
Proof.
  intros H. cbv zeta.
  destruct (decide (length (data g') = width (info g') * height (info g'))) as [He|Hne].
  - rewrite (update_rendered rdr r g g' t H He). cbv zeta.
    destruct (negb _ || negb _); cbn; repeat split; try done.
  - rewrite (update_rejected rdr r g g' t H Hne). cbn.
    repeat split; try done.
Qed.

(** C1 (as amended).  For every grid update whose payload reaches the
    dimension check, the grid is rendered if and only if the length of
    its buffer equals width * height.  On a mismatch the update is
    rejected, one diagnostic is attached to the channel of the
    renderable, whose message gives the actual length, the width and the
    height, and neither the texture, nor the material, nor the scale of
    the node, nor the set of disposed textures changes. *)
Theorem grid_dimension_check
    (rdr : Renderer) (r : Renderable) (g g' : OccupancyGrid) (t : Z) :
  dispatch g = Some g' ->
  let res := update rdr r g t in
  let size := width (info g') * height (info g') in
  (res.2 = Rendered <-> length (data g') = size)
  /\ (res.2 = Rejected <-> length (data g') <> size)
  /\ (length (data g') = size -> errors res.1.1 = errors rdr)
  /\ (length (data g') <> size ->
      errors res.1.1
      = {| err_topic := topic r; err_id := INVALID_OCCUPANCY_GRID;
           err_message :=
             "OccupancyGrid data length (" +:+ pretty (length (data g'))
               +:+ ") is not equal to width " +:+ pretty (width (info g'))
               +:+ " * height " +:+ pretty (height (info g')) |} :: errors rdr
      /\ texture res.1.2 = texture r
      /\ material res.1.2 = material r
      /\ scale res.1.2 = scale r
      /\ disposed res.1.1 = disposed rdr
      /\ next_id res.1.1 = next_id rdr).
Proof.
  intros H. cbv zeta.
  pose proof (update_completion rdr r g g' t H) as (Hr & Hj & He & _).
  cbv zeta in Hr, Hj, He.
  split; [exact Hr|]. split; [exact Hj|]. split; [exact He|].
  intros Hne. rewrite (update_rejected rdr r g g' t H Hne). cbn. repeat split.
Qed.

(** Every update keeps the texture of the renderable well formed. *)
Lemma update_texture_wf (rdr : Renderer) (r : Renderable) (g : OccupancyGrid) (t : Z) :
  texture_wf (texture r) -> texture_wf (texture (update rdr r g t).1.2).
Proof.
  intros Hwf. destruct (dispatch g) as [g'|] eqn:H.
  - destruct (decide (length (data g') = width (info g') * height (info g'))) as [He|Hne].
    + rewrite (update_rendered rdr r g g' t H He). cbv zeta.
      destruct (negb _ || negb _); cbn [fst snd texture set_scale set_texture].
      * apply updateTexture_wf, createTexture_wf.
      * apply updateTexture_wf, Hwf.
    + rewrite (update_rejected rdr r g g' t H Hne). exact Hwf.
  - rewrite (update_threw rdr r g t H). exact Hwf.
Qed.

(** C8.  For every rendered (accepted) grid update on a renderable whose
    texture is well formed, the RGBA buffer afterwards has length
    width * height * 4 and the texture has the dimensions of the grid.
    When the width or the height of the grid differs from the texture's,
    the old texture is disposed and a new texture with a new buffer of
    the new size is created, painted and installed in the material;
    otherwise the texture object stays the same and its buffer is
    repainted in place. *)
Theorem accepted_grid_buffer
    (rdr : Renderer) (r : Renderable) (g : OccupancyGrid) (t : Z) :
  texture_wf (texture r) ->
  let res := update rdr r g t in
  res.2 = Rendered ->
  let g' := occupancyGrid res.1.2 in
  let w := width (info g') in
  let h := height (info g') in
  let tex' := texture res.1.2 in
  length (image_data tex') = w * h * 4
  /\ image_width tex' = w /\ image_height tex' = h
  /\ length (data g') = w * h
  /\ (w <> image_width (texture r) \/ h <> image_height (texture r) ->
      disposed res.1.1 = tex_id (texture r) :: disposed rdr
      /\ tex_id tex' = next_id rdr
      /\ next_id res.1.1 = S (next_id rdr)
      /\ mat_map (material res.1.2) = tex_id tex'
      /\ tex'
         = updateTexture (topic r)
             {| tex_id := next_id rdr; image_width := w; image_height := h;
                image_data := replicate (w * h * 4) 0%Z; needsUpdate := false |} g')
  /\ (w = image_width (texture r) /\ h = image_height (texture r) ->
      disposed res.1.1 = disposed rdr
      /\ next_id res.1.1 = next_id rdr
      /\ material res.1.2 = material r
      /\ tex' = updateTexture (topic r) (texture r) g'
      /\ tex_id tex' = tex_id (texture r)).
Proof.
  intros Hwf. cbv zeta.
  destruct (dispatch g) as [g'|] eqn:H.
  2:{ rewrite (update_threw rdr r g t H). discriminate. }
  destruct (decide (length (data g') = width (info g') * height (info g'))) as [He|Hne].
  2:{ rewrite (update_rejected rdr r g g' t H Hne). discriminate. }
  rewrite (update_rendered rdr r g g' t H He). cbv zeta.
  destruct (negb (width (info g') =? image_width (texture r))
            || negb (height (info g') =? image_height (texture r))) eqn:D;
    intros _; cbn -[updateTexture Nat.mul].
  - rewrite updateTexture_length. cbn -[Nat.mul]. rewrite length_replicate.
    assert (Hd : ~ (width (info g') = image_width (texture r)
                    /\ height (info g') = image_height (texture r))).
    { intros [Hw Hh]. rewrite Hw, Hh, !Nat.eqb_refl in D. discriminate. }
    repeat split; try done; intros; contradiction.
  - apply orb_false_iff in D as [Dw Dh].
    apply negb_false_iff, Nat.eqb_eq in Dw, Dh.
    rewrite updateTexture_length, Hwf, <- Dw, <- Dh.
    repeat split; try done; intuition congruence.
Qed.


(** C7 (as amended).  The payload is handed to the PNG decoder exactly
    when its four leading cells are the signature -119, 80, 78, 71.
    When the decoder returns pixels, the decoded pixel bytes, each
    stored as a signed byte, replace the buffer of the grid, and it is
    this buffer that the dimension check measures; a payload without the
    signature is checked and kept as it is, and the decoder plays no
    part. *)
Theorem png_format_dispatch
    (rdr : Renderer) (r : Renderable) (g : OccupancyGrid) (t : Z) :
  let res := update rdr r g t in
  let size := width (info g) * height (info g) in
  (has_png_signature (data g) = true
   <-> exists rest, data g = (-119 :: 80 :: 78 :: 71 :: rest)%Z)
  /\ (has_png_signature (data g) = true ->
      forall imgData, decodePixels (map Js.to_uint8 (data g)) = Some imgData ->
      occupancyGrid res.1.2 = set_data g (map Js.to_int8 imgData)
      /\ (res.2 = Rendered <-> length imgData = size)
      /\ (res.2 = Rejected <-> length imgData <> size))
  /\ (has_png_signature (data g) = false ->
      occupancyGrid res.1.2 = g
      /\ (res.2 = Rendered <-> length (data g) = size)
      /\ (res.2 = Rejected <-> length (data g) <> size)).
Proof.
  cbv zeta. split; [apply has_png_signature_iff|]. split.
  - intros Hsig imgData Hdec.
    assert (H : dispatch g = Some (set_data g (map Js.to_int8 imgData))).
    { rewrite dispatch_eq, Hsig, Hdec. reflexivity. }
    pose proof (update_completion rdr r g _ t H) as (Hr & Hj & _ & Hg).
    cbn [data info set_data] in Hr, Hj. rewrite length_map in Hr, Hj.
    split; [exact Hg|]. split; assumption.
  - intros Hsig.
    assert (H : dispatch g = Some g) by (rewrite dispatch_eq, Hsig; reflexivity).
    pose proof (update_completion rdr r g _ t H) as (Hr & Hj & _ & Hg).
    split; [exact Hg|]. split; assumption.
Qed.

(** When the decoder throws on a payload that carries the signature, the
    update is abandoned before the dimension check: no diagnostic, and
    the texture is left as it was. *)
Lemma png_decoder_throws (rdr : Renderer) (r : Renderable) (g : OccupancyGrid) (t : Z) :
  has_png_signature (data g) = true ->
  decodePixels (map Js.to_uint8 (data g)) = None ->
  let res := update rdr r g t in
  res.2 = Threw /\ res.1.1 = rdr /\ texture res.1.2 = texture r.
Proof.
  intros Hsig Hdec.
  assert (H : dispatch g = None) by (rewrite dispatch_eq, Hsig, Hdec; reflexivity).
  cbv zeta. rewrite (update_threw rdr r g t H). repeat split.
Qed.

(** C9.  A grid message whose data is missing or empty and whose width
    and height are missing or zero normalises to the canonical grid with
    no cells, zero width and zero height; handling it renders the update
    (the dimension check passes) and adds no diagnostic, whether or not
    the channel already has a renderable. *)
Theorem empty_grid_is_accepted
    (rdr : Renderer) (renderables : gmap string Renderable)
    (messageEvent : MessageEvent PartialOccupancyGrid) :
  let message := ev_message messageEvent in
  absent_or (p_data message) [] ->
  absent_or (p_info message ≫= p_width) 0 ->
  absent_or (p_info message ≫= p_height) 0 ->
  let g := normalizeOccupancyGrid message in
  let res := handleOccupancyGrid normalizeFrameId decodePixels rdr renderables messageEvent in
  data g = [] /\ width (info g) = 0 /\ height (info g) = 0
  /\ res.2 = Rendered
  /\ errors res.1.1 = errors rdr.
Proof.
  cbv zeta. intros Hd Hw Hh.
  set (g := normalizeOccupancyGrid (ev_message messageEvent)).
  assert (Gd : data g = []).
  { unfold g, normalizeOccupancyGrid. cbn. destruct Hd as [-> | ->]; reflexivity. }
  assert (Gw : width (info g) = 0).
  { unfold g, normalizeOccupancyGrid. cbn.
    destruct (p_info (ev_message messageEvent)) as [i|]; cbn in *; [|reflexivity].
    destruct Hw as [-> | ->]; reflexivity. }
  assert (Gh : height (info g) = 0).
  { unfold g, normalizeOccupancyGrid. cbn.
    destruct (p_info (ev_message messageEvent)) as [i|]; cbn in *; [|reflexivity].
    destruct Hh as [-> | ->]; reflexivity. }
  assert (H : dispatch g = Some g) by (rewrite dispatch_eq, Gd; reflexivity).
  assert (He : length (data g) = width (info g) * height (info g))
    by (rewrite Gd, Gw, Gh; reflexivity).
  repeat split; try assumption.
  - unfold handleOccupancyGrid. fold g. cbv zeta.
    destruct (renderables !! ev_topic messageEvent) as [r|].
    + pose proof (update_completion rdr r g g
                    (toNanoSec (ev_receiveTime messageEvent)) H) as (Hr & _).
      cbv zeta in Hr. apply Hr in He.
      destruct (update rdr r g _) as [[rdr' r'] c]. exact He.
    + destruct (createTexture rdr g) as [rdr1 tex] eqn:C.
      match goal with |- context [update rdr1 ?r g ?t] =>
        pose proof (update_completion rdr1 r g g t H) as (Hr & _);
        cbv zeta in Hr; apply Hr in He;
        destruct (update rdr1 r g t) as [[rdr' r'] c] end.
      exact He.
  - unfold handleOccupancyGrid. fold g. cbv zeta.
    destruct (renderables !! ev_topic messageEvent) as [r|].
    + pose proof (update_completion rdr r g g
                    (toNanoSec (ev_receiveTime messageEvent)) H) as (_ & _ & Hr & _).
      cbv zeta in Hr. apply Hr in He.
      destruct (update rdr r g _) as [[rdr' r'] c]. exact He.
    + destruct (createTexture rdr g) as [rdr1 tex] eqn:C.
      assert (E1 : errors rdr1 = errors rdr) by (injection C as <- _; reflexivity).
      match goal with |- context [update rdr1 ?r g ?t] =>
        pose proof (update_completion rdr1 r g g t H) as (_ & _ & Hr & _);
        cbv zeta in Hr; apply Hr in He;
        destruct (update rdr1 r g t) as [[rdr' r'] c] end.
      cbn in *. congruence.
Qed.

End GridFacts.

Section GridInvariant.

Import Grid.

Variable normalizeFrameId : string -> string.
Variable decodePixels : list Z -> option (list Z).

(** Every renderable of the registry has a well-formed texture, from the
    first message of its channel on. *)
Lemma handleOccupancyGrid_wf
    (rdr : Renderer) (renderables : gmap string Renderable)
    (messageEvent : MessageEvent PartialOccupancyGrid) :
  map_Forall (fun _ r => texture_wf (texture r)) renderables ->
  map_Forall (fun _ r => texture_wf (texture r))
    (handleOccupancyGrid normalizeFrameId decodePixels rdr renderables messageEvent).1.2.
Proof.
  intros Hall. unfold handleOccupancyGrid. cbv zeta.
  destruct (renderables !! ev_topic messageEvent) as [r|] eqn:L.
  - pose proof (update_texture_wf normalizeFrameId decodePixels rdr r
                  (normalizeOccupancyGrid (ev_message messageEvent))
                  (toNanoSec (ev_receiveTime messageEvent)) (Hall _ _ L)) as Hwf.
    destruct (_updateOccupancyGridRenderable _ _ rdr r _ _) as [[rdr' r'] c].
    cbn in *. apply map_Forall_insert_2; assumption.
  - destruct (createTexture rdr _) as [rdr1 tex] eqn:C.
    assert (Ht : texture_wf tex).
    { pose proof (createTexture_wf rdr (normalizeOccupancyGrid (ev_message messageEvent))) as W.
      rewrite C in W. exact W. }
    match goal with |- context [_updateOccupancyGridRenderable _ _ rdr1 ?r ?g ?t] =>
      pose proof (update_texture_wf normalizeFrameId decodePixels rdr1 r g t Ht) as Hwf;
      destruct (_updateOccupancyGridRenderable normalizeFrameId decodePixels rdr1 r g t)
        as [[rdr' r'] c] end.
    cbn in *. apply map_Forall_insert_2; assumption.
Qed.

End GridInvariant.

Section GridSamples.

Import Grid Samples.

Local Open Scope Z_scope.

(** The spec's scenario: width 4, height 4, 15 cells.  The update is
    rejected and the diagnostic reads the actual length, the width and
    the height; the expected length, 16, is not in it. *)
Lemma invalid_grid_message_lacks_product :
  let g := grid_4x4_short in
  let r := map_renderable in
  let res := _updateOccupancyGridRenderable same_frame png_throws renderer0 r g 0 in
  res.2 = Rejected
  /\ map err_message (errors res.1.1)
     = ["OccupancyGrid data length (15) is not equal to width 4 * height 4"]
  /\ map err_topic (errors res.1.1) = ["/map"]
  /\ pretty (4 * 4)%nat = "16"
  /\ Forall (fun e => Js.includes "16" (err_message e) = false) (errors res.1.1)
  /\ Forall (fun e => Js.includes "15" (err_message e) = true) (errors res.1.1).
Proof.
  cbv zeta. vm_compute. repeat split; repeat constructor.
Qed.

Lemma grid_dimension_check_witness :
  let g := grid_4x4_short in
  let r := map_renderable in
  let res := _updateOccupancyGridRenderable same_frame png_throws renderer0 r g 0 in
  dispatch png_throws g = Some g
  /\ res.2 = Rejected
  /\ texture res.1.2 = texture r
  /\ length (errors res.1.1) = 1%nat.
Proof.
  cbv zeta.
  pose proof (grid_dimension_check same_frame png_throws renderer0
                map_renderable grid_4x4_short grid_4x4_short 0 eq_refl)
    as (_ & Hrej & _ & Hmis).
  assert (Hne : length (data grid_4x4_short)
                <> (width (info grid_4x4_short) * height (info grid_4x4_short))%nat).
  { vm_compute. discriminate. }
  split; [reflexivity|]. split; [apply Hrej, Hne|].
  destruct (Hmis Hne) as (He & Ht & _).
  split; [exact Ht|]. rewrite He. reflexivity.
Defined.

Lemma accepted_grid_buffer_witness :
  let g := grid_2x3 in
  let r := map_renderable in
  let res := _updateOccupancyGridRenderable same_frame png_throws renderer0 r g 0 in
  texture_wf (texture r)
  /\ res.2 = Rendered
  /\ length (image_data (texture res.1.2)) = 24%nat
  /\ disposed res.1.1 = [0%nat]
  /\ tex_id (texture res.1.2) = 1%nat.
Proof.
  cbv zeta.
  assert (Hwf : texture_wf (texture map_renderable)) by reflexivity.
  pose proof (accepted_grid_buffer same_frame png_throws renderer0
                map_renderable grid_2x3 0 Hwf eq_refl)
    as (Hlen & _ & _ & _ & Hnew & _).
  split; [exact Hwf|]. split; [reflexivity|]. split; [exact Hlen|].
  destruct Hnew as (Hd & Hid & _); [left; vm_compute; discriminate|].
  split; [exact Hd | exact Hid].
Defined.

Lemma empty_grid_is_accepted_witness :
  let res :=
    handleOccupancyGrid same_frame png_throws renderer0 ∅ (grid_event "/map" empty_message) in
  absent_or (p_data empty_message) []
  /\ res.2 = Rendered
  /\ errors res.1.1 = [].
Proof.
  cbv zeta.
  pose proof (empty_grid_is_accepted same_frame png_throws renderer0 ∅
                (grid_event "/map" empty_message)
                (or_introl eq_refl) (or_introl eq_refl) (or_introl eq_refl))
    as (_ & _ & _ & Hr & He).
  split; [left; reflexivity|]. split; [exact Hr | exact He].
Defined.

(** The two branches of the format dispatch on concrete payloads. *)
Example png_payload_is_decoded :
  let g := grid 2 2 [-119; 80; 78; 71; 13; 10; 26; 10] in
  let r := grid_renderable "/map" (grid 2 2 (zeros 4)) in
  let res := _updateOccupancyGridRenderable same_frame png_four renderer0 r g 0 in
  res.2 = Rendered /\ data (occupancyGrid res.1.2) = [1; -56; 3; -1].
Proof. vm_compute. split; reflexivity. Qed.

Example raw_payload_is_kept :
  let g := grid 2 2 [0; 100; -1; 96] in
  let r := grid_renderable "/map" (grid 2 2 (zeros 4)) in
  let res := _updateOccupancyGridRenderable same_frame png_four renderer0 r g 0 in
  res.2 = Rendered /\ data (occupancyGrid res.1.2) = [0; 100; -1; 96]
  /\ image_data (texture res.1.2)
     = [255; 255; 255; 128; 0; 0; 0; 0; 0; 0; 0; 0; 128; 128; 128; 128].
Proof. vm_compute. repeat split; reflexivity. Qed.

(** A payload that carries the signature and that the decoder refuses:
    a grid of 2 by 2 cells whose four cells are the signature itself.
    The buffer is handed to the decoder, which throws.  The update is
    abandoned there: no decoded cells replace the buffer, and the
    dimension check does not run, so that the update is neither rendered
    nor rejected and nothing is reported. *)
Lemma refused_png_payload_is_abandoned :
  let g := grid 2 2 [-119; 80; 78; 71] in
  let r := grid_renderable "/map" (grid 2 2 (zeros 4)) in
  let res := _updateOccupancyGridRenderable same_frame png_throws renderer0 r g 0 in
  has_png_signature (data g) = true
  /\ png_throws (map Js.to_uint8 (data g)) = None
  /\ res.2 = Threw
  /\ res.2 <> Rendered
  /\ res.2 <> Rejected
  /\ data (occupancyGrid res.1.2) = [-119; 80; 78; 71]
  /\ texture res.1.2 = texture r
  /\ errors res.1.1 = [].
Proof.
  cbv zeta. vm_compute. repeat split; discriminate.
Qed.

End GridSamples.

(* ===================================================================== *)
(** * The vendor costmap adapter                                          *)
(* ===================================================================== *)

Section CostmapFacts.

Import Grid Samples.

(** A cell whose index is not a multiple of 4 is read at a fractional
    index: the read gives [undefined] and the cell is 0, whatever the
    packed bytes are. *)
Lemma unpack_cell_off_byte (packed : list Z) (width y x : nat) :
  (width * y + x) mod 4 <> 0 -> unpack_cell packed width y x = 0%Z.
Proof.
  intros H. unfold unpack_cell, Js.get_div.
  apply Nat.eqb_neq in H. rewrite H.
  unfold Js.shr, Js.ToInt32. rewrite Z.shiftr_0_l. reflexivity.
Qed.

(** A cell whose index is a multiple of 4 is the field the specification
    names: the two top bits of byte [k / 4]. *)
Lemma unpack_cell_on_byte (packed : list Z) (width y x : nat) :
  (width * y + x) mod 4 = 0 ->
  Forall (fun b => 0 <= b <= 255)%Z packed ->
  unpack_cell packed width y x = unpack_cell_spec packed (width * y + x).
Proof.
  intros H Hb. unfold unpack_cell, unpack_cell_spec, Js.get_div.
  rewrite H, Nat.eqb_refl. unfold Js.shr, Js.ToInt32.
  destruct (packed !! ((width * y + x) / 4)) as [b|] eqn:L; [|reflexivity].
  cbn [Js.nullish].
  assert (0 <= b <= 255)%Z as Hr.
  { rewrite Forall_forall in Hb. apply Hb. eapply list_elem_of_lookup_2. exact L. }
  rewrite Z.mod_small by lia.
  replace (b + 2147483648 - 2147483648)%Z with b by lia. reflexivity.
Qed.


(** Whatever the packed bytes are, every output cell whose index is not a
    multiple of 4 is 0. *)
Lemma unpack_off_byte_cells (packed : list Z) (width height k : nat) (v : Z) :
  unpack packed width height !! k = Some v -> k mod 4 <> 0 -> v = 0%Z.
Proof.
  intros Hk Hm. revert k v Hk Hm. unfold unpack.
  apply (for_range_invariant
           (fun out => forall k v, out !! k = Some v -> k mod 4 <> 0 -> v = 0%Z)).
  - intros k v Hk _. apply lookup_replicate in Hk as [-> _]. reflexivity.
  - intros y out _ Hout.
    apply (for_range_invariant
             (fun out => forall k v, out !! k = Some v -> k mod 4 <> 0 -> v = 0%Z));
      [exact Hout|].
    intros x out' _ Hout' k v Hk Hm. unfold Js.store in Hk.
    destruct (decide (k = width * y + x)) as [->|Hne].
    + destruct (decide (width * y + x < length out')) as [Hlt|Hge].
      * rewrite list_lookup_insert_eq in Hk by exact Hlt.
        injection Hk as <-. rewrite unpack_cell_off_byte by exact Hm. reflexivity.
      * rewrite list_insert_ge in Hk by lia. eapply Hout'; eassumption.
    + rewrite list_lookup_insert_ne in Hk by congruence. eapply Hout'; eassumption.
Qed.

(** Width, height and resolution of the source message are carried over,
    and the origin is (offset_x, offset_y, 0) with the identity
    orientation. *)
Lemma MirToRos_metadata (messageEvent : MessageEvent CostmapData) :
  let m := ev_message messageEvent in
  let g := normalizeOccupancyGrid (ev_message (MirToRos messageEvent)) in
  width (info g) = c_width m
  /\ height (info g) = c_height m
  /\ resolution (info g) = Js.nullish (c_resolution m) Js.zero
  /\ position (origin (info g))
     = {| v_x := Js.nullish (c_offset_x m) Js.zero;
          v_y := Js.nullish (c_offset_y m) Js.zero;
          v_z := Js.zero |}
  /\ ev_topic (MirToRos messageEvent) = ev_topic messageEvent.
Proof. cbv zeta. repeat split. Qed.

(** C3.  The adapter on a 2 x 2 costmap whose first packed byte is
    [0b11100100]: the specification's unpacking gives the cells 3, 2, 1,
    0; the adapter gives 3, 0, 0, 0.  The index [k / 4] is a number
    division, so only the cells whose index is a multiple of 4 read a
    byte. *)
Theorem costmap_adapter_reads_one_cell_in_four :
  let packed := [0xE4; 0; 0; 0]%Z in
  let out := MirToRos (costmap_event 2 2 packed) in
  p_data (ev_message out) = Some [3; 0; 0; 0]%Z
  /\ map (unpack_cell_spec packed) (seq 0 4) = [3; 2; 1; 0]%Z.
Proof. cbv zeta. split; reflexivity. Qed.

(** The same message through the whole handler: four cells for a 2 x 2
    grid pass the dimension check and the cells 3, 0, 0, 0 are what is
    rendered. *)
Example costmap_handled :
  let res :=
    handleCostmapData same_frame png_throws renderer0 ∅
      (costmap_event 2 2 [0xE4; 0; 0; 0]%Z) in
  res.2 = Rendered
  /\ (data ∘ occupancyGrid <$> res.1.2 !! "/costmap") = Some [3; 0; 0; 0]%Z.
Proof. vm_compute. split; reflexivity. Qed.

(** A packed message of one byte for four cells: the output has one cell
    and the dimension check rejects it. *)
Example costmap_packed_rejected :
  let res :=
    handleCostmapData same_frame png_throws renderer0 ∅
      (costmap_event 2 2 [0xE4]%Z) in
  res.2 = Rejected
  /\ (data ∘ occupancyGrid <$> res.1.2 !! "/costmap") = Some [3]%Z.
Proof. vm_compute. split; reflexivity. Qed.

End CostmapFacts.

(* ===================================================================== *)
(** * Loops over a pool                                                   *)
(* ===================================================================== *)

Section PoolLoops.

Context {S A : Type}.

(** A loop that touches the state only through one field is a loop on
    that field. *)
Lemma for_range_field (get : S -> A) (set : S -> A -> S) (F : nat -> A -> A)
    (lo hi : nat) (s : S) :
  (forall s a, get (set s a) = a) ->
  get (Js.for_range lo hi (fun i s => set s (F i (get s))) s)
  = Js.for_range lo hi F (get s).
Proof.
  intros Hgs. destruct (le_lt_dec hi lo) as [Hle|Hlt].
  - rewrite !for_range_empty by assumption. reflexivity.
  - induction hi as [|hi IH]; [lia|].
    rewrite !for_range_S by lia. rewrite Hgs. f_equal.
    destruct (decide (hi = lo)) as [->|Hne].
    + rewrite !for_range_empty by lia. reflexivity.
    + apply IH. lia.
Qed.

(** ... and leaves alone whatever the field assignment leaves alone. *)
Lemma for_range_frame {B : Type} (p : S -> B) (set : S -> A -> S) (G : nat -> S -> A)
    (lo hi : nat) (s : S) :
  (forall s a, p (set s a) = p s) ->
  p (Js.for_range lo hi (fun i s => set s (G i s)) s) = p s.
Proof.
  intros Hp. apply (for_range_invariant (fun s' => p s' = p s)); [reflexivity|].
  intros i x _ Hx. rewrite Hp. exact Hx.
Qed.

End PoolLoops.

Section LoopExt.

Context {S : Type}.

(** Two bodies that agree on the range give the same loop. *)
Lemma for_range_ext (lo hi : nat) (body body' : nat -> S -> S) (s : S) :
  (forall i x, lo <= i < hi -> body i x = body' i x) ->
  Js.for_range lo hi body s = Js.for_range lo hi body' s.
Proof.
  intros H. destruct (le_lt_dec hi lo) as [Hle|Hlt].
  - rewrite !for_range_empty by assumption. reflexivity.
  - induction hi as [|hi IH]; [lia|].
    rewrite !for_range_S by lia. rewrite H by lia. f_equal.
    destruct (decide (hi = lo)) as [->|Hne].
    + rewrite !for_range_empty by lia. reflexivity.
    + apply IH; [|lia]. intros i x Hi. apply H. lia.
Qed.

End LoopExt.

Section AlterLoops.

Context {A : Type}.

(** [for (i = lo; i < hi; i++) l[i] = f_i(l[i])] *)
Lemma alter_loop_lookup (f : nat -> A -> A) (lo hi : nat) (l : list A) (j : nat) :
  Js.for_range lo hi (fun i l => alter (f i) i l) l !! j
  = if decide (lo <= j < hi) then f j <$> l !! j else l !! j.
Proof.
  destruct (le_lt_dec hi lo) as [Hle|Hlt].
  - rewrite for_range_empty by assumption. rewrite decide_False by lia. reflexivity.
  - induction hi as [|hi IH]; [lia|].
    rewrite for_range_S by lia.
    destruct (decide (j = hi)) as [->|Hne].
    + rewrite list_lookup_alter_eq. rewrite decide_True by lia.
      destruct (decide (hi = lo)) as [E|E].
      * rewrite for_range_empty by lia. reflexivity.
      * rewrite IH by lia. rewrite decide_False by lia. reflexivity.
    + rewrite list_lookup_alter_ne by congruence.
      destruct (decide (hi = lo)) as [E|E].
      * rewrite for_range_empty by lia. rewrite decide_False by lia. reflexivity.
      * rewrite IH by lia. destruct (decide (lo <= j < hi)).
        -- rewrite decide_True by lia. reflexivity.
        -- rewrite decide_False by lia. reflexivity.
Qed.

Lemma alter_loop_length (f : nat -> A -> A) (lo hi : nat) (l : list A) :
  length (Js.for_range lo hi (fun i l => alter (f i) i l) l) = length l.
Proof.
  apply (for_range_invariant (fun l' => length l' = length l)); [reflexivity|].
  intros i x _ Hx. rewrite length_alter. exact Hx.
Qed.

End AlterLoops.

(* ===================================================================== *)
(** * Pose arrays: releasing pools                                        *)
(* ===================================================================== *)

Section Release.

Import PoseArrays.

Variable rgbaGradient : ColorRGBA -> ColorRGBA -> number -> ColorRGBA.
Variable Marker : Type.

Local Abbreviation Node := (Renderable Marker).
Local Abbreviation state := (Scene * Renderable Marker)%type.

Lemma release_fold {X : Type} (idf : X -> nat) (l : list X) (sc : Scene) (r : Node) :
  let res := foldl (fun st a => release st (idf a)) (sc, r) l in
  disposed res.1 = rev (map idf l) ++ disposed sc
  /\ next_id res.1 = next_id sc
  /\ (forall c, c ∈ children res.2 <-> c ∈ children r /\ c ∉ map idf l)
  /\ axes res.2 = axes r /\ arrows res.2 = arrows r
  /\ trolley_arrows res.2 = trolley_arrows r
  /\ lineStrip res.2 = lineStrip r /\ settings res.2 = settings r.
Proof.
  cbv zeta. revert sc r. induction l as [|a l IH]; intros sc r.
  - cbn. split; [reflexivity|]. split; [reflexivity|]. split; [|repeat split].
    intros c. rewrite elem_of_nil. tauto.
  - cbn [foldl]. unfold release at 2.
    destruct (IH (dispose sc (idf a)) (remove_child r (idf a)))
      as (Hd & Hn & Hc & Ha & Hr & Ht & Hl & Hs).
    split; [|split; [|split; [|repeat split; assumption]]].
    + rewrite Hd. cbn. rewrite <- app_assoc. reflexivity.
    + exact Hn.
    + intros c. rewrite Hc. cbn. rewrite list_elem_of_filter, elem_of_cons. tauto.
Qed.

Lemma releases_nil (st : state) : releases [] st st.
Proof.
  unfold releases. split; [reflexivity|]. split; [reflexivity|]. split; [|reflexivity].
  intros c. rewrite elem_of_nil. tauto.
Qed.

Lemma releases_app (ids1 ids2 : list nat) (st st1 st2 : state) :
  releases ids1 st st1 -> releases ids2 st1 st2 -> releases (ids1 ++ ids2) st st2.
Proof.
  intros (Hd1 & Hn1 & Hc1 & Hs1) (Hd2 & Hn2 & Hc2 & Hs2).
  unfold releases. split; [|split; [|split]].
  - rewrite Hd2, Hd1, rev_app_distr, app_assoc. reflexivity.
  - congruence.
  - intros c. rewrite Hc2, Hc1, elem_of_app. tauto.
  - congruence.
Qed.

Lemma removeArrows_spec (st : state) :
  releases (arrows_ids st.2) st (removeArrows st)
  /\ arrows (removeArrows st).2 = []
  /\ axes (removeArrows st).2 = axes st.2
  /\ trolley_arrows (removeArrows st).2 = trolley_arrows st.2
  /\ lineStrip (removeArrows st).2 = lineStrip st.2.
Proof.
  destruct st as [sc r]. unfold removeArrows, releases. cbn [fst snd].
  pose proof (release_fold arrow_id (arrows r) sc r) as (Hd & Hn & Hc & Ha & Hr & Ht & Hl & Hs).
  cbv zeta in *. destruct (foldl _ (sc, r) (arrows r)) as [sc' r']. cbn [fst snd] in *.
  split; [split; [exact Hd | split; [exact Hn | split; [exact Hc | exact Hs]]]|].
  repeat split; assumption.
Qed.

Lemma removeAxes_spec (st : state) :
  releases (axes_ids st.2) st (removeAxes st)
  /\ axes (removeAxes st).2 = []
  /\ arrows (removeAxes st).2 = arrows st.2
  /\ trolley_arrows (removeAxes st).2 = trolley_arrows st.2
  /\ lineStrip (removeAxes st).2 = lineStrip st.2.
Proof.
  destruct st as [sc r]. unfold removeAxes, releases. cbn [fst snd].
  pose proof (release_fold axis_id (axes r) sc r) as (Hd & Hn & Hc & Ha & Hr & Ht & Hl & Hs).
  cbv zeta in *. destruct (foldl _ (sc, r) (axes r)) as [sc' r']. cbn [fst snd] in *.
  split; [split; [exact Hd | split; [exact Hn | split; [exact Hc | exact Hs]]]|].
  repeat split; assumption.
Qed.

Lemma removeTrolley_spec (st : state) :
  releases (trolley_ids st.2) st (removeTrolley st)
  /\ trolley_arrows (removeTrolley st).2 = []
  /\ axes (removeTrolley st).2 = axes st.2
  /\ arrows (removeTrolley st).2 = arrows st.2
  /\ lineStrip (removeTrolley st).2 = lineStrip st.2.
Proof.
  destruct st as [sc r]. unfold removeTrolley, releases. cbn [fst snd].
  pose proof (release_fold arrow_id (trolley_arrows r) sc r)
    as (Hd & Hn & Hc & Ha & Hr & Ht & Hl & Hs).
  cbv zeta in *. destruct (foldl _ (sc, r) (trolley_arrows r)) as [sc' r']. cbn [fst snd] in *.
  split; [split; [exact Hd | split; [exact Hn | split; [exact Hc | exact Hs]]]|].
  repeat split; assumption.
Qed.

Lemma removeLineStrip_spec (st : state) :
  releases (line_ids st.2) st (removeLineStrip st)
  /\ lineStrip (removeLineStrip st).2 = None
  /\ axes (removeLineStrip st).2 = axes st.2
  /\ arrows (removeLineStrip st).2 = arrows st.2
  /\ trolley_arrows (removeLineStrip st).2 = trolley_arrows st.2.
Proof.
  destruct st as [sc r]. unfold removeLineStrip, line_ids. cbn [fst snd].
  destruct (lineStrip r) as [l|] eqn:L.
  - split; [|cbn; repeat split].
    unfold releases. cbn. split; [reflexivity|]. split; [reflexivity|].
    split; [|reflexivity].
    intros c. rewrite list_elem_of_filter, list_elem_of_singleton. tauto.
  - split; [apply releases_nil|]. cbn. rewrite L. repeat split.
Qed.

(** ** The release of pools on a settings change *)

(** The first step of the rebuild: the trolley arrows are released when
    the settings now in force have the trolley attachment on. *)
Lemma rebuild_trolley_step (st : state) :
  let st1 := if trolley (settings st.2) then removeTrolley st else st in
  releases (if trolley (settings st.2) then trolley_ids st.2 else []) st st1
  /\ trolley_arrows st1.2 = (if trolley (settings st.2) then [] else trolley_arrows st.2)
  /\ axes st1.2 = axes st.2 /\ arrows st1.2 = arrows st.2
  /\ lineStrip st1.2 = lineStrip st.2.
Proof.
  cbv zeta. destruct (trolley (settings st.2)).
  - apply removeTrolley_spec.
  - split; [apply releases_nil|]. repeat split.
Qed.

(** In axis and arrow mode the rebuild releases the trolley arrows (when
    the attachment is on), then the pool of the other of the two modes,
    then the line; the pool of the mode itself is left as it is. *)
Lemma rebuild_pools (st : state) (poseArray : PoseArray) (colorStart colorEnd : ColorRGBA) :
  let r := st.2 in
  let ty := type (settings r) in
  let tr := trolley (settings r) in
  let res := rebuild rgbaGradient st poseArray colorStart colorEnd in
  ty <> line ->
  releases ((if tr then trolley_ids r else []) ++ other_pool_ids ty r) st res
  /\ axes res.2 = (if ty is axis then axes r else [])
  /\ arrows res.2 = (if ty is arrow then arrows r else [])
  /\ trolley_arrows res.2 = (if tr then [] else trolley_arrows r)
  /\ lineStrip res.2 = None.
Proof.
  cbv zeta. intros Hty. unfold rebuild.
  pose proof (rebuild_trolley_step st) as (R1 & T1 & A1 & Ar1 & L1). cbv zeta in *.
  set (st1 := if trolley (settings st.2) then removeTrolley st else st) in *.
  assert (S1 : settings st1.2 = settings st.2) by apply R1.
  rewrite S1.
  destruct (type (settings st.2)) eqn:Ty; [| |contradiction].
  - pose proof (removeArrows_spec st1) as (R2 & Ar2 & A2 & T2 & L2).
    pose proof (removeLineStrip_spec (removeArrows st1)) as (R3 & L3 & A3 & Ar3 & T3).
    split; [|repeat split; congruence].
    unfold other_pool_ids. eapply releases_app; [exact R1|].
    eapply releases_app.
    + unfold arrows_ids. rewrite <- Ar1. exact R2.
    + unfold line_ids. rewrite <- L1, <- L2. exact R3.
  - pose proof (removeAxes_spec st1) as (R2 & A2 & Ar2 & T2 & L2).
    pose proof (removeLineStrip_spec (removeAxes st1)) as (R3 & L3 & A3 & Ar3 & T3).
    split; [|repeat split; congruence].
    unfold other_pool_ids. eapply releases_app; [exact R1|].
    eapply releases_app.
    + unfold axes_ids. rewrite <- A1. exact R2.
    + unfold line_ids. rewrite <- L1, <- L2. exact R3.
Qed.

(** In line mode the rebuild releases the trolley arrows (when the
    attachment is on), the arrows and the axes, and makes sure the line
    exists. *)
Lemma rebuild_line (st : state) (poseArray : PoseArray) (colorStart colorEnd : ColorRGBA) :
  let r := st.2 in
  let tr := trolley (settings r) in
  let res := rebuild rgbaGradient st poseArray colorStart colorEnd in
  type (settings r) = line ->
  disposed res.1
  = rev ((if tr then trolley_ids r else []) ++ other_pool_ids line r) ++ disposed st.1
  /\ settings res.2 = settings r
  /\ arrows res.2 = [] /\ axes res.2 = []
  /\ trolley_arrows res.2 = (if tr then [] else trolley_arrows r)
  /\ is_Some (lineStrip res.2).
Proof.
  cbv zeta. intros Hty. unfold rebuild.
  pose proof (rebuild_trolley_step st) as (R1 & T1 & A1 & Ar1 & L1). cbv zeta in *.
  set (st1 := if trolley (settings st.2) then removeTrolley st else st) in *.
  assert (S1 : settings st1.2 = settings st.2) by apply R1.
  rewrite S1, Hty.
  pose proof (removeArrows_spec st1) as (R2 & Ar2 & A2 & T2 & L2).
  pose proof (removeAxes_spec (removeArrows st1)) as (R3 & A3 & Ar3 & T3 & L3).
  assert (R : releases ((if trolley (settings st.2) then trolley_ids st.2 else [])
                        ++ other_pool_ids line st.2) st (removeAxes (removeArrows st1))).
  { unfold other_pool_ids. eapply releases_app; [exact R1|].
    eapply releases_app.
    - unfold arrows_ids. rewrite <- Ar1. exact R2.
    - unfold axes_ids. rewrite <- A1, <- A2. exact R3. }
  destruct R as (Rd & Rn & _ & Rs).
  destruct (removeAxes (removeArrows st1)) as [sc3 r3]. cbn [fst snd] in *.
  destruct (lineStrip r3) as [l|] eqn:L; cbn -[other_pool_ids].
  - rewrite L. cbn -[other_pool_ids]. split; [exact Rd|].
    repeat split; try congruence. eexists; reflexivity.
  - split; [exact Rd|]. repeat split; try congruence. eexists; reflexivity.
Qed.

End Release.

(* ===================================================================== *)
(** * Pose arrays: pool synchronisation                                   *)
(* ===================================================================== *)

Section PoolSync.

Import PoseArrays.

Variable AXIS_LENGTH : number.
Variable rgbaGradient : ColorRGBA -> ColorRGBA -> number -> ColorRGBA.
Variable Marker : Type.
Variable createArrowMarker : number * number * number -> ColorRGBA -> Marker.

Local Abbreviation Node := (Renderable Marker).
Local Abbreviation state := (Scene * Renderable Marker)%type.
Local Abbreviation sync_axes := (_createAxesToMatchPoses AXIS_LENGTH (Marker := Marker)).
Local Abbreviation sync_arrows := (_createArrowsToMatchPoses rgbaGradient createArrowMarker).
Local Abbreviation sync_trolley := (_createTrolleyArrowsToMatchPoses createArrowMarker).

(** The second loop of the axis pool: one new axis per missing index. *)
Lemma create_axes_loop (scale : number) (lo hi : nat) (sc : Scene) (r : Node) :
  let res :=
    Js.for_range lo hi
      (fun (i : nat) (st : state) =>
         let '(sc, r) := st in
         let a := new_Axis (next_id sc) in
         let sc := alloc sc in
         let r := set_axes r (axes r ++ [axis_set_scale scale a]) in
         let r := add_child r (axis_id a) in
         (sc, r))
      (sc, r) in
  axes res.2
  = axes r ++ map (fun j => axis_set_scale scale (new_Axis (next_id sc + j))) (seq 0 (hi - lo))
  /\ next_id res.1 = next_id sc + (hi - lo)
  /\ children res.2 = children r ++ map (fun j => next_id sc + j) (seq 0 (hi - lo))
  /\ arrows res.2 = arrows r
  /\ trolley_arrows res.2 = trolley_arrows r
  /\ untouched sc res.1 r res.2.
Proof.
  cbv zeta. induction hi as [|hi IH].
  - rewrite for_range_empty by lia. cbn.
    rewrite !app_nil_r, Nat.add_0_r. repeat split.
  - destruct (le_lt_dec (S hi) lo) as [Hge|Hlt].
    + rewrite for_range_empty by lia. replace (S hi - lo) with 0 by lia. cbn.
      rewrite !app_nil_r, Nat.add_0_r. repeat split.
    + rewrite for_range_S by lia.
      destruct IH as (Ha & Hn & Hc & Har & Ht & Hu).
      destruct (Js.for_range lo hi _ (sc, r)) as [sc1 r1]. cbn in *.
      replace (S hi - lo) with (S (hi - lo)) by lia.
      rewrite seq_S, !map_app, !app_assoc. cbn.
      rewrite Ha, Hn, Hc. destruct Hu.
      repeat split; try assumption; try lia.
Qed.

(** The pool of axes after [_createAxesToMatchPoses]: the axes that
    exist and are needed are shown and rescaled, the missing ones are
    created with the next identities, the surplus ones are hidden. *)
Lemma sync_axes_spec (sc : Scene) (r : Node) (poseArray : PoseArray) :
  let count := length (poses poseArray) in
  let len := length (axes r) in
  let scale := Js.mul (axisScale (settings r)) (Js.div Js.one AXIS_LENGTH) in
  let res := sync_axes (sc, r) poseArray in
  (forall j,
     axes res.2 !! j
     = if decide (j < len)
       then (if decide (j < count) then axis_show scale else axis_hide) <$> axes r !! j
       else if decide (j < count)
            then Some (axis_set_scale scale (new_Axis (next_id sc + (j - len))))
            else None)
  /\ length (axes res.2) = max len count
  /\ next_id res.1 = next_id sc + (count - len)
  /\ children res.2 = children r ++ map (fun j => next_id sc + j) (seq 0 (count - len))
  /\ arrows res.2 = arrows r
  /\ trolley_arrows res.2 = trolley_arrows r
  /\ untouched sc res.1 r res.2.
Proof.
  cbv zeta. unfold _createAxesToMatchPoses.
  set (scale := Js.mul (axisScale (settings r)) (Js.div Js.one AXIS_LENGTH)).
  set (count := length (poses poseArray)).
  set (r1 := Js.for_range 0 (min (length (axes r)) count) _ r).
  assert (A1 : axes r1
               = Js.for_range 0 (min (length (axes r)) count)
                   (fun i l => alter (axis_show scale) i l) (axes r)).
  { apply (for_range_field axes set_axes (fun i l => alter (axis_show scale) i l)).
    reflexivity. }
  assert (L1 : length (axes r1) = length (axes r)).
  { rewrite A1. apply alter_loop_length. }
  assert (F1 : arrows r1 = arrows r /\ trolley_arrows r1 = trolley_arrows r
               /\ children r1 = children r /\ untouched sc sc r r1).
  { repeat split;
      try (apply (for_range_frame _ set_axes
                    (fun i (s : Node) => alter (axis_show scale) i (axes s)));
           reflexivity). }
  destruct F1 as (F1a & F1t & F1c & F1u).
  pose proof (create_axes_loop scale (length (axes r1)) count sc r1)
    as (A2 & N2 & C2 & Ar2 & T2 & U2).
  cbv zeta in A2, N2, C2, Ar2, T2, U2.
  destruct (Js.for_range (length (axes r1)) count _ (sc, r1)) as [sc2 r2].
  cbn [fst snd] in *.
  set (r3 := Js.for_range count (length (axes r2)) _ r2).
  assert (A3 : axes r3
               = Js.for_range count (length (axes r2))
                   (fun i l => alter axis_hide i l) (axes r2)).
  { apply (for_range_field axes set_axes (fun i l => alter axis_hide i l)). reflexivity. }
  assert (L2 : length (axes r2) = max (length (axes r)) count).
  { rewrite A2, length_app, length_map, length_seq. lia. }
  assert (F3 : arrows r3 = arrows r2 /\ trolley_arrows r3 = trolley_arrows r2
               /\ children r3 = children r2 /\ untouched sc2 sc2 r2 r3).
  { repeat split;
      try (apply (for_range_frame _ set_axes (fun i (s : Node) => alter axis_hide i (axes s)));
           reflexivity). }
  destruct F3 as (F3a & F3t & F3c & F3u).
  split; [|split; [|split; [|split; [|split; [|split]]]]].
  - intros j. rewrite A3, alter_loop_lookup, L2.
    destruct (decide (j < length (axes r))) as [Hj|Hj].
    + rewrite A2, lookup_app_l by lia. rewrite A1, alter_loop_lookup.
      repeat case_decide; try lia; reflexivity.
    + rewrite A2, lookup_app_r by lia. rewrite L1.
      rewrite list_lookup_fmap.
      destruct (decide (j < count)) as [Hc|Hc].
      * rewrite lookup_seq_lt by lia. rewrite decide_False by lia. reflexivity.
      * rewrite lookup_seq_ge by lia. repeat case_decide; reflexivity.
  - rewrite A3, alter_loop_length. exact L2.
  - rewrite N2, L1. reflexivity.
  - rewrite F3c, C2, F1c, L1. reflexivity.
  - congruence.
  - congruence.
  - destruct F1u, U2, F3u. split; congruence.
Qed.

(** The second loop of the arrow pool. *)
Lemma create_arrows_loop (marker : nat -> Marker) (lo hi : nat) (sc : Scene) (r : Node) :
  let res :=
    Js.for_range lo hi
      (fun (i : nat) (st : state) =>
         let '(sc, r) := st in
         let a := new_RenderableArrow (next_id sc) (marker i) in
         let sc := alloc sc in
         let r := set_arrows r (arrows r ++ [a]) in
         let r := add_child r (arrow_id a) in
         (sc, r))
      (sc, r) in
  arrows res.2
  = arrows r
    ++ map (fun j => new_RenderableArrow (next_id sc + j) (marker (lo + j))) (seq 0 (hi - lo))
  /\ next_id res.1 = next_id sc + (hi - lo)
  /\ children res.2 = children r ++ map (fun j => next_id sc + j) (seq 0 (hi - lo))
  /\ axes res.2 = axes r
  /\ trolley_arrows res.2 = trolley_arrows r
  /\ untouched sc res.1 r res.2.
Proof.
  cbv zeta. induction hi as [|hi IH].
  - rewrite for_range_empty by lia. cbn.
    rewrite !app_nil_r, Nat.add_0_r. repeat split.
  - destruct (le_lt_dec (S hi) lo) as [Hge|Hlt].
    + rewrite for_range_empty by lia. replace (S hi - lo) with 0 by lia. cbn.
      rewrite !app_nil_r, Nat.add_0_r. repeat split.
    + rewrite for_range_S by lia.
      destruct IH as (Ha & Hn & Hc & Har & Ht & Hu).
      destruct (Js.for_range lo hi _ (sc, r)) as [sc1 r1]. cbn in *.
      replace (S hi - lo) with (S (hi - lo)) by lia.
      rewrite seq_S, !map_app, !app_assoc. cbn.
      rewrite Ha, Hn, Hc. destruct Hu.
      replace (lo + (hi - lo)) with hi by lia.
      repeat split; try assumption; try lia.
Qed.

(** The pool of arrows after [_createArrowsToMatchPoses]. *)
Lemma sync_arrows_spec (sc : Scene) (r : Node) (poseArray : PoseArray)
    (colorStart colorEnd : ColorRGBA) :
  let count := length (poses poseArray) in
  let len := length (arrows r) in
  let marker :=
    createArrowMarkerFromIndex rgbaGradient createArrowMarker r poseArray colorStart colorEnd in
  let res := sync_arrows (sc, r) poseArray colorStart colorEnd in
  (forall j,
     arrows res.2 !! j
     = if decide (j < len)
       then (if decide (j < count) then arrow_show (marker j) else arrow_hide) <$> arrows r !! j
       else if decide (j < count)
            then Some (new_RenderableArrow (next_id sc + (j - len)) (marker j))
            else None)
  /\ length (arrows res.2) = max len count
  /\ next_id res.1 = next_id sc + (count - len)
  /\ children res.2 = children r ++ map (fun j => next_id sc + j) (seq 0 (count - len))
  /\ axes res.2 = axes r
  /\ trolley_arrows res.2 = trolley_arrows r
  /\ untouched sc res.1 r res.2.
Proof.
  cbv zeta. unfold _createArrowsToMatchPoses.
  set (marker := createArrowMarkerFromIndex _ _ r poseArray colorStart colorEnd).
  set (count := length (poses poseArray)).
  set (r1 := Js.for_range 0 (min (length (arrows r)) count) _ r).
  assert (A1 : arrows r1
               = Js.for_range 0 (min (length (arrows r)) count)
                   (fun i l => alter (arrow_show (marker i)) i l) (arrows r)).
  { apply (for_range_field arrows set_arrows
             (fun i l => alter (arrow_show (marker i)) i l)).
    reflexivity. }
  assert (L1 : length (arrows r1) = length (arrows r)).
  { rewrite A1. apply alter_loop_length. }
  assert (F1 : axes r1 = axes r /\ trolley_arrows r1 = trolley_arrows r
               /\ children r1 = children r /\ untouched sc sc r r1).
  { repeat split;
      try (apply (for_range_frame _ set_arrows
                    (fun i (s : Node) => alter (arrow_show (marker i)) i (arrows s)));
           reflexivity). }
  destruct F1 as (F1a & F1t & F1c & F1u).
  pose proof (create_arrows_loop marker (length (arrows r1)) count sc r1)
    as (A2 & N2 & C2 & Ar2 & T2 & U2).
  cbv zeta in A2, N2, C2, Ar2, T2, U2.
  destruct (Js.for_range (length (arrows r1)) count _ (sc, r1)) as [sc2 r2].
  cbn [fst snd] in *.
  set (r3 := Js.for_range count (length (arrows r2)) _ r2).
  assert (A3 : arrows r3
               = Js.for_range count (length (arrows r2))
                   (fun i l => alter arrow_hide i l) (arrows r2)).
  { apply (for_range_field arrows set_arrows (fun i l => alter arrow_hide i l)).
    reflexivity. }
  assert (L2 : length (arrows r2) = max (length (arrows r)) count).
  { rewrite A2, length_app, length_map, length_seq. lia. }
  assert (F3 : axes r3 = axes r2 /\ trolley_arrows r3 = trolley_arrows r2
               /\ children r3 = children r2 /\ untouched sc2 sc2 r2 r3).
  { repeat split;
      try (apply (for_range_frame _ set_arrows
                    (fun i (s : Node) => alter arrow_hide i (arrows s)));
           reflexivity). }
  destruct F3 as (F3a & F3t & F3c & F3u).
  split; [|split; [|split; [|split; [|split; [|split]]]]].
  - intros j. rewrite A3, alter_loop_lookup, L2.
    destruct (decide (j < length (arrows r))) as [Hj|Hj].
    + rewrite A2, lookup_app_l by lia. rewrite A1, alter_loop_lookup.
      repeat case_decide; try lia; reflexivity.
    + rewrite A2, lookup_app_r by lia. rewrite L1.
      rewrite list_lookup_fmap.
      destruct (decide (j < count)) as [Hc|Hc].
      * rewrite lookup_seq_lt by lia. rewrite decide_False by lia. cbn.
        replace (length (arrows r) + (j - length (arrows r))) with j by lia.
        reflexivity.
      * rewrite lookup_seq_ge by lia. repeat case_decide; reflexivity.
  - rewrite A3, alter_loop_length. exact L2.
  - rewrite N2, L1. reflexivity.
  - rewrite F3c, C2, F1c, L1. reflexivity.
  - congruence.
  - congruence.
  - destruct F1u, U2, F3u. split; congruence.
Qed.

(** The pass over the trolley arrows touches neither the axes nor the
    arrows and disposes nothing. *)
Lemma sync_trolley_frame (sc : Scene) (r : Node) (poseArray : PoseArray) :
  let res := sync_trolley (sc, r) poseArray in
  axes res.2 = axes r /\ arrows res.2 = arrows r /\ untouched sc res.1 r res.2
  /\ next_id sc <= next_id res.1
  /\ exists added, children res.2 = children r ++ added.
Proof.
  cbv zeta. unfold _createTrolleyArrowsToMatchPoses.
  set (count := length (poses poseArray)).
  set (r1 := Js.for_range 0 _ _ r).
  assert (F1 : axes r1 = axes r /\ arrows r1 = arrows r /\ children r1 = children r
               /\ untouched sc sc r r1).
  { repeat split;
      try (apply (for_range_frame _ set_trolley_arrows
                    (fun i (s : Node) =>
                       alter (arrow_show (trolley_marker createArrowMarker s)) i
                         (trolley_arrows s)));
           reflexivity). }
  destruct F1 as (F1a & F1r & F1c & F1u).
  set (body := fun (i : nat) (st : state) => _).
  assert (F2 : let res := Js.for_range (length (trolley_arrows r1)) count body (sc, r1) in
               axes res.2 = axes r1 /\ arrows res.2 = arrows r1
               /\ untouched sc res.1 r1 res.2 /\ next_id sc <= next_id res.1
               /\ exists added, children res.2 = children r1 ++ added).
  { apply (for_range_invariant
             (fun res : state =>
                axes res.2 = axes r1 /\ arrows res.2 = arrows r1
                /\ untouched sc res.1 r1 res.2 /\ next_id sc <= next_id res.1
                /\ exists added, children res.2 = children r1 ++ added)).
    - repeat split; [cbn; lia|]. exists []. cbn. rewrite app_nil_r. reflexivity.
    - intros i [sc' r'] _ (Ha & Hr & Hu & Hn & added & Hc). destruct Hu.
      unfold body. cbn in *.
      repeat split; try assumption; [lia|].
      exists (added ++ [next_id sc']). rewrite Hc, app_assoc. reflexivity. }
  cbv zeta in F2. destruct (Js.for_range _ count body (sc, r1)) as [sc2 r2].
  cbn [fst snd] in *. destruct F2 as (F2a & F2r & F2u & F2n & added & F2c).
  set (r3 := Js.for_range count _ _ r2).
  assert (F3 : axes r3 = axes r2 /\ arrows r3 = arrows r2 /\ children r3 = children r2
               /\ untouched sc2 sc2 r2 r3).
  { repeat split;
      try (apply (for_range_frame _ set_trolley_arrows
                    (fun i (s : Node) => alter arrow_hide i (trolley_arrows s)));
           reflexivity). }
  destruct F3 as (F3a & F3r & F3c & F3u).
  split; [congruence|]. split; [congruence|].
  split; [destruct F1u, F2u, F3u; split; congruence|].
  split; [assumption|].
  exists added. congruence.
Qed.

(** ** Placing the children *)

Lemma place_axes_spec (r : Node) (ps : list Pose) :
  (forall j,
     axes (place_axes r ps) !! j
     = match ps !! j with
       | Some p => axis_set_pose p <$> axes r !! j
       | None => axes r !! j
       end)
  /\ arrows (place_axes r ps) = arrows r
  /\ trolley_arrows (place_axes r ps) = trolley_arrows r
  /\ lineStrip (place_axes r ps) = lineStrip r
  /\ children (place_axes r ps) = children r
  /\ settings (place_axes r ps) = settings r.
Proof.
  set (f := fun i : nat => match ps !! i with Some p => axis_set_pose p | None => id end).
  assert (E : place_axes r ps
              = Js.for_range 0 (length ps)
                  (fun i (s : Node) => set_axes s (alter (f i) i (axes s))) r).
  { unfold place_axes. apply for_range_ext. intros i x Hi. unfold f.
    destruct (lookup_lt_is_Some_2 ps i ltac:(lia)) as [p ->]. reflexivity. }
  rewrite E. split.
  - intros j.
    rewrite (for_range_field axes set_axes (fun i l => alter (f i) i l)) by reflexivity.
    rewrite alter_loop_lookup. unfold f.
    destruct (decide (0 <= j < length ps)) as [Hj|Hj].
    + destruct (lookup_lt_is_Some_2 ps j ltac:(lia)) as [p ->]. reflexivity.
    + rewrite (lookup_ge_None_2 ps j) by lia. reflexivity.
  - repeat split;
      apply (for_range_frame _ set_axes (fun i (s : Node) => alter (f i) i (axes s)));
      reflexivity.
Qed.

Lemma place_arrows_spec (r : Node) (ps : list Pose) :
  (forall j,
     arrows (place_arrows r ps) !! j
     = match ps !! j with
       | Some p => arrow_set_pose (position p) (orientation p) <$> arrows r !! j
       | None => arrows r !! j
       end)
  /\ axes (place_arrows r ps) = axes r
  /\ trolley_arrows (place_arrows r ps) = trolley_arrows r
  /\ lineStrip (place_arrows r ps) = lineStrip r
  /\ children (place_arrows r ps) = children r
  /\ settings (place_arrows r ps) = settings r.
Proof.
  set (f := fun i : nat =>
              match ps !! i with
              | Some p => arrow_set_pose (Marker := Marker) (position p) (orientation p)
              | None => id
              end).
  assert (E : place_arrows r ps
              = Js.for_range 0 (length ps)
                  (fun i (s : Node) => set_arrows s (alter (f i) i (arrows s))) r).
  { unfold place_arrows. apply for_range_ext. intros i x Hi. unfold f.
    destruct (lookup_lt_is_Some_2 ps i ltac:(lia)) as [p ->]. reflexivity. }
  rewrite E. split.
  - intros j.
    rewrite (for_range_field arrows set_arrows (fun i l => alter (f i) i l)) by reflexivity.
    rewrite alter_loop_lookup. unfold f.
    destruct (decide (0 <= j < length ps)) as [Hj|Hj].
    + destruct (lookup_lt_is_Some_2 ps j ltac:(lia)) as [p ->]. reflexivity.
    + rewrite (lookup_ge_None_2 ps j) by lia. reflexivity.
  - repeat split;
      apply (for_range_frame _ set_arrows (fun i (s : Node) => alter (f i) i (arrows s)));
      reflexivity.
Qed.

Variable setFromAxisAngle : Vector3 -> number -> Quaternion.

Lemma place_trolley_frame (r : Node) (ps : list Pose) :
  let r' := place_trolley setFromAxisAngle r ps in
  axes r' = axes r /\ arrows r' = arrows r /\ lineStrip r' = lineStrip r
  /\ children r' = children r /\ settings r' = settings r.
Proof.
  cbv zeta. unfold place_trolley.
  apply (for_range_invariant
           (fun r' : Node =>
              axes r' = axes r /\ arrows r' = arrows r /\ lineStrip r' = lineStrip r
              /\ children r' = children r /\ settings r' = settings r)).
  - repeat split.
  - intros i x _ H. destruct (ps !! i); [|exact H]. exact H.
Qed.

End PoolSync.

Section VisibleCount.

Context {A : Type}.

(** A list whose elements satisfy [P] exactly at the indices below [n]
    has [n] elements that satisfy [P]. *)
Lemma count_prefix (P : A -> bool) (l : list A) (n : nat) :
  n <= length l ->
  (forall i a, l !! i = Some a -> P a = bool_decide (i < n)) ->
  length (filter (fun a => P a = true) l) = n.
Proof.
  revert n. induction l as [|a l IH]; intros n Hn H.
  - cbn in Hn. replace n with 0 by lia. reflexivity.
  - pose proof (H 0 a eq_refl) as H0.
    destruct n as [|n].
    + rewrite filter_cons_False by (rewrite H0; cbn; discriminate).
      apply (IH 0); [lia|]. intros i b Hb. rewrite (H (S i) b Hb). reflexivity.
    + rewrite filter_cons_True by (rewrite H0; reflexivity).
      cbn [length]. f_equal. apply IH; [cbn in Hn; lia|].
      intros i b Hb. rewrite (H (S i) b Hb).
      apply bool_decide_ext. lia.
Qed.

End VisibleCount.

Section PoolStep.

Import PoseArrays.

Variable AXIS_LENGTH : number.
Variable stringToRgba : string -> ColorRGBA.
Variable rgbaGradient : ColorRGBA -> ColorRGBA -> number -> ColorRGBA.
Variable Marker : Type.
Variable createArrowMarker : number * number * number -> ColorRGBA -> Marker.
Variable normalizeFrameId : string -> string.
Variable setFromAxisAngle : Vector3 -> number -> Quaternion.

Local Abbreviation Node := (Renderable Marker).
Local Abbreviation state := (Scene * Renderable Marker)%type.
Local Abbreviation update :=
  (_updatePoseArrayRenderable AXIS_LENGTH stringToRgba rgbaGradient createArrowMarker
     normalizeFrameId setFromAxisAngle).

(** The pass over the trolley arrows, with the placing of the arrows. *)
Lemma trolley_pass_frame (st : state) (poseArray : PoseArray) (s : LayerSettingsPoseArray) :
  let st3 :=
    if trolley s then
      let '(sc, r) := _createTrolleyArrowsToMatchPoses createArrowMarker st poseArray in
      (sc, place_trolley setFromAxisAngle r (poses poseArray))
    else st in
  axes st3.2 = axes st.2 /\ arrows st3.2 = arrows st.2
  /\ lineStrip st3.2 = lineStrip st.2 /\ settings st3.2 = settings st.2
  /\ disposed st3.1 = disposed st.1 /\ next_id st.1 <= next_id st3.1
  /\ (trolley s = false -> st3 = st)
  /\ exists added, children st3.2 = children st.2 ++ added.
Proof.
  cbv zeta. destruct (trolley s).
  - pose proof (sync_trolley_frame Marker createArrowMarker st.1 st.2 poseArray) as H3.
    cbv zeta in H3. rewrite <- surjective_pairing in H3.
    destruct (_createTrolleyArrowsToMatchPoses createArrowMarker st poseArray) as [sc3 r3].
    cbn [fst snd] in H3 |- *. destruct H3 as (A3 & Ar3 & U3 & N3 & added & C3).
    pose proof (place_trolley_frame Marker setFromAxisAngle r3 (poses poseArray))
      as (A4 & Ar4 & L4 & C4 & S4).
    destruct U3 as [D3 S3 L3 _ _ _].
    repeat split; try congruence; try lia.
    exists added. congruence.
  - repeat split; try lia. exists []. rewrite app_nil_r. reflexivity.
Qed.

(** The second half of the update leaves alone the pools of the modes
    other than the one of the settings, disposes nothing and, with the
    attachment off, leaves the trolley arrows alone. *)
Lemma sync_pools_frame (st : state) (poseArray : PoseArray) (s : LayerSettingsPoseArray)
    (colorStart colorEnd : ColorRGBA) :
  let res :=
    sync_pools AXIS_LENGTH rgbaGradient createArrowMarker setFromAxisAngle
      st poseArray s colorStart colorEnd in
  disposed res.1 = disposed st.1
  /\ settings res.2 = settings st.2
  /\ next_id st.1 <= next_id res.1
  /\ (trolley s = false -> trolley_arrows res.2 = trolley_arrows st.2)
  /\ (type s <> axis -> axes res.2 = axes st.2)
  /\ (type s <> arrow -> arrows res.2 = arrows st.2)
  /\ (type s <> line -> lineStrip res.2 = lineStrip st.2)
  /\ exists added, children res.2 = children st.2 ++ added.
Proof.
  cbv zeta. unfold sync_pools.
  pose proof (trolley_pass_frame st poseArray s) as H. cbv zeta in H.
  set (st3 := if trolley s then _ else st) in *.
  destruct H as (A3 & Ar3 & L3 & S3 & D3 & N3 & T3 & added & C3).
  destruct st3 as [sc3 r3]. cbn [fst snd] in A3, Ar3, L3, S3, D3, N3, C3 |- *.
  destruct (type s).
  - pose proof (sync_axes_spec AXIS_LENGTH Marker sc3 r3 poseArray)
      as (_ & _ & Hn & Hc & Har & Ht & Hu).
    cbv zeta in Hn, Hc, Har, Ht, Hu.
    destruct (_createAxesToMatchPoses AXIS_LENGTH (sc3, r3) poseArray) as [sc4 r4].
    cbn [fst snd] in Hn, Hc, Har, Ht, Hu |- *.
    pose proof (place_axes_spec Marker r4 (poses poseArray))
      as (_ & Har5 & Ht5 & Hl5 & Hc5 & Hs5).
    destruct Hu as [Hd Hs Hl _ _ _].
    repeat split; try congruence; try lia.
    + intros Htr. rewrite Ht5, Ht, <- (T3 Htr). reflexivity.
    + eexists. rewrite Hc5, Hc, C3, <- app_assoc. reflexivity.
  - pose proof (sync_arrows_spec rgbaGradient Marker createArrowMarker sc3 r3 poseArray
                  colorStart colorEnd)
      as (_ & _ & Hn & Hc & Ha & Ht & Hu).
    cbv zeta in Hn, Hc, Ha, Ht, Hu.
    destruct (_createArrowsToMatchPoses rgbaGradient createArrowMarker (sc3, r3) poseArray
                colorStart colorEnd) as [sc4 r4].
    cbn [fst snd] in Hn, Hc, Ha, Ht, Hu |- *.
    pose proof (place_arrows_spec Marker r4 (poses poseArray))
      as (_ & Ha5 & Ht5 & Hl5 & Hc5 & Hs5).
    destruct Hu as [Hd Hs Hl _ _ _].
    repeat split; try congruence; try lia.
    + intros Htr. rewrite Ht5, Ht, <- (T3 Htr). reflexivity.
    + eexists. rewrite Hc5, Hc, C3, <- app_assoc. reflexivity.
  - cbn. repeat split; try congruence; try lia.
    + intros Htr. rewrite <- (T3 Htr). reflexivity.
    + exists added. exact C3.
Qed.

(** The second half of the update on the pool of the mode, in axis and
    arrow mode. *)
Lemma sync_pools_own (st : state) (poseArray : PoseArray) (s : LayerSettingsPoseArray)
    (colorStart colorEnd : ColorRGBA) :
  type s <> line ->
  let res :=
    sync_pools AXIS_LENGTH rgbaGradient createArrowMarker setFromAxisAngle
      st poseArray s colorStart colorEnd in
  let old := pool_view (type s) st.2 in
  let new := pool_view (type s) res.2 in
  let count := length (poses poseArray) in
  length new = max (length old) count
  /\ (forall i, i < length new ->
       exists id,
         new !! i = Some (id, bool_decide (i < count))
         /\ (i < length old -> fst <$> old !! i = Some id)
         /\ (length old <= i -> next_id st.1 <= id)).
Proof.
  intros Hty. cbv zeta. unfold sync_pools.
  pose proof (trolley_pass_frame st poseArray s) as H. cbv zeta in H.
  set (st3 := if trolley s then _ else st) in *.
  destruct H as (A3 & Ar3 & _ & _ & _ & N3 & _ & _).
  destruct st as [sc r].
  destruct st3 as [sc3 r3]. cbn [fst snd] in A3, Ar3, N3 |- *.
  destruct (type s) eqn:Ty; [| |contradiction].
  - (* axis *)
    pose proof (sync_axes_spec AXIS_LENGTH Marker sc3 r3 poseArray)
      as (Hl & Hlen & Hn & _).
    cbv zeta in Hl, Hlen, Hn.
    destruct (_createAxesToMatchPoses AXIS_LENGTH (sc3, r3) poseArray) as [sc4 r4].
    cbn [fst snd] in Hl, Hlen, Hn |- *.
    pose proof (place_axes_spec Marker r4 (poses poseArray)) as (Hp & _).
    unfold pool_view.
    assert (Hfin : length (axes (place_axes r4 (poses poseArray))) = length (axes r4)).
    { apply Nat.le_antisymm.
      - destruct (le_lt_dec (length (axes (place_axes r4 (poses poseArray))))
                    (length (axes r4))) as [|Hlt]; [assumption|].
        exfalso. apply lookup_lt_is_Some_2 in Hlt as [a Ha].
        rewrite Hp in Ha. rewrite (lookup_ge_None_2 (axes r4)) in Ha by lia.
        destruct (poses poseArray !! _); discriminate.
      - destruct (le_lt_dec (length (axes r4))
                    (length (axes (place_axes r4 (poses poseArray))))) as [|Hlt];
          [assumption|].
        exfalso. apply lookup_lt_is_Some_2 in Hlt as [a Ha].
        pose proof (Hp (length (axes (place_axes r4 (poses poseArray))))) as Hq.
        rewrite (lookup_ge_None_2 (axes (place_axes _ _))) in Hq by lia.
        rewrite Ha in Hq. destruct (poses poseArray !! _); discriminate. }
    split.
    + rewrite !length_map, Hfin, Hlen, A3. reflexivity.
    + intros i Hi. rewrite length_map, Hfin, Hlen in Hi.
      rewrite !length_map. rewrite list_lookup_fmap, Hp, Hl.
      destruct (decide (i < length (axes r3))) as [Hold|Hnew].
      * destruct (lookup_lt_is_Some_2 (axes r3) i Hold) as [a Ha].
        exists (axis_id a). split; [|split].
        -- rewrite Ha. destruct (decide (i < length (poses poseArray))) as [Hc|Hc].
           ++ destruct (lookup_lt_is_Some_2 (poses poseArray) i Hc) as [p ->].
              cbn. rewrite bool_decide_true by lia. reflexivity.
           ++ rewrite (lookup_ge_None_2 (poses poseArray)) by lia.
              cbn. rewrite bool_decide_false by lia. reflexivity.
        -- intros _. rewrite list_lookup_fmap, <- A3, Ha. reflexivity.
        -- intros Hge. rewrite A3 in Hold. lia.
      * rewrite decide_True by lia.
        destruct (lookup_lt_is_Some_2 (poses poseArray) i ltac:(lia)) as [p ->].
        cbn. eexists. split; [|split].
        -- rewrite bool_decide_true by lia. reflexivity.
        -- intros Hlt. rewrite A3 in Hnew. lia.
        -- intros _. lia.
  - (* arrow *)
    pose proof (sync_arrows_spec rgbaGradient Marker createArrowMarker sc3 r3 poseArray
                  colorStart colorEnd)
      as (Hl & Hlen & Hn & _).
    cbv zeta in Hl, Hlen, Hn.
    destruct (_createArrowsToMatchPoses rgbaGradient createArrowMarker (sc3, r3) poseArray
                colorStart colorEnd) as [sc4 r4].
    cbn [fst snd] in Hl, Hlen, Hn |- *.
    pose proof (place_arrows_spec Marker r4 (poses poseArray)) as (Hp & _).
    unfold pool_view.
    assert (Hfin : length (arrows (place_arrows r4 (poses poseArray))) = length (arrows r4)).
    { apply Nat.le_antisymm.
      - destruct (le_lt_dec (length (arrows (place_arrows r4 (poses poseArray))))
                    (length (arrows r4))) as [|Hlt]; [assumption|].
        exfalso. apply lookup_lt_is_Some_2 in Hlt as [a Ha].
        rewrite Hp in Ha. rewrite (lookup_ge_None_2 (arrows r4)) in Ha by lia.
        destruct (poses poseArray !! _); discriminate.
      - destruct (le_lt_dec (length (arrows r4))
                    (length (arrows (place_arrows r4 (poses poseArray))))) as [|Hlt];
          [assumption|].
        exfalso. apply lookup_lt_is_Some_2 in Hlt as [a Ha].
        pose proof (Hp (length (arrows (place_arrows r4 (poses poseArray))))) as Hq.
        rewrite (lookup_ge_None_2 (arrows (place_arrows _ _))) in Hq by lia.
        rewrite Ha in Hq. destruct (poses poseArray !! _); discriminate. }
    split.
    + rewrite !length_map, Hfin, Hlen, Ar3. reflexivity.
    + intros i Hi. rewrite length_map, Hfin, Hlen in Hi.
      rewrite !length_map. rewrite list_lookup_fmap, Hp, Hl.
      destruct (decide (i < length (arrows r3))) as [Hold|Hnew].
      * destruct (lookup_lt_is_Some_2 (arrows r3) i Hold) as [a Ha].
        exists (arrow_id a). split; [|split].
        -- rewrite Ha. destruct (decide (i < length (poses poseArray))) as [Hc|Hc].
           ++ destruct (lookup_lt_is_Some_2 (poses poseArray) i Hc) as [p ->].
              cbn. rewrite bool_decide_true by lia. reflexivity.
           ++ rewrite (lookup_ge_None_2 (poses poseArray)) by lia.
              cbn. rewrite bool_decide_false by lia. reflexivity.
        -- intros _. rewrite list_lookup_fmap, <- Ar3, Ha. reflexivity.
        -- intros Hge. rewrite Ar3 in Hold. lia.
      * rewrite decide_True by lia.
        destruct (lookup_lt_is_Some_2 (poses poseArray) i ltac:(lia)) as [p ->].
        cbn. eexists. split; [|split].
        -- rewrite bool_decide_true by lia. reflexivity.
        -- intros Hlt. rewrite Ar3 in Hnew. lia.
        -- intros _. lia.
Qed.

(** What the first half of an update does to the pools: nothing when the
    settings did not change, the rebuild otherwise. *)
Lemma rebuild_if_changed (sc : Scene) (r : Node) (poseArray : PoseArray) (changed : bool)
    (colorStart colorEnd : ColorRGBA) :
  type (settings r) <> line ->
  let st2 :=
    if changed then rebuild rgbaGradient (sc, r) poseArray colorStart colorEnd else (sc, r) in
  pool_view (type (settings r)) st2.2 = pool_view (type (settings r)) r
  /\ settings st2.2 = settings r
  /\ next_id st2.1 = next_id sc
  /\ exists ids,
       disposed st2.1 = rev ids ++ disposed sc
       /\ ids ⊆ trolley_ids r ++ other_pool_ids (type (settings r)) r.
Proof.
  clear AXIS_LENGTH stringToRgba createArrowMarker normalizeFrameId setFromAxisAngle.
  intros Hty. cbv zeta. destruct changed.
  - pose proof (rebuild_pools rgbaGradient Marker (sc, r) poseArray colorStart colorEnd)
      as H. cbv zeta in H. cbn [fst snd] in H.
    destruct (H Hty) as ((Hd & Hn & _ & Hst) & Ha & Har & _).
    split; [|split; [|split]].
    + unfold pool_view. destruct (type (settings r)); [rewrite Ha | rewrite Har | ];
        reflexivity.
    + exact Hst.
    + exact Hn.
    + eexists. split; [exact Hd|].
      intros x Hx. rewrite elem_of_app in Hx |- *. destruct Hx as [Hx|Hx]; [|tauto].
      destruct (trolley (settings r)); [tauto | apply elem_of_nil in Hx; contradiction].
  - cbn. repeat split.
    exists []. split; [reflexivity|].
    intros x Hx. apply elem_of_nil in Hx. contradiction.
Qed.

(** One update in axis or arrow mode, from any state of the renderable:
    the pool of the mode grows to the larger of its length and the pose
    count; every index holds the object it held before, or a newly
    allocated one past the old length; the child at index [i] is visible
    exactly when [i] is below the pose count; and [dispose()] is called
    only on objects taken from the trolley pool, the pool of the other
    mode or the line. *)
Lemma pool_sync_step (st : state) (poseArray : PoseArray) (t : Z)
    (s : LayerSettingsPoseArray) :
  type s <> line ->
  let res := update st poseArray t s in
  let old := pool_view (type s) st.2 in
  let new := pool_view (type s) res.2 in
  let count := length (poses poseArray) in
  length new = max (length old) count
  /\ (forall i, i < length new ->
       exists id,
         new !! i = Some (id, bool_decide (i < count))
         /\ (i < length old -> fst <$> old !! i = Some id)
         /\ (length old <= i -> next_id st.1 <= id))
  /\ settings res.2 = s
  /\ exists ids,
       disposed res.1 = rev ids ++ disposed st.1
       /\ ids ⊆ trolley_ids st.2 ++ other_pool_ids (type s) st.2.
Proof.
  intros Hty. destruct st as [sc r]. cbv zeta. cbn [fst snd].
  unfold _updatePoseArrayRenderable.
  set (r0 := set_message normalizeFrameId r poseArray t).
  set (r1 := set_settings r0 s).
  set (changed := settingsChanged r0 s (settings r0)).
  set (colorStart := stringToRgba (gradient s).1).
  set (colorEnd := stringToRgba (gradient s).2).
  pose proof (rebuild_if_changed sc r1 poseArray changed colorStart colorEnd Hty) as H.
  cbv zeta in H.
  set (st2 := if changed then rebuild _ _ _ _ _ else (sc, r1)) in *.
  destruct H as (V2 & S2 & N2 & ids & D2 & I2).
  change (settings r1) with s in V2, S2, I2.
  change (pool_view (type s) r1) with (pool_view (type s) r) in V2.
  change (trolley_ids r1) with (trolley_ids r) in I2.
  change (other_pool_ids (type s) r1) with (other_pool_ids (type s) r) in I2.
  pose proof (sync_pools_own st2 poseArray s colorStart colorEnd Hty) as (Hlen & Hidx).
  pose proof (sync_pools_frame st2 poseArray s colorStart colorEnd) as (Hd & Hs & _).
  cbv zeta in Hlen, Hidx, Hd, Hs.
  rewrite V2 in Hlen, Hidx. rewrite N2 in Hidx.
  split; [exact Hlen|]. split; [exact Hidx|]. split; [congruence|].
  exists ids. split; [congruence | exact I2].
Qed.

(** The children of the pool of the mode are placed at the poses of the
    message, index by index. *)
Lemma sync_pools_placed (st : state) (poseArray : PoseArray) (s : LayerSettingsPoseArray)
    (colorStart colorEnd : ColorRGBA) (i : nat) (p : Pose) :
  type s <> line ->
  poses poseArray !! i = Some p ->
  pool_pose (type s)
    (sync_pools AXIS_LENGTH rgbaGradient createArrowMarker setFromAxisAngle
       st poseArray s colorStart colorEnd).2 i
  = Some (position p, orientation p).
Proof.
  intros Hty Hp. unfold sync_pools.
  set (st3 := if trolley s then _ else st).
  destruct st3 as [sc3 r3].
  pose proof (lookup_lt_Some _ _ _ Hp) as Hi.
  destruct (type s) eqn:Ty; [| |contradiction].
  - pose proof (sync_axes_spec AXIS_LENGTH Marker sc3 r3 poseArray) as (Hl & _).
    cbv zeta in Hl.
    destruct (_createAxesToMatchPoses AXIS_LENGTH (sc3, r3) poseArray) as [sc4 r4].
    cbn [fst snd] in Hl |- *.
    pose proof (place_axes_spec Marker r4 (poses poseArray)) as (Hq & _).
    unfold pool_pose. rewrite Hq, Hp, Hl.
    destruct (decide (i < length (axes r3))) as [Hold|Hnew].
    + destruct (lookup_lt_is_Some_2 (axes r3) i Hold) as [a ->].
      rewrite decide_True by exact Hi. reflexivity.
    + rewrite decide_True by exact Hi. reflexivity.
  - pose proof (sync_arrows_spec rgbaGradient Marker createArrowMarker sc3 r3 poseArray
                  colorStart colorEnd) as (Hl & _).
    cbv zeta in Hl.
    destruct (_createArrowsToMatchPoses rgbaGradient createArrowMarker (sc3, r3) poseArray
                colorStart colorEnd) as [sc4 r4].
    cbn [fst snd] in Hl |- *.
    pose proof (place_arrows_spec Marker r4 (poses poseArray)) as (Hq & _).
    unfold pool_pose. rewrite Hq, Hp, Hl.
    destruct (decide (i < length (arrows r3))) as [Hold|Hnew].
    + destruct (lookup_lt_is_Some_2 (arrows r3) i Hold) as [a ->].
      rewrite decide_True by exact Hi. reflexivity.
    + rewrite decide_True by exact Hi. reflexivity.
Qed.

Lemma update_placed (st : state) (poseArray : PoseArray) (t : Z)
    (s : LayerSettingsPoseArray) (i : nat) (p : Pose) :
  type s <> line ->
  poses poseArray !! i = Some p ->
  pool_pose (type s) (update st poseArray t s).2 i = Some (position p, orientation p).
Proof.
  intros Hty Hp. destruct st as [sc r]. unfold _updatePoseArrayRenderable.
  apply sync_pools_placed; assumption.
Qed.

(** An update whose settings compare equal to the ones in force, on a
    renderable that has axes or arrows, does not rebuild: it disposes
    nothing and detaches nothing. *)
Lemma update_same_settings (st : state) (poseArray : PoseArray) (t : Z)
    (s : LayerSettingsPoseArray) :
  fieldsChanged s (settings st.2) = false ->
  0 < length (arrows st.2) \/ 0 < length (axes st.2) ->
  let res := update st poseArray t s in
  disposed res.1 = disposed st.1
  /\ exists added, children res.2 = children st.2 ++ added.
Proof.
  intros Hf Hne. destruct st as [sc r]. cbv zeta. cbn [fst snd] in Hf, Hne |- *.
  unfold _updatePoseArrayRenderable.
  set (r0 := set_message normalizeFrameId r poseArray t).
  assert (Hc : settingsChanged r0 s (settings r0) = false).
  { unfold settingsChanged. change (settings r0) with (settings r). rewrite Hf.
    change (arrows r0) with (arrows r). change (axes r0) with (axes r).
    destruct Hne as [H|H].
    - replace (length (arrows r) =? 0) with false
        by (symmetry; apply Nat.eqb_neq; lia). reflexivity.
    - replace (length (axes r) =? 0) with false
        by (symmetry; apply Nat.eqb_neq; lia). rewrite andb_false_r. reflexivity. }
  rewrite Hc.
  pose proof (sync_pools_frame (sc, set_settings r0 s) poseArray s
                (stringToRgba (gradient s).1) (stringToRgba (gradient s).2))
    as (Hd & _ & _ & _ & _ & _ & _ & Hch).
  split; [exact Hd | exact Hch].
Qed.

(** After one update in axis or arrow mode the number of visible
    children of the pool is the pose count. *)
Lemma pool_visible_count (st : state) (poseArray : PoseArray) (t : Z)
    (s : LayerSettingsPoseArray) :
  type s <> line ->
  length (filter (fun c => c.2 = true) (pool_view (type s) (update st poseArray t s).2))
  = length (poses poseArray).
Proof.
  intros Hty.
  pose proof (pool_sync_step st poseArray t s Hty) as (Hlen & Hidx & _). cbv zeta in *.
  apply count_prefix; [lia|].
  intros i c Hc.
  destruct (Hidx i (lookup_lt_Some _ _ _ Hc)) as (id & Hn & _).
  rewrite Hn in Hc. injection Hc as <-. reflexivity.
Qed.

(** C2.  Two successive pose-array updates of one renderable in axis or
    arrow mode, of N and then of M poses (the second with the settings
    the renderable holds, as a message update does): after each update
    the pool of the mode has as many visible children as the message has
    poses; every index below min(N, M) holds the same object after both
    updates, visible, placed at the pose of that index of the latest
    message; when the array shrinks, the children at the indices from M
    up to N keep their place in the pool and are invisible; the pool
    never shrinks.  The second update calls [dispose()] only on objects
    of the trolley pool, of the pool of the other mode or on the line,
    never on a child of the pool of the mode; and when the first message
    had a pose and the settings compare equal to themselves (no NaN in
    them), the second update disposes nothing and detaches nothing. *)
Theorem pool_sync_sequence (st : state) (first second : PoseArray) (t1 t2 : Z)
    (s : LayerSettingsPoseArray) :
  type s <> line ->
  let st1 := update st first t1 s in
  let st2 := update st1 second t2 (settings st1.2) in
  let N := length (poses first) in
  let M := length (poses second) in
  let v1 := pool_view (type s) st1.2 in
  let v2 := pool_view (type s) st2.2 in
  length (filter (fun c => c.2 = true) v1) = N
  /\ length (filter (fun c => c.2 = true) v2) = M
  /\ (forall i, i < min N M ->
       exists id, v1 !! i = Some (id, true) /\ v2 !! i = Some (id, true))
  /\ (forall i, M <= i < N ->
       exists id, v1 !! i = Some (id, true) /\ v2 !! i = Some (id, false))
  /\ length v2 = max (length v1) M
  /\ (forall i, i < length v1 -> fst <$> v2 !! i = fst <$> v1 !! i)
  /\ (forall i p, poses second !! i = Some p ->
       pool_pose (type s) st2.2 i = Some (position p, orientation p))
  /\ (exists ids,
       disposed st2.1 = rev ids ++ disposed st1.1
       /\ ids ⊆ trolley_ids st1.2 ++ other_pool_ids (type s) st1.2)
  /\ (0 < N -> fieldsChanged s s = false ->
      disposed st2.1 = disposed st1.1
      /\ exists added, children st2.2 = children st1.2 ++ added).
Proof.
  intros Hty. cbv zeta.
  pose proof (pool_sync_step st first t1 s Hty) as (Hlen1 & Hidx1 & Hs1 & _).
  cbv zeta in Hlen1, Hidx1, Hs1.
  set (st1 := update st first t1 s) in *.
  rewrite Hs1.
  pose proof (pool_sync_step st1 second t2 s Hty) as (Hlen2 & Hidx2 & _ & Hd2).
  cbv zeta in Hlen2, Hidx2, Hd2.
  pose proof (update_same_settings st1 second t2 s) as Hsame. cbv zeta in Hsame.
  pose proof (fun i p => update_placed st1 second t2 s i p Hty) as Hplaced.
  set (st2 := update st1 second t2 s) in *.
  assert (Hboth : forall i, i < length (poses first) ->
            exists id, pool_view (type s) st1.2 !! i = Some (id, true)
                       /\ pool_view (type s) st2.2 !! i
                          = Some (id, bool_decide (i < length (poses second)))).
  { intros i Hi.
    destruct (Hidx1 i ltac:(lia)) as (id & Hv1 & _).
    rewrite bool_decide_true in Hv1 by exact Hi.
    destruct (Hidx2 i ltac:(lia)) as (id2 & Hv2 & Hold & _).
    assert (Hin : i < length (pool_view (type s) st1.2)) by lia.
    specialize (Hold Hin). rewrite Hv1 in Hold. injection Hold as <-.
    exists id. split; assumption. }
  split; [apply pool_visible_count; exact Hty|].
  split; [apply pool_visible_count; exact Hty|].
  split; [|split; [|split; [|split; [|split; [|split]]]]].
  - intros i Hi. destruct (Hboth i ltac:(lia)) as (id & Hv1 & Hv2).
    rewrite bool_decide_true in Hv2 by lia. exists id. split; assumption.
  - intros i Hi. destruct (Hboth i ltac:(lia)) as (id & Hv1 & Hv2).
    rewrite bool_decide_false in Hv2 by lia. exists id. split; assumption.
  - exact Hlen2.
  - intros i Hi. destruct (Hidx2 i ltac:(lia)) as (id & Hv2 & Hold & _).
    rewrite Hv2, (Hold Hi). reflexivity.
  - exact Hplaced.
  - exact Hd2.
  - intros HN Hf. apply Hsame.
    + rewrite Hs1. exact Hf.
    + unfold pool_view in Hlen1.
      destruct (type s); [right | left | contradiction];
        rewrite length_map in Hlen1; lia.
Qed.

(** ** A settings change that switches the mode or the attachment *)

Lemma settingsChanged_switch (r : Node) (new prev : LayerSettingsPoseArray) :
  type new <> type prev \/ trolley new <> trolley prev ->
  settingsChanged r new prev = true.
Proof.
  clear. intros H. unfold settingsChanged, fieldsChanged.
  destruct H as [H|H].
  - assert (E : DisplayType_eqb (type new) (type prev) = false)
      by (destruct (type new), (type prev); try reflexivity; contradiction).
    rewrite E. cbn. rewrite orb_true_r. reflexivity.
  - assert (E : Bool.eqb (trolley new) (trolley prev) = false)
      by (destruct (trolley new), (trolley prev); try reflexivity; contradiction).
    rewrite E. reflexivity.
Qed.

(** On a settings change that switches the display mode or toggles the
    trolley attachment, the update disposes, in this order, the trolley
    arrows when the attachment is on in the new settings, and the pools
    the new mode does not use; these pools are empty afterwards.  With
    the attachment off in the new settings the trolley arrows are not
    among the disposed objects: the pool is left as it was. *)
Lemma settings_switch (st : state) (poseArray : PoseArray) (t : Z)
    (s : LayerSettingsPoseArray) :
  type s <> type (settings st.2) \/ trolley s <> trolley (settings st.2) ->
  let res := update st poseArray t s in
  disposed res.1
  = rev ((if trolley s then trolley_ids st.2 else []) ++ other_pool_ids (type s) st.2)
      ++ disposed st.1
  /\ match type s with
     | axis => arrows res.2 = [] /\ lineStrip res.2 = None
     | arrow => axes res.2 = [] /\ lineStrip res.2 = None
     | line => arrows res.2 = [] /\ axes res.2 = []
     end
  /\ (trolley s = false -> trolley_arrows res.2 = trolley_arrows st.2).
Proof.
  intros Hsw. destruct st as [sc r]. cbv zeta. cbn [fst snd] in Hsw |- *.
  unfold _updatePoseArrayRenderable.
  set (r0 := set_message normalizeFrameId r poseArray t).
  set (r1 := set_settings r0 s).
  rewrite (settingsChanged_switch r0 s (settings r0)) by exact Hsw.
  set (colorStart := stringToRgba (gradient s).1).
  set (colorEnd := stringToRgba (gradient s).2).
  pose proof (sync_pools_frame (rebuild rgbaGradient (sc, r1) poseArray colorStart colorEnd)
                poseArray s colorStart colorEnd) as (Hd & _ & _ & Ht & Ha & Har & Hl & _).
  cbv zeta in Hd, Ht, Ha, Har, Hl.
  destruct (type s) eqn:Ty.
  - pose proof (rebuild_pools rgbaGradient Marker (sc, r1) poseArray colorStart colorEnd)
      as H. cbv zeta in H. cbn [fst snd] in H.
    change (settings r1) with s in H. rewrite Ty in H.
    destruct (H ltac:(discriminate)) as ((Rd & _) & _ & Rar & Rt & Rl).
    split; [rewrite Hd; exact Rd|]. split.
    + rewrite Har, Hl by discriminate. split; assumption.
    + intros Htr. rewrite (Ht Htr), Rt, Htr. reflexivity.
  - pose proof (rebuild_pools rgbaGradient Marker (sc, r1) poseArray colorStart colorEnd)
      as H. cbv zeta in H. cbn [fst snd] in H.
    change (settings r1) with s in H. rewrite Ty in H.
    destruct (H ltac:(discriminate)) as ((Rd & _) & Ra & _ & Rt & Rl).
    split; [rewrite Hd; exact Rd|]. split.
    + rewrite Ha, Hl by discriminate. split; assumption.
    + intros Htr. rewrite (Ht Htr), Rt, Htr. reflexivity.
  - pose proof (rebuild_line rgbaGradient Marker (sc, r1) poseArray colorStart colorEnd)
      as H. cbv zeta in H. cbn [fst snd] in H.
    change (settings r1) with s in H.
    destruct (H Ty) as (Rd & _ & Rar & Ra & Rt & _).
    split; [rewrite Hd; exact Rd|]. split.
    + rewrite Ha, Har by discriminate. split; assumption.
    + intros Htr. rewrite (Ht Htr), Rt, Htr. reflexivity.
Qed.

End PoolStep.

(* ===================================================================== *)
(** * Pose arrays: runs on sample inputs                                  *)
(* ===================================================================== *)

Section PoseRuns.

Import PoseArrays PoseSamples.

(** The spec's scenario in axis mode: 3 poses, then 1, then 5. *)
Example three_one_five :
  let s := settings_of axis false in
  let st1 := run (scene0, node0 s) (pose_array 3) 0 s in
  let st2 := run st1 (pose_array 1) 1 s in
  let st3 := run st2 (pose_array 5) 2 s in
  pool_view axis st1.2 = [(0, true); (1, true); (2, true)]
  /\ pool_view axis st2.2 = [(0, true); (1, false); (2, false)]
  /\ pool_view axis st3.2 = [(0, true); (1, true); (2, true); (3, true); (4, true)]
  /\ disposed st3.1 = []
  /\ map axis_position (axes st3.2) = map position (poses (pose_array 5)).
Proof. vm_compute. repeat split. Qed.

Lemma pool_sync_sequence_witness :
  let s := settings_of arrow false in
  let st1 := run (scene0, node0 s) (pose_array 3) 0 s in
  let st2 := run st1 (pose_array 1) 1 (settings st1.2) in
  type s <> line
  /\ length (filter (fun c => c.2 = true) (pool_view (type s) st1.2)) = 3
  /\ length (filter (fun c => c.2 = true) (pool_view (type s) st2.2)) = 1
  /\ pool_view (type s) st2.2 = [(0, true); (1, false); (2, false)].
Proof.
  cbv zeta.
  assert (Hty : type (settings_of arrow false) <> line) by discriminate.
  pose proof (pool_sync_sequence Js.one parse_color linear_gradient marker make_marker
                Samples.same_frame upright
                (scene0, node0 (settings_of arrow false)) (pose_array 3) (pose_array 1)
                0 1 (settings_of arrow false) Hty) as (H1 & H2 & _).
  split; [exact Hty|]. split; [exact H1|]. split; [exact H2|].
  vm_compute. reflexivity.
Defined.

(** C5.  The trolley attachment is on and two poses are shown: two
    trolley arrows (objects 0 and 1) and two axes (objects 2 and 3).
    The attachment is then switched off.  After the update the trolley
    pool still holds the objects 0 and 1, visible and attached to the
    node, and nothing has been disposed. *)
Theorem trolley_pool_survives_switch_off :
  let on := settings_of axis true in
  let off := settings_of axis false in
  let st1 := run (scene0, node0 on) (pose_array 2) 0 on in
  let st2 := run st1 (pose_array 2) 1 off in
  trolley_ids st1.2 = [0; 1]
  /\ trolley (settings st2.2) = false
  /\ trolley_ids st2.2 = [0; 1]
  /\ map arrow_visible (trolley_arrows st2.2) = [true; true]
  /\ children st2.2 = [0; 1; 2; 3]
  /\ disposed st2.1 = [].
Proof. vm_compute. repeat split. Qed.

(** The sibling path: switching the mode from axis to arrow releases the
    axes (objects 2 and 3), and with the attachment on the trolley
    arrows are released and built anew. *)
Example mode_switch_releases_axes :
  let on := settings_of axis true in
  let st1 := run (scene0, node0 on) (pose_array 2) 0 on in
  let st2 := run st1 (pose_array 2) 1 (settings_of arrow true) in
  axes_ids st2.2 = []
  /\ disposed st2.1 = [3; 2; 1; 0]
  /\ trolley_ids st2.2 = [4; 5]
  /\ arrows_ids st2.2 = [6; 7]
  /\ children st2.2 = [4; 5; 6; 7].
Proof. vm_compute. repeat split. Qed.

End PoseRuns.

(* ===================================================================== *)
(** * The vendor robot-state-path adapter                                 *)
(* ===================================================================== *)

Section Negation.

Local Open Scope Z_scope.

(** Multiplying a binary64 value by -1 changes its sign and nothing
    else. *)
Lemma mul_minus_one (v : number) :
  valid_binary 53 1024 v = true -> Js.mul Js.minus_one v = SFopp v.
Proof.
  destruct v as [s|s| |s m e]; try reflexivity.
  intros Hv. cbn in Hv. apply andb_true_iff in Hv as [Hc He].
  apply Z.eqb_eq in Hc. apply Z.leb_le in He.
  unfold Js.mul, Js.minus_one, Js.prec, Js.emax, SFmul.
  assert (Hm : (4503599627370496 * m)%positive = Pos.iter xO m 52) by reflexivity.
  rewrite Hm.
  assert (Hs : shr_fexp 53 1024 (Z.pos (Pos.iter xO m 52)) (-52 + e) loc_Exact
               = ({| shr_m := Z.pos m; shr_r := false; shr_s := false |}, e)).
  { unfold shr_fexp, Zdigits2. rewrite digits2_pos_iter_xO.
    replace (Z.pos (digits2_pos m + 52) + (-52 + e)) with (Z.pos (digits2_pos m) + e) by lia.
    rewrite Hc. replace (e - (-52 + e)) with 52 by lia.
    unfold shr. f_equal. lia. }
  unfold binary_round_aux. rewrite Hs.
  cbn [shr_m loc_of_shr_record round_nearest_even].
  assert (Hs2 : shr_fexp 53 1024 (Z.pos m) e loc_Exact
                = ({| shr_m := Z.pos m; shr_r := false; shr_s := false |}, e)).
  { unfold shr_fexp, Zdigits2. rewrite Hc. rewrite Z.sub_diag. reflexivity. }
  rewrite Hs2. cbn [shr_m].
  replace (e <=? 1024 - 53) with true by (symmetry; apply Z.leb_le; lia).
  reflexivity.
Qed.

End Negation.

Section RobotStatePath.

Import PoseArrays.

Variable setFromEuler : Euler -> Quaternion.

(** C10.  The adapter maps every element of the path in order.  A
    present element becomes the pose whose position is (pose_x, pose_y,
    velocity_x), so that z is the linear velocity of the element, and
    whose orientation is the quaternion of the Euler angles
    (-1 * velocity_theta, 0, pose_theta); each of the five numeric
    fields counts as 0 when it is absent ([pose_theta] through the
    default of the Euler constructor). *)
Theorem robot_state_pose (p : MirRobotState) (m : MirRobotStatePath) :
  normalizeMirPose setFromEuler (Some p)
  = {| position := {| v_x := Js.nullish (pose_x p) Js.zero;
                      v_y := Js.nullish (pose_y p) Js.zero;
                      v_z := Js.nullish (velocity_x p) Js.zero |};
       orientation :=
         setFromEuler
           {| e_x := Js.mul Js.minus_one (Js.nullish (velocity_theta p) Js.zero);
              e_y := Js.zero;
              e_z := Js.nullish (pose_theta p) Js.zero |} |}
  /\ poses (normalizeMirPoseArray setFromEuler (Some m))
     = map (normalizeMirPose setFromEuler) (Js.nullish (path m) [])
  /\ (forall v, velocity_theta p = Some v -> valid_binary 53 1024 v = true ->
      Js.mul Js.minus_one (Js.nullish (velocity_theta p) Js.zero) = SFopp v).
Proof.
  split; [reflexivity|]. split.
  - unfold normalizeMirPoseArray. cbn. destruct (path m); reflexivity.
  - intros v -> Hv. cbn. apply mul_minus_one. exact Hv.
Qed.

(** An element with no field at all, and one with every field. *)
Example mir_element_without_fields :
  normalizeMirPose PoseSamples.flat
    (Some {| pose_x := None; pose_y := None; pose_theta := None;
             velocity_x := None; velocity_theta := None; hook_angle := None |})
  = {| position := {| v_x := Js.zero; v_y := Js.zero; v_z := Js.zero |};
       orientation := {| q_x := S754_zero true; q_y := Js.zero; q_z := Js.zero;
                         q_w := Js.one |} |}.
Proof. reflexivity. Qed.

Example mir_element_with_fields :
  normalizeMirPose PoseSamples.flat
    (Some {| pose_x := Some (Js.of_Z 1); pose_y := Some (Js.of_Z 2);
             pose_theta := Some (Js.of_Z 3); velocity_x := Some (Js.of_Z 4);
             velocity_theta := Some (Js.of_Z 5); hook_angle := None |})
  = {| position := {| v_x := Js.of_Z 1; v_y := Js.of_Z 2; v_z := Js.of_Z 4 |};
       orientation := {| q_x := Js.of_Z (-5); q_y := Js.zero; q_z := Js.of_Z 3;
                         q_w := Js.one |} |}.
Proof. vm_compute. reflexivity. Qed.

End RobotStatePath.

(* ===================================================================== *)
(** * The gradient along a pose array                                     *)
(* ===================================================================== *)

Section PushLoop.

Context {A : Type}.

(** [for (i = 0; i < n; i++) l.push(f(i))] on an empty array. *)
Lemma push_loop (f : nat -> A) (n : nat) :
  Js.for_range 0 n (fun i l => l ++ [f i]) [] = map f (seq 0 n).
Proof.
  induction n as [|n IH]; [reflexivity|].
  rewrite for_range_S by lia. rewrite IH, seq_S, map_app. reflexivity.
Qed.

End PushLoop.

Section Gradient.

Import PoseArrays.

Variable rgbaGradient : ColorRGBA -> ColorRGBA -> number -> ColorRGBA.

(** The colours of the line: one per pose, in order. *)
Lemma line_colors (message : PoseArray) (lineWidth : number)
    (colorStart colorEnd : ColorRGBA) :
  ls_colors (createLineStripMarker rgbaGradient message lineWidth colorStart colorEnd)
  = map (fun i => rgbaGradient colorStart colorEnd (gradient_t i (length (poses message))))
      (seq 0 (length (poses message))).
Proof.
  unfold createLineStripMarker. cbn [ls_colors].
  apply (push_loop
           (fun i => rgbaGradient colorStart colorEnd
                       (gradient_t i (length (poses message))))).
Qed.


End Gradient.

Section GradientSamples.

Import PoseArrays PoseSamples.



End GradientSamples.

(* ===================================================================== *)
(** * Further properties of the extensions and of the writer              *)
(* ===================================================================== *)

Section TextureCells.

Import Grid Palettes.

Local Open Scope Z_scope.

Lemma traffic_pixel_bytes (value : Z) :
  let p := traffic_pixel value in
  Js.clamp8 (px_red p) = px_red p /\ Js.clamp8 (px_green p) = px_green p
  /\ Js.clamp8 (px_blue p) = px_blue p /\ Js.clamp8 (px_alpha p) = px_alpha p.
Proof.
  unfold traffic_pixel.
  repeat match goal with |- context [(?a =? ?b)] => destruct (a =? b) end;
    vm_compute; repeat split; reflexivity.
Qed.

Lemma default_pixel_bytes (value : Z) :
  let p := default_pixel value in
  Js.clamp8 (px_red p) = px_red p /\ Js.clamp8 (px_green p) = px_green p
  /\ Js.clamp8 (px_blue p) = px_blue p /\ Js.clamp8 (px_alpha p) = px_alpha p.
Proof.
  unfold default_pixel.
  repeat match goal with |- context [(?a =? ?b)] => destruct (a =? b) end;
    vm_compute; repeat split; reflexivity.
Qed.

Lemma paint_cell_bytes (pixel : Z -> rgba) (size : nat) (cells buf : list Z) (i : nat) :
  (forall v, let p := pixel v in
     Js.clamp8 (px_red p) = px_red p /\ Js.clamp8 (px_green p) = px_green p
     /\ Js.clamp8 (px_blue p) = px_blue p /\ Js.clamp8 (px_alpha p) = px_alpha p) ->
  (i < size)%nat -> (size * 4 <= length buf)%nat ->
  let p := pixel (Js.band (cells !! i) 0xFF) in
  paint pixel size cells buf !! (i * 4)%nat = Some (px_red p)
  /\ paint pixel size cells buf !! (i * 4 + 1)%nat = Some (px_green p)
  /\ paint pixel size cells buf !! (i * 4 + 2)%nat = Some (px_blue p)
  /\ paint pixel size cells buf !! (i * 4 + 3)%nat = Some (px_alpha p).
Proof.
  intros Hb Hi Hlen p.
  destruct (Hb (Js.band (cells !! i) 0xFF)) as (Br & Bg & Bb & Ba). fold p in Br, Bg, Bb, Ba.
  destruct p as [[[r g] b] a] eqn:Hp.
  destruct (paint_cell pixel size cells buf i Hi Hlen r g b a Hp) as (H0 & H1 & H2 & H3).
  cbn [px_red px_green px_blue px_alpha fst snd] in *.
  rewrite H0, H1, H2, H3, Br, Bg, Bb, Ba. repeat split; reflexivity.
Qed.

Lemma palette_bytes (tp : string) (value : Z) :
  let p := palette tp value in
  Js.clamp8 (px_red p) = px_red p /\ Js.clamp8 (px_green p) = px_green p
  /\ Js.clamp8 (px_blue p) = px_blue p /\ Js.clamp8 (px_alpha p) = px_alpha p.
Proof.
  unfold palette.
  destruct (String.eqb tp "/traffic_map"); [apply traffic_pixel_bytes|].
  destruct (String.eqb tp "/one_way_map"); [apply one_way_pixel_bytes|].
  apply default_pixel_bytes.
Qed.

Lemma updateTexture_palette (tp : string) (tex : DataTexture) (g : OccupancyGrid) :
  image_data (updateTexture tp tex g)
  = paint (palette tp) (width (info g) * height (info g)) (data g) (image_data tex).
Proof.
  unfold updateTexture, palette. cbn [image_data].
  destruct (String.eqb tp "/traffic_map"); [reflexivity|].
  destruct (String.eqb tp "/one_way_map"); reflexivity.
Qed.

(** X1.  [updateTexture] paints the texture cell by cell: the pixel of the
    cell [i] (the four bytes at [4 * i]) is the colour the palette of the
    channel gives to the unsigned value [data[i] & 0xFF] of that cell and
    depends on no other cell; a cell missing from the buffer counts as
    the value 0.  Bytes beyond the last cell, the length of the buffer,
    the identity and the dimensions of the texture are left as they
    were, and the texture is flagged for upload. *)
Theorem texture_follows_cells (tp : string) (tex : DataTexture) (g : OccupancyGrid) :
  let size := (width (info g) * height (info g))%nat in
  let tex' := updateTexture tp tex g in
  (size * 4 <= length (image_data tex))%nat ->
  (forall i, (i < size)%nat ->
     let p := palette tp (Js.band (data g !! i) 0xFF) in
     image_data tex' !! (i * 4)%nat = Some (px_red p)
     /\ image_data tex' !! (i * 4 + 1)%nat = Some (px_green p)
     /\ image_data tex' !! (i * 4 + 2)%nat = Some (px_blue p)
     /\ image_data tex' !! (i * 4 + 3)%nat = Some (px_alpha p))
  /\ (forall i, (length (data g) <= i < size)%nat ->
      palette tp (Js.band (data g !! i) 0xFF) = palette tp 0)
  /\ (forall j, (size * 4 <= j)%nat -> image_data tex' !! j = image_data tex !! j)
  /\ length (image_data tex') = length (image_data tex)
  /\ tex_id tex' = tex_id tex
  /\ image_width tex' = image_width tex
  /\ image_height tex' = image_height tex
  /\ needsUpdate tex' = true.
Proof.
  intros size tex' Hlen. subst tex'.
  split; [|split; [|split; [|split]]].
  - intros i Hi. rewrite updateTexture_palette.
    apply paint_cell_bytes; [apply palette_bytes | exact Hi | exact Hlen].
  - intros i [Hi _]. rewrite (lookup_ge_None_2 (data g) i Hi). reflexivity.
  - intros j Hj. rewrite updateTexture_palette. apply paint_beyond. exact Hj.
  - apply updateTexture_length.
  - unfold updateTexture. cbn. repeat split; reflexivity.
Qed.

End TextureCells.

Section TextureSamples.
Import Grid Palettes Samples CellSamples.
Local Open Scope Z_scope.

Lemma texture_follows_cells_witness :
  (2 * 1 * 4 <= length (image_data tex_2x1))%nat
  /\ firstn 4 (image_data (updateTexture "/traffic_map" tex_2x1 grid_2x1)) = [0; 0; 255; 128]
  /\ image_data (updateTexture "/traffic_map" tex_2x1 grid_2x1) !! 4%nat = Some 0
  /\ needsUpdate (updateTexture "/traffic_map" tex_2x1 grid_2x1) = true.
Proof.
  pose proof (texture_follows_cells "/traffic_map" tex_2x1 grid_2x1) as H.
  cbv zeta in H.
  assert (Hlen : (2 * 1 * 4 <= length (image_data tex_2x1))%nat) by (vm_compute; lia).
  destruct (H Hlen) as (Hc & _ & _ & _ & _ & _ & _ & Hn).
  split; [exact Hlen|].
  split; [vm_compute; reflexivity|].
  split; [exact (proj1 (Hc 1%nat ltac:(vm_compute; lia))) | exact Hn].
Defined.

End TextureSamples.


Section PaletteVisibility.

Import Grid Palettes.

Local Open Scope Z_scope.

Lemma cell_value_signed (c : Z) :
  -128 <= c <= 127 -> Js.band (Some c) 0xFF = if c <? 0 then c + 256 else c.
Proof.
  intros Hc. unfold Js.band, Js.ToInt32.
  replace ((c + 2147483648) mod 4294967296 - 2147483648) with c
    by (rewrite Z.mod_small; lia).
  change 255 with (Z.ones 8). rewrite Z.land_ones by lia.
  change (2 ^ 8) with 256.
  destruct (Z.ltb_spec c 0).
  - symmetry. apply (Z.mod_unique c 256 (-1)); lia.
  - apply Z.mod_small. lia.
Qed.

(** X2.  Which cells the two switch palettes draw.  A cell is an
    [Int8Array] element; the palettes look at its unsigned value.  On
    the default palette exactly the cells 0, 95, 96, -64 (192) and -32
    (224) get a pixel of alpha 128, on the palette of "/traffic_map"
    exactly the cells 0 and 100; every other cell, and so the usual
    "unknown" cell -1, gets the pixel (0, 0, 0, 0), which the alpha test
    of the material discards. *)
Theorem switch_palettes_visibility (c : Z) :
  -128 <= c <= 127 ->
  let v := Js.band (Some c) 0xFF in
  (px_alpha (default_pixel v) = 128 <-> c = 0 \/ c = 95 \/ c = 96 \/ c = -64 \/ c = -32)
  /\ (px_alpha (default_pixel v) <> 128 -> default_pixel v = (0, 0, 0, 0))
  /\ (px_alpha (traffic_pixel v) = 128 <-> c = 0 \/ c = 100)
  /\ (px_alpha (traffic_pixel v) <> 128 -> traffic_pixel v = (0, 0, 0, 0)).
Proof.
  intros Hc v. subst v. rewrite (cell_value_signed c Hc).
  unfold default_pixel, traffic_pixel.
  destruct (Z.ltb_spec c 0);
    repeat match goal with |- context [(?a =? ?b)] => destruct (Z.eqb_spec a b) end;
    cbn [px_alpha snd]; repeat split; intros; try lia; try reflexivity;
    try (exfalso; lia); try discriminate; try congruence.
Qed.

Lemma switch_palettes_visibility_witness :
  -128 <= -1 <= 127
  /\ default_pixel (Js.band (Some (-1)) 0xFF) = (0, 0, 0, 0)
  /\ traffic_pixel (Js.band (Some (-1)) 0xFF) = (0, 0, 0, 0).
Proof.
  assert (Hc : -128 <= -1 <= 127) by lia.
  pose proof (switch_palettes_visibility (-1) Hc) as (_ & Hd & _ & Ht).
  split; [exact Hc|]. split; [apply Hd | apply Ht]; vm_compute; discriminate.
Defined.

End PaletteVisibility.

Section GridHandler.

Import Grid GridRegistry.

Variable normalizeFrameId : string -> string.
Variable decodePixels : list Z -> option (list Z).

Local Abbreviation update := (_updateOccupancyGridRenderable normalizeFrameId decodePixels).
Local Abbreviation handle := (handleOccupancyGrid normalizeFrameId decodePixels).

(** What one update does to the renderer and to the fields of the
    renderable the message does not carry. *)
Lemma update_effect (rdr : Renderer) (r : Renderable) (g : OccupancyGrid) (t : Z) :
  let res := update rdr r g t in
  topic res.1.2 = topic r
  /\ settings res.1.2 = settings r
  /\ config_topics res.1.1 = config_topics rdr
  /\ transparent (material res.1.2) = transparent (material r)
  /\ depthWrite (material res.1.2) = depthWrite (material r)
  /\ (mat_map (material r) = tex_id (texture r) ->
      mat_map (material res.1.2) = tex_id (texture res.1.2))
  /\ ((tex_id (texture res.1.2) = tex_id (texture r)
       /\ disposed res.1.1 = disposed rdr /\ next_id res.1.1 = next_id rdr)
      \/ (tex_id (texture res.1.2) = next_id rdr
          /\ disposed res.1.1 = tex_id (texture r) :: disposed rdr
          /\ next_id res.1.1 = S (next_id rdr)))
  /\ ((res.2 = Rejected
       /\ exists message,
            errors res.1.1
            = {| err_topic := topic r; err_id := INVALID_OCCUPANCY_GRID;
                 err_message := message |} :: errors rdr)
      \/ (res.2 <> Rejected /\ errors res.1.1 = errors rdr))
  /\ (res.2 <> Rendered -> texture res.1.2 = texture r).
Proof.
  cbv zeta.
  destruct (Grid.dispatch decodePixels g) as [g'|] eqn:D.
  - destruct (decide (length (data g') = width (info g') * height (info g'))) as [He|Hne].
    + rewrite (update_rendered normalizeFrameId decodePixels rdr r g g' t D He). cbv zeta.
      destruct (negb _ || negb _); cbn.
      * repeat split; try done. right; done. right; done.
      * repeat split; try done. left; done. right; done.
    + rewrite (update_rejected normalizeFrameId decodePixels rdr r g g' t D Hne). cbn.
      repeat split; try done. left; done. left. split; [done|]. eexists; reflexivity.
  - rewrite (update_threw normalizeFrameId decodePixels rdr r g t D). cbn.
    repeat split; try done. left; done. right; done.
Qed.

Lemma handle_eq (rdr : Renderer) (rs : gmap string Renderable)
    (ev : MessageEvent PartialOccupancyGrid) :
  let tp := ev_topic ev in
  let g := normalizeOccupancyGrid (ev_message ev) in
  let time := toNanoSec (ev_receiveTime ev) in
  let start := starting_point normalizeFrameId rdr rs tp g time in
  let res := update start.1 start.2 g time in
  handle rdr rs ev = (res.1.1, <[tp := res.1.2]> rs, res.2).
Proof.
  cbv zeta. unfold handleOccupancyGrid, starting_point. cbv zeta.
  destruct (rs !! ev_topic ev) as [r|].
  - cbn [fst snd]. destruct (update rdr r _ _) as [[rdr' r'] c]. reflexivity.
  - destruct (createTexture rdr _) as [rdr1 tex]. cbn [fst snd].
    match goal with |- context [update rdr1 ?r ?g ?t] =>
      destruct (update rdr1 r g t) as [[rdr' r'] c] end.
    reflexivity.
Qed.





(** X6.  What the grid handler reports to the error store.  Handling
    a grid message leaves the user's configuration alone.  A rejected
    message makes exactly one call of [addToTopic], with the id
    [INVALID_OCCUPANCY_GRID] and the channel of the renderable (the
    channel of the message when the renderable is new).  Every other
    message, whether it is rendered or the update is interrupted by the
    PNG library, makes no call at all: the handler reports a malformed
    grid and nothing else, and a valid message sends the store nothing
    about the channel. *)
Theorem grid_handler_reports (rdr : Renderer) (rs : gmap string Renderable)
    (ev : MessageEvent PartialOccupancyGrid) :
  let res := handle rdr rs ev in
  config_topics res.1.1 = config_topics rdr
  /\ (res.2 = Rejected ->
      exists e, errors res.1.1 = e :: errors rdr
                /\ err_id e = INVALID_OCCUPANCY_GRID
                /\ (rs !! ev_topic ev = None -> err_topic e = ev_topic ev)
                /\ (forall r, rs !! ev_topic ev = Some r -> err_topic e = topic r))
  /\ (res.2 <> Rejected -> errors res.1.1 = errors rdr).
Proof.
  cbv zeta. rewrite handle_eq. cbv zeta. cbn [fst snd].
  set (tp := ev_topic ev). set (g := normalizeOccupancyGrid (ev_message ev)).
  set (time := toNanoSec (ev_receiveTime ev)).
  pose proof (update_effect (starting_point normalizeFrameId rdr rs tp g time).1
                (starting_point normalizeFrameId rdr rs tp g time).2 g time)
    as (_ & _ & Hc & _ & _ & _ & _ & He & _).
  cbv zeta in Hc, He.
  assert (S1 : config_topics (starting_point normalizeFrameId rdr rs tp g time).1
               = config_topics rdr
               /\ errors (starting_point normalizeFrameId rdr rs tp g time).1 = errors rdr).
  { unfold starting_point. destruct (rs !! tp); split; reflexivity. }
  destruct S1 as [S1 S2]. rewrite S1 in Hc. rewrite S2 in He.
  split; [exact Hc|]. split.
  - intros Hr. destruct He as [(_ & msg & He)|(Hn & _)]; [|contradiction].
    eexists. split; [exact He|]. split; [reflexivity|]. cbn [err_topic].
    unfold starting_point. split.
    + intros ->. reflexivity.
    + intros r ->. reflexivity.
  - intros Hr. destruct He as [(Hj & _)|(_ & He)]; [contradiction|exact He].
Qed.

End GridHandler.

Section PngBytes.

Import Grid.

Variable decodePixels : list Z -> option (list Z).

Local Open Scope Z_scope.

Lemma to_uint8_range (z : Z) : 0 <= Js.to_uint8 z <= 255.
Proof. unfold Js.to_uint8. pose proof (Z.mod_pos_bound z 256). lia. Qed.

Lemma to_int8_range (z : Z) : -128 <= Js.to_int8 z <= 127.
Proof. unfold Js.to_int8. pose proof (Z.mod_pos_bound (z + 128) 256). lia. Qed.

Lemma to_int8_to_uint8 (c : Z) : -128 <= c <= 127 -> Js.to_int8 (Js.to_uint8 c) = c.
Proof.
  intros Hc. unfold Js.to_int8, Js.to_uint8.
  destruct (Z.ltb_spec c 0).
  - replace (c mod 256) with (c + 256) by (apply (Z.mod_unique c 256 (-1)); lia).
    replace ((c + 256 + 128) mod 256) with (c + 128)
      by (apply (Z.mod_unique (c + 256 + 128) 256 1); lia).
    lia.
  - rewrite (Z.mod_small c 256) by lia. rewrite Z.mod_small by lia. lia.
Qed.

Lemma band_to_int8 (b : Z) : 0 <= b <= 255 -> Js.band (Some (Js.to_int8 b)) 0xFF = b.
Proof.
  intros Hb. unfold Js.band, Js.ToInt32.
  pose proof (to_int8_range b) as Hr.
  replace ((Js.to_int8 b + 2147483648) mod 4294967296 - 2147483648) with (Js.to_int8 b)
    by (rewrite Z.mod_small; lia).
  change 255 with (Z.ones 8). rewrite Z.land_ones by lia. change (2 ^ 8) with 256.
  unfold Js.to_int8.
  destruct (Z.ltb_spec b 128).
  - rewrite (Z.mod_small (b + 128)) by lia.
    replace (b + 128 - 128) with b by lia. apply Z.mod_small. lia.
  - replace ((b + 128) mod 256) with (b - 128)
      by (apply (Z.mod_unique (b + 128) 256 1); lia).
    symmetry. apply (Z.mod_unique _ 256 (-1)); lia.
Qed.

Lemma int8_cells_round_trip (cells : list Z) :
  Forall (fun c => -128 <= c <= 127) cells ->
  map Js.to_int8 (map Js.to_uint8 cells) = cells.
Proof.
  induction 1 as [|c l Hc _ IH]; cbn; [reflexivity|].
  rewrite IH, (to_int8_to_uint8 c Hc). reflexivity.
Qed.

(** X3.  The PNG path keeps the bytes.  The grid buffer is an
    [Int8Array]; when it starts with the signed signature -119, 80, 78,
    71 the PNG library is handed the same bytes unsigned, which start
    with the magic number 137, 80, 78, 71 of the format and from which
    the cells can be recovered.  The decoded pixels, bytes from 0 to
    255, are stored as signed cells of the grid, and the value the
    palettes read from each cell, [data[i] & 0xFF], is the decoded byte
    again; the grid keeps its header and its dimensions and has one cell
    per decoded byte. *)
Theorem png_bytes_round_trip (g : OccupancyGrid) (imgData : list Z) :
  Forall (fun c => -128 <= c <= 127) (data g) ->
  has_png_signature (data g) = true ->
  decodePixels (map Js.to_uint8 (data g)) = Some imgData ->
  Forall (fun b => 0 <= b <= 255) imgData ->
  let bytes := map Js.to_uint8 (data g) in
  (exists rest, bytes = 137 :: 80 :: 78 :: 71 :: rest)
  /\ map Js.to_int8 bytes = data g
  /\ exists g',
       dispatch decodePixels g = Some g'
       /\ info g' = info g /\ header g' = header g
       /\ length (data g') = length imgData
       /\ Forall (fun c => -128 <= c <= 127) (data g')
       /\ forall i b, imgData !! i = Some b -> Js.band (data g' !! i) 0xFF = b.
Proof.
  intros Hcells Hsig Hdec Hbytes. cbv zeta.
  split; [|split].
  - apply has_png_signature_iff in Hsig as [rest ->]. eexists. reflexivity.
  - apply int8_cells_round_trip. exact Hcells.
  - rewrite dispatch_eq, Hsig, Hdec. cbn [fmap option_fmap option_map].
    eexists. split; [reflexivity|]. cbn [info header data set_data].
    split; [reflexivity|]. split; [reflexivity|]. split; [apply length_map|].
    split.
    + apply Forall_fmap, Forall_true. intros b. apply to_int8_range.
    + intros i b Hi. rewrite list_lookup_fmap, Hi. cbn.
      apply band_to_int8. exact (Forall_lookup_1 _ _ _ _ Hbytes Hi).
Qed.

End PngBytes.

Section PngSamples.

Import Grid Samples PngSamples.

Local Open Scope Z_scope.

Lemma png_bytes_round_trip_witness :
  Forall (fun c => -128 <= c <= 127) (data png_grid)
  /\ has_png_signature (data png_grid) = true
  /\ png_four (map Js.to_uint8 (data png_grid)) = Some four_pixels
  /\ Forall (fun b => 0 <= b <= 255) four_pixels
  /\ exists g', dispatch png_four png_grid = Some g'
                /\ Js.band (data g' !! 1%nat) 0xFF = 200.
Proof.
  assert (H1 : Forall (fun c => -128 <= c <= 127) (data png_grid))
    by (repeat constructor; lia).
  assert (H2 : has_png_signature (data png_grid) = true) by reflexivity.
  assert (H3 : png_four (map Js.to_uint8 (data png_grid)) = Some four_pixels)
    by reflexivity.
  assert (H4 : Forall (fun b => 0 <= b <= 255) four_pixels) by (repeat constructor; lia).
  destruct (png_bytes_round_trip png_four png_grid four_pixels H1 H2 H3 H4)
    as (_ & _ & g' & Hd & _ & _ & _ & _ & Hb).
  repeat (split; [assumption|]).
  exists g'. split; [exact Hd|]. apply Hb. reflexivity.
Defined.

End PngSamples.

Section CostmapHandler.

Import Grid CostmapCells.

Variable normalizeFrameId : string -> string.
Variable decodePixels : list Z -> option (list Z).

Local Open Scope Z_scope.

Lemma unpack_cell_range (packed : list Z) (width y x : nat) :
  0 <= unpack_cell packed width y x <= 3.
Proof.
  unfold unpack_cell. cbv zeta.
  set (v := Js.shr _ _).
  replace (Z.land v 3) with (v mod 4)
    by (change 3 with (Z.ones 2); rewrite Z.land_ones by lia; reflexivity).
  pose proof (Z.mod_pos_bound v 4). lia.
Qed.

Lemma to_int8_small (v : Z) : -128 <= v <= 127 -> Js.to_int8 v = v.
Proof. intros H. unfold Js.to_int8. rewrite Z.mod_small; lia. Qed.

(** Two nested loops of stores whose value depends on the index only:
    an index that the loops visit holds its value, any other index holds
    what it held. *)
Lemma store_loops (F : nat -> Z) (idx : nat -> nat -> nat) (w h : nat) (l : list Z) :
  let out :=
    Js.for_range 0 w
      (fun y out => Js.for_range 0 h (fun x out => Js.store out (idx y x) (F (idx y x))) out)
      l in
  length out = length l
  /\ forall k, (k < length l)%nat ->
       (out !! k = Some (F k) /\ exists y x, (y < w)%nat /\ (x < h)%nat /\ idx y x = k)
       \/ (out !! k = l !! k /\ forall y x, (y < w)%nat -> (x < h)%nat -> idx y x <> k).
Proof.
  cbv zeta.
  assert (Inner : forall y h' (o : list Z),
    let o' := Js.for_range 0 h' (fun x out => Js.store out (idx y x) (F (idx y x))) o in
    length o' = length o
    /\ forall k, (k < length o)%nat ->
         (o' !! k = Some (F k) /\ exists x, (x < h')%nat /\ idx y x = k)
         \/ (o' !! k = o !! k /\ forall x, (x < h')%nat -> idx y x <> k)).
  { intros y h' o. cbv zeta. induction h' as [|h' [IHl IH]].
    - rewrite for_range_empty by lia. split; [reflexivity|].
      intros k Hk. right. split; [reflexivity|]. intros x Hx. lia.
    - rewrite for_range_S by lia.
      set (o' := Js.for_range 0 h' _ o) in *. unfold Js.store.
      split; [rewrite length_insert; exact IHl|].
      intros k Hk. destruct (decide (idx y h' = k)) as [E|NE].
      + left. split.
        * rewrite E. apply list_lookup_insert_eq. rewrite IHl. exact Hk.
        * exists h'. split; [lia|exact E].
      + rewrite list_lookup_insert_ne by exact NE.
        destruct (IH k Hk) as [(A & x & Hx & Ex)|(A & B)].
        * left. split; [exact A|]. exists x. split; [lia|exact Ex].
        * right. split; [exact A|]. intros x Hx.
          destruct (decide (x = h')) as [->|]; [exact NE|apply B; lia]. }
  induction w as [|w [IHl IH]].
  - rewrite for_range_empty by lia. split; [reflexivity|].
    intros k Hk. right. split; [reflexivity|]. intros y x Hy. lia.
  - rewrite for_range_S by lia.
    set (o := Js.for_range 0 w _ l) in *.
    destruct (Inner w h o) as [Il I]. cbv zeta in Il, I.
    split; [rewrite Il; exact IHl|].
    intros k Hk. destruct (I k ltac:(rewrite IHl; exact Hk)) as [(A & x & Hx & Ex)|(A & B)].
    + left. split; [exact A|]. exists w, x. split; [lia|]. split; assumption.
    + destruct (IH k Hk) as [(A' & y & x & Hy & Hx & E)|(A' & B')].
      * left. split; [rewrite A; exact A'|]. exists y, x. split; [lia|]. split; assumption.
      * right. split; [rewrite A; exact A'|]. intros y x Hy Hx.
        destruct (decide (y = w)) as [->|]; [apply B; exact Hx | apply B'; lia].
Qed.

(** The value the loops of [MirToRos] store at the cell index [k]. *)
Lemma unpack_spec (packed : list Z) (width height : nat) :
  let F := fun k : nat =>
    Js.to_int8
      (Z.land (Js.shr (Js.get_div packed k 4) (6 - Z.of_nat (k mod 4) * 2)) 3) in
  let out := unpack packed width height in
  length out = length packed
  /\ forall k, (k < length packed)%nat ->
       (out !! k = Some (F k) /\ visited width height k)
       \/ (out !! k = Some 0 /\ ~ visited width height k).
Proof.
  cbv zeta.
  pose proof (store_loops
                (fun k : nat =>
                   Js.to_int8
                     (Z.land (Js.shr (Js.get_div packed k 4) (6 - Z.of_nat (k mod 4) * 2)) 3))
                (fun y x => (width * y + x)%nat) width height
                (replicate (length packed) 0)) as [Hl H].
  cbv zeta in Hl, H. rewrite length_replicate in Hl, H.
  change (Js.for_range 0 width _ (replicate (length packed) 0))
    with (unpack packed width height) in Hl, H.
  split; [exact Hl|]. intros k Hk.
  destruct (H k Hk) as [(A & y & x & Hy & Hx & E)|(A & B)].
  - left. split; [exact A|]. exists y, x. split; [exact Hy|]. split; [exact Hx|]. symmetry; exact E.
  - right. split.
    + rewrite A. apply lookup_replicate_2. exact Hk.
    + intros (y & x & Hy & Hx & E). apply (B y x Hy Hx). symmetry; exact E.
Qed.

(** X7.  What [MirToRos] makes of a packed costmap, for every message.
    The cell buffer it hands on has the length of the packed buffer,
    not width * height.  Every cell is a number from 0 to 3.  A cell
    whose index is not a multiple of 4 is 0 whatever the packed bytes
    are, and so is a cell the two loops do not visit (they run the row
    counter up to the width and the column counter up to the height).
    A visited cell whose index [k] is a multiple of 4 holds the two
    highest bits of the byte [k / 4]. *)
Theorem costmap_cells (ev : MessageEvent CostmapData) :
  let m := ev_message ev in
  exists out,
    p_data (ev_message (MirToRos ev)) = Some out
    /\ length out = length (c_data m)
    /\ forall k v, out !! k = Some v ->
         0 <= v <= 3
         /\ ((k mod 4)%nat <> 0%nat -> v = 0)
         /\ (~ visited (c_width m) (c_height m) k -> v = 0)
         /\ (visited (c_width m) (c_height m) k -> (k mod 4)%nat = 0%nat ->
             forall b, c_data m !! (k / 4)%nat = Some b -> 0 <= b <= 255 ->
             v = Z.shiftr b 6).
Proof.
  cbv zeta. eexists. split; [reflexivity|].
  set (packed := c_data (ev_message ev)).
  set (w := c_width (ev_message ev)). set (h := c_height (ev_message ev)).
  destruct (unpack_spec packed w h) as [Hl H]. cbv zeta in Hl, H.
  split; [exact Hl|]. intros k v Hv.
  assert (Hk : (k < length packed)%nat).
  { rewrite <- Hl. eapply lookup_lt_Some. exact Hv. }
  assert (Hrange : forall k' : nat,
            0 <= Z.land (Js.shr (Js.get_div packed k' 4) (6 - Z.of_nat (k' mod 4) * 2)) 3 <= 3).
  { intros k'. set (x := Js.shr _ _).
    replace (Z.land x 3) with (x mod 4)
      by (change 3 with (Z.ones 2); rewrite Z.land_ones by lia; reflexivity).
    pose proof (Z.mod_pos_bound x 4). lia. }
  split; [|split; [|split]].
  - destruct (H k Hk) as [(A & _)|(A & _)]; rewrite A in Hv;
      apply (inj Some) in Hv; rewrite <- Hv; [|lia].
    rewrite to_int8_small by (specialize (Hrange k); lia). apply Hrange.
  - intros Hm. eapply unpack_off_byte_cells; eassumption.
  - intros Hn. destruct (H k Hk) as [(_ & Hvis)|(A & _)]; [contradiction|].
    rewrite A in Hv. apply (inj Some) in Hv. symmetry. exact Hv.
  - intros Hvis Hm b Hb Hbr.
    destruct (H k Hk) as [(A & _)|(_ & Hn)]; [|contradiction].
    rewrite A in Hv. apply (inj Some) in Hv. rewrite <- Hv.
    rewrite to_int8_small by (specialize (Hrange k); lia).
    unfold Js.get_div. rewrite Hm. cbn [Nat.eqb]. rewrite Hb.
    unfold Js.shr, Js.ToInt32.
    replace ((b + 2147483648) mod 4294967296 - 2147483648) with b
      by (rewrite Z.mod_small; lia).
    change (6 - Z.of_nat 0 * 2) with 6.
    assert (Hs : 0 <= Z.shiftr b 6 <= 3).
    { rewrite Z.shiftr_div_pow2 by lia. change (2 ^ 6) with 64.
      split; [apply Z.div_pos; lia|].
      assert (b / 64 < 4) by (apply Z.div_lt_upper_bound; lia). lia. }
    change 3 with (Z.ones 2). rewrite Z.land_ones by lia.
    apply Z.mod_small. change (2 ^ 2) with 4. lia.
Qed.




End CostmapHandler.

Section Repaint.

Import Grid.

Lemma write_pixel_lookup (buf : list Z) (off : nat) (r g b a : Z) (j : nat) :
  write_pixel buf off (r, g, b, a) !! j
  = if decide (j < length buf /\ off <= j < off + 4)
    then Some (Js.clamp8 (if decide (j = off) then r
                          else if decide (j = off + 1) then g
                          else if decide (j = off + 2) then b else a))
    else buf !! j.
Proof.
  unfold write_pixel, Js.store.
  rewrite !list_lookup_insert, !length_insert.
  repeat case_decide; try lia; try reflexivity.
Qed.

Lemma write_pixel_twice (buf : list Z) (off : nat) (p : rgba) :
  write_pixel (write_pixel buf off p) off p = write_pixel buf off p.
Proof.
  destruct p as [[[r g] b] a]. apply list_eq. intros j.
  rewrite !write_pixel_lookup, write_pixel_length.
  repeat case_decide; try lia; reflexivity.
Qed.

Lemma write_pixel_swap (buf : list Z) (o1 o2 : nat) (p1 p2 : rgba) :
  o1 + 4 <= o2 ->
  write_pixel (write_pixel buf o2 p2) o1 p1 = write_pixel (write_pixel buf o1 p1) o2 p2.
Proof.
  intros H. destruct p1 as [[[r1 g1] b1] a1]. destruct p2 as [[[r2 g2] b2] a2].
  apply list_eq. intros j.
  rewrite !write_pixel_lookup, !write_pixel_length.
  repeat case_decide; try lia; reflexivity.
Qed.

Lemma paint_after_write (pixel : Z -> rgba) (n : nat) (cells buf : list Z) (off : nat)
    (p : rgba) :
  n * 4 <= off ->
  paint pixel n cells (write_pixel buf off p) = write_pixel (paint pixel n cells buf) off p.
Proof.
  induction n as [|n IH]; intros H.
  - unfold paint. rewrite !for_range_empty by lia. reflexivity.
  - rewrite !paint_S, IH by lia. apply write_pixel_swap. lia.
Qed.

(** Painting is idempotent: painting the same cells again changes no
    byte. *)
Lemma paint_twice (pixel : Z -> rgba) (n : nat) (cells buf : list Z) :
  paint pixel n cells (paint pixel n cells buf) = paint pixel n cells buf.
Proof.
  revert buf. induction n as [|n IH]; intros buf.
  - unfold paint. rewrite !for_range_empty by lia. reflexivity.
  - rewrite !paint_S. rewrite paint_after_write by lia.
    rewrite IH. apply write_pixel_twice.
Qed.

End Repaint.

Section GridSettingsFacts.

Import Grid GridSettings.

Variable normalizeFrameId : string -> string.
Variable decodePixels : list Z -> option (list Z).
Variable Value : Type.
Variable saveSetting : Renderer -> list string -> Value -> Renderer.

Local Abbreviation update := (_updateOccupancyGridRenderable normalizeFrameId decodePixels).
Local Abbreviation on_action :=
  (handleSettingsAction normalizeFrameId decodePixels Value saveSetting).

(** The update does not read the settings. *)
Lemma update_set_settings (rdr : Renderer) (r : Renderable) (g : OccupancyGrid) (t : Z)
    (s : LayerSettingsOccupancyGrid) :
  update rdr (set_settings r s) g t
  = ((update rdr r g t).1.1, set_settings (update rdr r g t).1.2 s, (update rdr r g t).2).
Proof.
  unfold _updateOccupancyGridRenderable.
  destruct (dispatch decodePixels g) as [g'|]; [|reflexivity].
  cbn [set_settings set_message set_occupancyGrid texture topic].
  destruct (negb (length (data g') =? width (info g') * height (info g'))); [reflexivity|].
  cbn [set_settings set_message set_occupancyGrid texture topic].
  destruct (negb _ || negb _); reflexivity.
Qed.

Lemma updateTexture_twice (tp : string) (tex : DataTexture) (g : OccupancyGrid) :
  updateTexture tp (updateTexture tp tex g) g = updateTexture tp tex g.
Proof.
  unfold updateTexture. cbn [image_data tex_id image_width image_height].
  destruct (String.eqb tp "/traffic_map"); [rewrite paint_twice; reflexivity|].
  destruct (String.eqb tp "/one_way_map"); rewrite paint_twice; reflexivity.
Qed.

(** The renderable a rendered update leaves. *)
Lemma update_rendered_shape (rdr0 : Renderer) (r0 : Renderable) (g : OccupancyGrid) (t : Z) :
  (update rdr0 r0 g t).2 = Rendered ->
  exists g' tex,
    dispatch decodePixels g = Some g'
    /\ length (data g') = width (info g') * height (info g')
    /\ image_width tex = width (info g') /\ image_height tex = height (info g')
    /\ ((update rdr0 r0 g t).1.2
       = {| receiveTime := t;
            messageTime := toNanoSec (stamp (header g'));
            frameId := normalizeFrameId (frame_id (header g'));
            pose := origin (info g');
            settings := settings r0; topic := topic r0; occupancyGrid := g';
            texture := updateTexture (topic r0) tex g';
            material := {| mat_map := tex_id tex; transparent := transparent (material r0);
                           depthWrite := depthWrite (material r0) |};
            scale := {| v_x := Js.mul (resolution (info g')) (Js.of_nat (width (info g')));
                        v_y := Js.mul (resolution (info g')) (Js.of_nat (height (info g')));
                        v_z := Js.one |} |}
       \/ (tex = texture r0
           /\ (update rdr0 r0 g t).1.2
              = {| receiveTime := t;
                   messageTime := toNanoSec (stamp (header g'));
                   frameId := normalizeFrameId (frame_id (header g'));
                   pose := origin (info g');
                   settings := settings r0; topic := topic r0; occupancyGrid := g';
                   texture := updateTexture (topic r0) tex g';
                   material := material r0;
                   scale :=
                     {| v_x := Js.mul (resolution (info g')) (Js.of_nat (width (info g')));
                        v_y := Js.mul (resolution (info g')) (Js.of_nat (height (info g')));
                        v_z := Js.one |} |})).
Proof.
  intros Hr.
  destruct (dispatch decodePixels g) as [g'|] eqn:D;
    [|rewrite (update_threw normalizeFrameId decodePixels rdr0 r0 g t D) in Hr; discriminate].
  destruct (decide (length (data g') = width (info g') * height (info g'))) as [He|Hne];
    [|rewrite (update_rejected normalizeFrameId decodePixels rdr0 r0 g g' t D Hne) in Hr;
      discriminate].
  destruct (dispatch_info decodePixels g g' D) as [Hi Hh].
  clear Hr. rewrite (update_rendered normalizeFrameId decodePixels rdr0 r0 g g' t D He).
  cbv zeta.
  destruct (negb (width (info g') =? image_width (texture r0))
            || negb (height (info g') =? image_height (texture r0))) eqn:T; cbn [fst snd].
  - exists g', (createTexture (dispose_texture rdr0 (texture r0)) g').2.
    split; [reflexivity|]. split; [exact He|]. split; [reflexivity|]. split; [reflexivity|].
    left. rewrite Hh, Hi. reflexivity.
  - apply orb_false_iff in T as [T1 T2].
    apply negb_false_iff, Nat.eqb_eq in T1. apply negb_false_iff, Nat.eqb_eq in T2.
    exists g', (texture r0).
    split; [reflexivity|]. split; [exact He|]. split; [congruence|]. split; [congruence|].
    right. split; [reflexivity|]. rewrite Hh, Hi. reflexivity.
Qed.

(** Running the update again with the grid and the receive time the
    renderable holds, as a settings action does, changes nothing once
    the grid was rendered. *)
Lemma update_again (rdr0 rdr : Renderer) (r0 : Renderable) (g : OccupancyGrid) (t : Z) :
  (update rdr0 r0 g t).2 = Rendered ->
  let r1 := (update rdr0 r0 g t).1.2 in
  has_png_signature (data (occupancyGrid r1)) = false ->
  update rdr r1 (occupancyGrid r1) (receiveTime r1) = (rdr, r1, Rendered).
Proof.
  intros Hr. cbv zeta.
  destruct (update_rendered_shape rdr0 r0 g t Hr) as (g' & tex & D & He & Tw & Th & Hshape).
  assert (Hg : occupancyGrid (update rdr0 r0 g t).1.2 = g')
    by (destruct Hshape as [->|[_ ->]]; reflexivity).
  assert (Ht : receiveTime (update rdr0 r0 g t).1.2 = t)
    by (destruct Hshape as [->|[_ ->]]; reflexivity).
  rewrite Hg, Ht. intros Hsig.
  assert (D' : dispatch decodePixels g' = Some g')
    by (rewrite dispatch_eq, Hsig; reflexivity).
  rewrite (update_rendered normalizeFrameId decodePixels rdr _ g' g' t D' He). cbv zeta.
  destruct Hshape as [->|[_ ->]];
    cbn [texture image_width image_height updateTexture topic];
    rewrite Tw, Th, !Nat.eqb_refl; cbn [negb orb];
    unfold set_scale, set_texture, set_occupancyGrid, set_message;
    cbn [receiveTime messageTime frameId pose settings topic occupancyGrid texture material
         scale];
    f_equal; f_equal; f_equal.
  - change ({| tex_id := tex_id tex; image_width := image_width tex;
               image_height := image_height tex; image_data := _; needsUpdate := true |})
      with (updateTexture (topic r0) tex g').
    apply updateTexture_twice.
  - change ({| tex_id := tex_id tex; image_width := image_width tex;
               image_height := image_height tex; image_data := _; needsUpdate := true |})
      with (updateTexture (topic r0) tex g').
    apply updateTexture_twice.
Qed.

(** X9.  The scope of a settings action on the grid extension.  An
    action that is not an update, or whose path has not exactly three
    components, does nothing at all: nothing is saved and no renderable
    is touched.  Any other action is saved first; the channel it names,
    the second component of the path, is then the only one whose
    renderable can change, and when that channel has no renderable yet
    nothing else happens.  When it has one, its settings become the
    defaults overridden by the configuration of the channel as it is
    after the save, the update is run again on the grid it holds, and
    neither its channel name, nor its receive time, nor the transparency
    flags of its material change. *)
Theorem grid_settings_action_scope (rdr : Renderer) (rs : gmap string Renderable)
    (act : SettingsTreeAction Value) :
  let res := on_action rdr rs act in
  let path := payload_path act in
  let tp := default EmptyString (path !! 1) in
  let rdr1 := saveSetting rdr path (payload_value act) in
  (action act <> "update" \/ length path <> 3 -> res = (rdr, rs, None))
  /\ (action act = "update" /\ length path = 3 ->
      (forall k, k <> tp -> res.1.2 !! k = rs !! k)
      /\ (rs !! tp = None -> res = (rdr1, rs, None))
      /\ (forall r, rs !! tp = Some r ->
          exists r' c,
            res.1.2 !! tp = Some r' /\ res.2 = Some c
            /\ settings r' = mergeSettings (config_topics rdr1 !! tp)
            /\ topic r' = topic r
            /\ receiveTime r' = receiveTime r
            /\ transparent (material r') = transparent (material r)
            /\ depthWrite (material r') = depthWrite (material r)
            /\ config_topics res.1.1 = config_topics rdr1)).
Proof.
  cbv zeta. unfold handleSettingsAction. cbv zeta. split.
  - intros [Ha|Hl].
    + destruct (String.eqb_spec (action act) "update") as [E|_]; [contradiction|]. reflexivity.
    + destruct (Nat.eqb_spec (length (payload_path act)) 3) as [E|_]; [contradiction|].
      rewrite orb_true_r. reflexivity.
  - intros [Ha Hl]. rewrite Ha, Hl. cbn [String.eqb Ascii.eqb Bool.eqb negb orb Nat.eqb].
    set (tp := default EmptyString (payload_path act !! 1)).
    set (rdr1 := saveSetting rdr (payload_path act) (payload_value act)).
    destruct (rs !! tp) as [r|] eqn:L.
    + unfold occupancyGridHasTransparency. cbn [Bool.eqb negb].
      cbn [occupancyGrid receiveTime set_settings].
      rewrite update_set_settings.
      pose proof (update_effect normalizeFrameId decodePixels rdr1 r (occupancyGrid r)
                    (receiveTime r)) as (Ht & _ & Hc & Htr & Hdw & _).
      cbv zeta in Ht, Hc, Htr, Hdw.
      assert (Hrt : receiveTime (update rdr1 r (occupancyGrid r) (receiveTime r)).1.2
                    = receiveTime r).
      { unfold _updateOccupancyGridRenderable.
        destruct (dispatch decodePixels (occupancyGrid r)) as [g'|]; [|reflexivity].
        cbn [set_message set_occupancyGrid texture topic].
        destruct (negb _); [reflexivity|].
        destruct (negb _ || negb _); reflexivity. }
      destruct (update rdr1 r (occupancyGrid r) (receiveTime r)) as [[rdr' r'] c].
      cbn [fst snd] in *.
      split; [intros k Hk; apply lookup_insert_ne; congruence|].
      split; [discriminate|].
      intros r0 [= <-]. exists (set_settings r' (mergeSettings (config_topics rdr1 !! tp))), c.
      split; [apply lookup_insert_eq|]. repeat split; assumption.
    + split; [reflexivity|]. split; [reflexivity|]. discriminate.
Qed.

(** X10.  A settings action does not disturb a rendered grid.  When the
    renderable of the channel holds a grid that was rendered, and the
    buffer of that grid does not start with the PNG signature, an update
    action on the channel re-renders the very same picture: the renderer
    is left as [saveSetting] left it (no texture is disposed or created,
    no diagnostic is added), the update is rendered, and the renderable
    differs from the one before only by its settings. *)
Theorem grid_settings_action_keeps_picture
    (rdr0 rdr : Renderer) (r0 : Renderable) (g : OccupancyGrid) (t : Z)
    (rs : gmap string Renderable) (act : SettingsTreeAction Value) :
  let first := update rdr0 r0 g t in
  let r1 := first.1.2 in
  let path := payload_path act in
  let tp := default EmptyString (path !! 1) in
  let rdr1 := saveSetting rdr path (payload_value act) in
  first.2 = Rendered ->
  has_png_signature (data (occupancyGrid r1)) = false ->
  action act = "update" ->
  length path = 3 ->
  rs !! tp = Some r1 ->
  on_action rdr rs act
  = (rdr1, <[tp := set_settings r1 (mergeSettings (config_topics rdr1 !! tp))]> rs,
     Some Rendered).
Proof.
  cbv zeta. intros Hr Hsig Ha Hl L.
  unfold handleSettingsAction. cbv zeta. rewrite Ha, Hl, L.
  cbn [String.eqb Ascii.eqb Bool.eqb negb orb Nat.eqb].
  unfold occupancyGridHasTransparency. cbn [Bool.eqb negb].
  cbn [occupancyGrid receiveTime set_settings].
  rewrite update_set_settings.
  rewrite (update_again rdr0 _ r0 g t Hr Hsig). reflexivity.
Qed.

End GridSettingsFacts.

Section LineMode.

Import PoseArrays.

Variable AXIS_LENGTH : number.
Variable stringToRgba : string -> ColorRGBA.
Variable rgbaGradient : ColorRGBA -> ColorRGBA -> number -> ColorRGBA.
Variable Marker : Type.
Variable createArrowMarker : number * number * number -> ColorRGBA -> Marker.
Variable normalizeFrameId : string -> string.
Variable setFromAxisAngle : Vector3 -> number -> Quaternion.

Local Abbreviation Node := (Renderable Marker).
Local Abbreviation state := (Scene * Renderable Marker)%type.
Local Abbreviation update :=
  (_updatePoseArrayRenderable AXIS_LENGTH stringToRgba rgbaGradient createArrowMarker
     normalizeFrameId setFromAxisAngle).

(** The line that the rebuild leaves in line mode: the line there was,
    or a new one, with the marker of the message. *)
Lemma rebuild_line_strip (st : state) (poseArray : PoseArray)
    (colorStart colorEnd : ColorRGBA) :
  type (settings st.2) = line ->
  let res := rebuild rgbaGradient st poseArray colorStart colorEnd in
  lineStrip res.2
  = Some {| line_id := match lineStrip st.2 with
                       | Some l => line_id l
                       | None => next_id st.1
                       end;
            line_marker :=
              createLineStripMarker rgbaGradient poseArray (lineWidth (settings st.2))
                colorStart colorEnd |}
  /\ next_id res.1 = next_id st.1 + (match lineStrip st.2 with Some _ => 0 | None => 1 end).
Proof.
  clear AXIS_LENGTH stringToRgba createArrowMarker normalizeFrameId setFromAxisAngle.
  cbv zeta. intros Hty. unfold rebuild.
  pose proof (rebuild_trolley_step Marker st) as (R1 & T1 & A1 & Ar1 & L1). cbv zeta in *.
  set (st1 := if trolley (settings st.2) then removeTrolley st else st) in *.
  assert (S1 : settings st1.2 = settings st.2) by apply R1.
  rewrite S1, Hty.
  pose proof (removeArrows_spec Marker st1) as (R2 & Ar2 & A2 & T2 & L2).
  pose proof (removeAxes_spec Marker (removeArrows st1)) as (R3 & A3 & Ar3 & T3 & L3).
  assert (Rn : next_id (removeAxes (removeArrows st1)).1 = next_id st.1).
  { destruct R1 as (_ & N1 & _). destruct R2 as (_ & N2 & _). destruct R3 as (_ & N3 & _).
    congruence. }
  assert (Rs : settings (removeAxes (removeArrows st1)).2 = settings st.2).
  { destruct R2 as (_ & _ & _ & N2). destruct R3 as (_ & _ & _ & N3). congruence. }
  assert (Rl : lineStrip (removeAxes (removeArrows st1)).2 = lineStrip st.2) by congruence.
  destruct (removeAxes (removeArrows st1)) as [sc3 r3]. cbn [fst snd] in *.
  rewrite Rl. destruct (lineStrip st.2) as [l|] eqn:L; cbn.
  - rewrite Rl. cbn. rewrite Rs. split; [reflexivity|lia].
  - rewrite Rs, Rn. split; [reflexivity|lia].
Qed.

(** The update in line mode. *)
Lemma line_mode_step (st : state) (poseArray : PoseArray) (t : Z)
    (s : LayerSettingsPoseArray) :
  type s = line ->
  type (settings st.2) <> line \/ (arrows st.2 = [] /\ axes st.2 = []) ->
  let res := update st poseArray t s in
  let colorStart := stringToRgba (gradient s).1 in
  let colorEnd := stringToRgba (gradient s).2 in
  axes res.2 = [] /\ arrows res.2 = []
  /\ (exists l,
        lineStrip res.2 = Some l
        /\ line_id l = match lineStrip st.2 with
                       | Some l0 => line_id l0
                       | None => next_id st.1
                       end
        /\ line_marker l
           = createLineStripMarker rgbaGradient poseArray (lineWidth s) colorStart colorEnd
        /\ ls_header (line_marker l) = header poseArray
        /\ ls_width (line_marker l) = lineWidth s
        /\ ls_points (line_marker l) = map position (poses poseArray)
        /\ length (ls_colors (line_marker l)) = length (poses poseArray))
  /\ disposed res.1
     = rev ((if trolley s then trolley_ids st.2 else []) ++ arrows_ids st.2 ++ axes_ids st.2)
         ++ disposed st.1
  /\ settings res.2 = s.
Proof.
  intros Hty Hpre. cbv zeta. destruct st as [sc r]. cbn [fst snd] in Hpre |- *.
  unfold _updatePoseArrayRenderable.
  set (r0 := set_message normalizeFrameId r poseArray t).
  assert (Hc : settingsChanged r0 s (settings r0) = true).
  { destruct Hpre as [Hne|[Ha Hx]].
    - apply settingsChanged_switch. left. rewrite Hty. cbn. congruence.
    - unfold settingsChanged. cbn [r0 set_message arrows axes]. rewrite Ha, Hx.
      cbn. apply orb_true_r. }
  rewrite Hc.
  set (cs := stringToRgba (gradient s).1). set (ce := stringToRgba (gradient s).2).
  pose proof (rebuild_line rgbaGradient Marker (sc, set_settings r0 s) poseArray cs ce)
    as Hr.
  pose proof (rebuild_line_strip (sc, set_settings r0 s) poseArray cs ce) as Hl.
  cbv zeta in Hr, Hl. cbn [fst snd set_settings settings] in Hr, Hl.
  destruct (Hr Hty) as (Rd & Rs & Rar & Ra & Rt & _). destruct (Hl Hty) as (Ll & Ln).
  clear Hr Hl.
  unfold sync_pools.
  pose proof (trolley_pass_frame Marker createArrowMarker setFromAxisAngle
                (rebuild rgbaGradient (sc, set_settings r0 s) poseArray cs ce) poseArray s)
    as H3.
  cbv zeta in H3.
  set (st3 := if trolley s then _ else rebuild _ _ _ _ _) in *.
  destruct H3 as (A3 & Ar3 & L3 & S3 & D3 & _).
  rewrite Hty. destruct st3 as [sc3 r3]. cbn [fst snd] in *.
  cbn [set_lineStrip axes arrows lineStrip settings].
  split; [congruence|]. split; [congruence|].
  split; [|split; [|congruence]].
  - rewrite L3, Ll. cbn [fmap option_fmap option_map line_update line_id line_marker].
    eexists. split; [reflexivity|]. cbn [line_id line_marker].
    split; [reflexivity|]. split; [reflexivity|].
    split; [reflexivity|]. split; [reflexivity|]. split; [reflexivity|].
    unfold line_update. cbn [line_marker]. rewrite line_colors, length_map, length_seq. reflexivity.
  - rewrite D3, Rd. reflexivity.
Qed.

(** X11.  An update in line mode.  When the renderable was not in line
    mode before, or has no axes and no arrows (as it is from its
    construction on and after every update in line mode), the update
    leaves it without axes and arrows, all of which it disposes, and with
    exactly one line strip: the line strip it had, kept and not disposed,
    or else a new object.  The marker of the line is the one built from
    the message: its header is the header of the message, its width the
    configured line width, its vertices the positions of the poses in
    order, with one colour per vertex. *)
Theorem line_mode_update (st : state) (poseArray : PoseArray) (t : Z)
    (s : LayerSettingsPoseArray) :
  type s = line ->
  type (settings st.2) <> line \/ (arrows st.2 = [] /\ axes st.2 = []) ->
  let res := update st poseArray t s in
  let colorStart := stringToRgba (gradient s).1 in
  let colorEnd := stringToRgba (gradient s).2 in
  axes res.2 = [] /\ arrows res.2 = []
  /\ (exists l,
        lineStrip res.2 = Some l
        /\ line_id l = match lineStrip st.2 with
                       | Some l0 => line_id l0
                       | None => next_id st.1
                       end
        /\ line_marker l
           = createLineStripMarker rgbaGradient poseArray (lineWidth s) colorStart colorEnd
        /\ ls_header (line_marker l) = header poseArray
        /\ ls_width (line_marker l) = lineWidth s
        /\ ls_points (line_marker l) = map position (poses poseArray)
        /\ length (ls_colors (line_marker l)) = length (poses poseArray))
  /\ disposed res.1
     = rev ((if trolley s then trolley_ids st.2 else []) ++ arrows_ids st.2 ++ axes_ids st.2)
         ++ disposed st.1
  /\ settings res.2 = s.
Proof. exact (line_mode_step st poseArray t s). Qed.

End LineMode.

Section LoopInv.

Context {S : Type}.

(** Two bodies that agree on the states an invariant describes give the
    same loop. *)
Lemma for_range_ext_inv (P : S -> Prop) (lo hi : nat) (body body' : nat -> S -> S) (s : S) :
  P s ->
  (forall i x, lo <= i < hi -> P x -> body i x = body' i x /\ P (body' i x)) ->
  Js.for_range lo hi body s = Js.for_range lo hi body' s
  /\ P (Js.for_range lo hi body' s).
Proof.
  intros Hs. induction hi as [|hi IH]; intros H.
  - rewrite !for_range_empty by lia. split; [reflexivity|exact Hs].
  - destruct (le_lt_dec (Datatypes.S hi) lo) as [Hge|Hlt].
    + rewrite !for_range_empty by lia. split; [reflexivity|exact Hs].
    + rewrite !for_range_S by lia.
      destruct IH as [E Hp]; [intros i x Hi; apply H; lia|].
      rewrite E. apply H; [lia|exact Hp].
Qed.

End LoopInv.

Section TrolleyPool.

Import PoseArrays TrolleyData.

Variable Marker : Type.
Variable createArrowMarker : number * number * number -> ColorRGBA -> Marker.
Variable setFromAxisAngle : Vector3 -> number -> Quaternion.

Local Abbreviation Node := (Renderable Marker).
Local Abbreviation state := (Scene * Renderable Marker)%type.
Local Abbreviation sync_trolley := (_createTrolleyArrowsToMatchPoses createArrowMarker).

Lemma trolley_marker_data (r r' : Node) :
  trolley_data r' = trolley_data r ->
  trolley_marker createArrowMarker r' = trolley_marker createArrowMarker r.
Proof. unfold trolley_data, trolley_marker. intros [= _ _ ->]. reflexivity. Qed.

Lemma create_trolley_loop (marker : Marker) (lo hi : nat) (sc : Scene) (r : Node) :
  let res :=
    Js.for_range lo hi
      (fun (i : nat) (st : state) =>
         let '(sc, r) := st in
         let a := new_RenderableArrow (next_id sc) marker in
         let sc := alloc sc in
         let r := set_trolley_arrows r (trolley_arrows r ++ [a]) in
         let r := add_child r (arrow_id a) in
         (sc, r))
      (sc, r) in
  trolley_arrows res.2
  = trolley_arrows r
    ++ map (fun j => new_RenderableArrow (next_id sc + j) marker) (seq 0 (hi - lo))
  /\ next_id res.1 = next_id sc + (hi - lo)
  /\ trolley_data res.2 = trolley_data r.
Proof.
  cbv zeta. induction hi as [|hi IH].
  - rewrite for_range_empty by lia. cbn.
    rewrite !app_nil_r, Nat.add_0_r. repeat split.
  - destruct (le_lt_dec (S hi) lo) as [Hge|Hlt].
    + rewrite for_range_empty by lia. replace (S hi - lo) with 0 by lia. cbn.
      rewrite !app_nil_r, Nat.add_0_r. repeat split.
    + rewrite for_range_S by lia.
      destruct IH as (Ha & Hn & Hd).
      destruct (Js.for_range lo hi _ (sc, r)) as [sc1 r1]. cbn in *.
      replace (S hi - lo) with (S (hi - lo)) by lia.
      rewrite seq_S, !map_app, !app_assoc. cbn.
      rewrite Ha, Hn. repeat split; try assumption; try lia.
Qed.

(** The pool of trolley arrows after
    [_createTrolleyArrowsToMatchPoses]. *)
Lemma sync_trolley_spec (sc : Scene) (r : Node) (poseArray : PoseArray) :
  let count := length (poses poseArray) in
  let len := length (trolley_arrows r) in
  let marker := trolley_marker createArrowMarker r in
  let res := sync_trolley (sc, r) poseArray in
  (forall j,
     trolley_arrows res.2 !! j
     = if decide (j < len)
       then (if decide (j < count) then arrow_show marker else arrow_hide)
              <$> trolley_arrows r !! j
       else if decide (j < count)
            then Some (new_RenderableArrow (next_id sc + (j - len)) marker)
            else None)
  /\ next_id res.1 = next_id sc + (count - len)
  /\ trolley_data res.2 = trolley_data r.
Proof.
  cbv zeta. unfold _createTrolleyArrowsToMatchPoses. cbv zeta.
  set (marker := trolley_marker createArrowMarker r).
  set (count := length (poses poseArray)).
  (* first loop *)
  destruct (for_range_ext_inv (fun x : Node => trolley_data x = trolley_data r)
              0 (min (length (trolley_arrows r)) count)
              (fun i (x : Node) =>
                 set_trolley_arrows x
                   (alter (arrow_show (trolley_marker createArrowMarker x)) i
                      (trolley_arrows x)))
              (fun i (x : Node) =>
                 set_trolley_arrows x (alter (arrow_show marker) i (trolley_arrows x)))
              r eq_refl) as [E1 D1].
  { intros i x _ Hx. rewrite (trolley_marker_data r x Hx). split; [reflexivity|exact Hx]. }
  rewrite E1. clear E1.
  set (r1 := Js.for_range 0 (min (length (trolley_arrows r)) count) _ r) in *.
  assert (A1 : trolley_arrows r1
               = Js.for_range 0 (min (length (trolley_arrows r)) count)
                   (fun i l => alter (arrow_show marker) i l) (trolley_arrows r)).
  { apply (for_range_field trolley_arrows set_trolley_arrows
             (fun i l => alter (arrow_show marker) i l)).
    reflexivity. }
  assert (L1 : length (trolley_arrows r1) = length (trolley_arrows r)).
  { rewrite A1. apply alter_loop_length. }
  (* second loop *)
  destruct (for_range_ext_inv (fun st : state => trolley_data st.2 = trolley_data r)
              (length (trolley_arrows r1)) count
              (fun (i : nat) (st : state) =>
                 let '(sc, r) := st in
                 let a := new_RenderableArrow (next_id sc)
                            (trolley_marker createArrowMarker r) in
                 let sc := alloc sc in
                 let r := set_trolley_arrows r (trolley_arrows r ++ [a]) in
                 let r := add_child r (arrow_id a) in
                 (sc, r))
              (fun (i : nat) (st : state) =>
                 let '(sc, r) := st in
                 let a := new_RenderableArrow (next_id sc) marker in
                 let sc := alloc sc in
                 let r := set_trolley_arrows r (trolley_arrows r ++ [a]) in
                 let r := add_child r (arrow_id a) in
                 (sc, r))
              (sc, r1) D1) as [E2 D2].
  { intros i [sc' x] _ Hx. cbn [snd] in Hx. rewrite (trolley_marker_data r x Hx).
    split; [reflexivity|exact Hx]. }
  cbv zeta in E2, D2. rewrite E2. clear E2.
  pose proof (create_trolley_loop marker (length (trolley_arrows r1)) count sc r1)
    as (A2 & N2 & _).
  cbv zeta in A2, N2.
  destruct (Js.for_range (length (trolley_arrows r1)) count _ (sc, r1)) as [sc2 r2].
  cbn [fst snd] in *.
  set (r3 := Js.for_range count (length (trolley_arrows r2)) _ r2).
  assert (A3 : trolley_arrows r3
               = Js.for_range count (length (trolley_arrows r2))
                   (fun i l => alter arrow_hide i l) (trolley_arrows r2)).
  { apply (for_range_field trolley_arrows set_trolley_arrows
             (fun i l => alter arrow_hide i l)).
    reflexivity. }
  assert (L2 : length (trolley_arrows r2) = max (length (trolley_arrows r)) count).
  { rewrite A2, length_app, length_map, length_seq. lia. }
  assert (D3 : trolley_data r3 = trolley_data r2).
  { apply (for_range_frame trolley_data set_trolley_arrows
             (fun i (s : Node) => alter arrow_hide i (trolley_arrows s))).
    reflexivity. }
  split; [|split].
  - intros j. rewrite A3, alter_loop_lookup, L2.
    destruct (decide (j < length (trolley_arrows r))) as [Hj|Hj].
    + rewrite A2, lookup_app_l by lia. rewrite A1, alter_loop_lookup.
      repeat case_decide; try lia; reflexivity.
    + rewrite A2, lookup_app_r by lia. rewrite L1.
      rewrite list_lookup_fmap.
      destruct (decide (j < count)) as [Hc|Hc].
      * rewrite lookup_seq_lt by lia. rewrite decide_False by lia. cbn. reflexivity.
      * rewrite lookup_seq_ge by lia. repeat case_decide; reflexivity.
  - rewrite N2, L1. reflexivity.
  - congruence.
Qed.

(** The trolley arrows after the loop of [setObjectPoseTrolley]. *)
Lemma place_trolley_spec (r : Node) (ps : list Pose) :
  (forall j,
     trolley_arrows (place_trolley setFromAxisAngle r ps) !! j
     = match ps !! j with
       | Some p =>
           arrow_set_pose (position p) (trolley_heading setFromAxisAngle r j)
             <$> trolley_arrows r !! j
       | None => trolley_arrows r !! j
       end)
  /\ trolley_data (place_trolley setFromAxisAngle r ps) = trolley_data r.
Proof.
  set (f := fun i : nat =>
              match ps !! i with
              | Some p =>
                  arrow_set_pose (Marker := Marker) (position p)
                    (trolley_heading setFromAxisAngle r i)
              | None => id
              end).
  destruct (for_range_ext_inv (fun x : Node => trolley_data x = trolley_data r)
              0 (length ps)
              (fun i (r : Node) =>
                 match ps !! i with
                 | Some p =>
                     set_trolley_arrows r
                       (alter (arrow_set_pose (position p)
                                 (trolley_heading setFromAxisAngle r i)) i
                          (trolley_arrows r))
                 | None => r
                 end)
              (fun i (s : Node) => set_trolley_arrows s (alter (f i) i (trolley_arrows s)))
              r eq_refl) as [E D].
  { intros i x Hi Hx. unfold f.
    destruct (lookup_lt_is_Some_2 ps i ltac:(lia)) as [p ->].
    assert (Hh : trolley_heading setFromAxisAngle x i = trolley_heading setFromAxisAngle r i).
    { unfold trolley_heading. unfold trolley_data in Hx. injection Hx as -> -> _.
      reflexivity. }
    rewrite Hh. split; [reflexivity|exact Hx]. }
  unfold place_trolley. rewrite E. split; [|exact D].
  intros j.
  rewrite (for_range_field trolley_arrows set_trolley_arrows (fun i l => alter (f i) i l))
    by reflexivity.
  rewrite alter_loop_lookup. unfold f.
  destruct (decide (0 <= j < length ps)) as [Hj|Hj].
  - destruct (lookup_lt_is_Some_2 ps j ltac:(lia)) as [p ->]. reflexivity.
  - rewrite (lookup_ge_None_2 ps j) by lia. reflexivity.
Qed.

Lemma release_fold_data {X : Type} (idf : X -> nat) (l : list X) (st : state) :
  trolley_data (foldl (fun st a => release st (idf a)) st l).2 = trolley_data st.2.
Proof.
  revert st. induction l as [|a l IH]; intros [sc r]; [reflexivity|].
  cbn [foldl]. rewrite IH. reflexivity.
Qed.

Lemma remove_data (st : state) :
  trolley_data (removeArrows st).2 = trolley_data st.2
  /\ trolley_data (removeAxes st).2 = trolley_data st.2
  /\ trolley_data (removeTrolley st).2 = trolley_data st.2
  /\ trolley_data (removeLineStrip st).2 = trolley_data st.2.
Proof.
  unfold removeArrows, removeAxes, removeTrolley, removeLineStrip.
  split; [|split; [|split]].
  - pose proof (release_fold_data (arrow_id (Marker := Marker)) (arrows st.2) st) as H.
    destruct (foldl _ st (arrows st.2)) as [sc r]. exact H.
  - pose proof (release_fold_data axis_id (axes st.2) st) as H.
    destruct (foldl _ st (axes st.2)) as [sc r]. exact H.
  - pose proof (release_fold_data (arrow_id (Marker := Marker)) (trolley_arrows st.2) st) as H.
    destruct (foldl _ st (trolley_arrows st.2)) as [sc r]. exact H.
  - destruct st as [sc r]. cbn [snd]. destruct (lineStrip r) as [l|]; reflexivity.
Qed.

Variable rgbaGradient : ColorRGBA -> ColorRGBA -> number -> ColorRGBA.

Lemma rebuild_line_strip_next (st : state) (poseArray : PoseArray)
    (colorStart colorEnd : ColorRGBA) :
  type (settings st.2) = line ->
  next_id st.1 <= next_id (rebuild rgbaGradient st poseArray colorStart colorEnd).1.
Proof.
  intros Hty. unfold rebuild.
  pose proof (rebuild_trolley_step Marker st) as (R1 & _). cbv zeta in *.
  set (st1 := if trolley (settings st.2) then removeTrolley st else st) in *.
  assert (S1 : settings st1.2 = settings st.2) by apply R1.
  rewrite S1, Hty.
  pose proof (removeArrows_spec Marker st1) as (R2 & _).
  pose proof (removeAxes_spec Marker (removeArrows st1)) as (R3 & _).
  assert (Rn : next_id (removeAxes (removeArrows st1)).1 = next_id st.1).
  { destruct R1 as (_ & N1 & _). destruct R2 as (_ & N2 & _). destruct R3 as (_ & N3 & _).
    congruence. }
  destruct (removeAxes (removeArrows st1)) as [sc3 r3]. cbn [fst snd] in *.
  destruct (lineStrip r3); cbn; lia.
Qed.

(** The rebuild keeps the data of the trolley attachment, allocates at
    most the line and, with the attachment on, empties the pool of
    trolley arrows. *)
Lemma rebuild_trolley_on (st : state) (poseArray : PoseArray)
    (colorStart colorEnd : ColorRGBA) :
  let res := rebuild rgbaGradient st poseArray colorStart colorEnd in
  trolley_data res.2 = trolley_data st.2
  /\ next_id st.1 <= next_id res.1
  /\ (trolley (settings st.2) = true -> trolley_arrows res.2 = []).
Proof.
  cbv zeta.
  assert (Hd : trolley_data (rebuild rgbaGradient st poseArray colorStart colorEnd).2
               = trolley_data st.2).
  { unfold rebuild.
    set (st1 := if trolley (settings st.2) then removeTrolley st else st).
    assert (D1 : trolley_data st1.2 = trolley_data st.2).
    { unfold st1. destruct (trolley (settings st.2)); [apply remove_data|reflexivity]. }
    destruct (type (settings st1.2)).
    - destruct (remove_data (removeArrows st1)) as (_ & _ & _ & ->).
      destruct (remove_data st1) as (-> & _). exact D1.
    - destruct (remove_data (removeAxes st1)) as (_ & _ & _ & ->).
      destruct (remove_data st1) as (_ & -> & _). exact D1.
    - pose proof (remove_data (removeArrows st1)) as (_ & D3 & _).
      pose proof (remove_data st1) as (D2 & _).
      destruct (removeAxes (removeArrows st1)) as [sc3 r3]. cbn [snd] in D3.
      destruct (lineStrip r3); cbn; unfold trolley_data in *; cbn; congruence. }
  split; [exact Hd|].
  assert (Hdec : type (settings st.2) = line \/ type (settings st.2) <> line)
    by (destruct (type (settings st.2)); [right|right|left]; congruence).
  destruct Hdec as [Hl|Hn].
  - pose proof (rebuild_line rgbaGradient Marker st poseArray colorStart colorEnd) as H.
    pose proof (rebuild_line_strip_next st poseArray colorStart colorEnd) as H'.
    cbv zeta in H, H'. destruct (H Hl) as (_ & _ & _ & _ & Ht & _).
    split; [specialize (H' Hl); lia|]. intros Htr. rewrite Ht, Htr. reflexivity.
  - pose proof (rebuild_pools rgbaGradient Marker st poseArray colorStart colorEnd) as H.
    cbv zeta in H. destruct (H Hn) as ((_ & Hnx & _) & _ & _ & Ht & _).
    split; [lia|]. intros Htr. rewrite Ht, Htr. reflexivity.
Qed.

End TrolleyPool.

Section TrolleyUpdate.

Import PoseArrays TrolleyData.

Variable AXIS_LENGTH : number.
Variable stringToRgba : string -> ColorRGBA.
Variable rgbaGradient : ColorRGBA -> ColorRGBA -> number -> ColorRGBA.
Variable Marker : Type.
Variable createArrowMarker : number * number * number -> ColorRGBA -> Marker.
Variable normalizeFrameId : string -> string.
Variable setFromAxisAngle : Vector3 -> number -> Quaternion.

Local Abbreviation Node := (Renderable Marker).
Local Abbreviation state := (Scene * Renderable Marker)%type.
Local Abbreviation update :=
  (_updatePoseArrayRenderable AXIS_LENGTH stringToRgba rgbaGradient createArrowMarker
     normalizeFrameId setFromAxisAngle).

(** The pass over the pool of the display mode leaves the trolley
    arrows as the pass over the trolley arrows made them. *)
Lemma sync_pools_trolley (st : state) (poseArray : PoseArray) (s : LayerSettingsPoseArray)
    (colorStart colorEnd : ColorRGBA) :
  trolley s = true ->
  let res :=
    sync_pools AXIS_LENGTH rgbaGradient createArrowMarker setFromAxisAngle
      st poseArray s colorStart colorEnd in
  let st3 := _createTrolleyArrowsToMatchPoses createArrowMarker st poseArray in
  trolley_arrows res.2
  = trolley_arrows (place_trolley setFromAxisAngle st3.2 (poses poseArray)).
Proof.
  intros Htr. cbv zeta. unfold sync_pools. rewrite Htr.
  destruct (_createTrolleyArrowsToMatchPoses createArrowMarker st poseArray) as [sc3 r3].
  cbn [fst snd].
  set (r4 := place_trolley setFromAxisAngle r3 (poses poseArray)).
  destruct (type s).
  - pose proof (sync_axes_spec AXIS_LENGTH Marker sc3 r4 poseArray)
      as (_ & _ & _ & _ & _ & Ht & _).
    cbv zeta in Ht.
    destruct (_createAxesToMatchPoses AXIS_LENGTH (sc3, r4) poseArray) as [sc5 r5].
    cbn [fst snd] in Ht |- *.
    pose proof (place_axes_spec Marker r5 (poses poseArray)) as (_ & _ & Ht5 & _).
    congruence.
  - pose proof (sync_arrows_spec rgbaGradient Marker createArrowMarker sc3 r4 poseArray
                  colorStart colorEnd) as (_ & _ & _ & _ & _ & Ht & _).
    cbv zeta in Ht.
    destruct (_createArrowsToMatchPoses rgbaGradient createArrowMarker (sc3, r4) poseArray
                colorStart colorEnd) as [sc5 r5].
    cbn [fst snd] in Ht |- *.
    pose proof (place_arrows_spec Marker r5 (poses poseArray)) as (_ & _ & Ht5 & _).
    congruence.
  - reflexivity.
Qed.

(** The pool of trolley arrows after an update with the attachment on. *)
Lemma trolley_pass_spec (st : state) (poseArray : PoseArray) (t : Z)
    (s : LayerSettingsPoseArray) :
  trolley s = true ->
  let res := update st poseArray t s in
  let N := length (poses poseArray) in
  let blue := {| c_r := Js.zero; c_g := Js.zero; c_b := Js.one; c_a := Js.one |} in
  let changed := settingsChanged (Marker := Marker) st.2 s (settings st.2) in
  (forall i p, poses poseArray !! i = Some p ->
     exists a,
       trolley_arrows res.2 !! i = Some a
       /\ arrow_visible a = true
       /\ arrow_position a = position p
       /\ arrow_quaternion a
          = setFromAxisAngle {| v_x := Js.zero; v_y := Js.zero; v_z := Js.one |}
              (Js.add (Js.add (Js.nullish (robot_angle st.2 !! i) Js.NaN)
                         (Js.nullish (trolley_numbers st.2 !! i) Js.NaN)) PI)
       /\ arrow_marker a
          = createArrowMarker (trolley_length st.2, lit_0_025, lit_0_025) blue)
  /\ (forall i a, N <= i -> trolley_arrows res.2 !! i = Some a -> arrow_visible a = false)
  /\ length (filter (fun a => arrow_visible a = true) (trolley_arrows res.2)) = N
  /\ (changed = true ->
      length (trolley_arrows res.2) = N
      /\ forall i a, trolley_arrows res.2 !! i = Some a -> next_id st.1 <= arrow_id a)
  /\ (changed = false ->
      forall i a0, trolley_arrows st.2 !! i = Some a0 ->
      arrow_id <$> trolley_arrows res.2 !! i = Some (arrow_id a0)).
Proof.
  intros Htr. cbv zeta. destruct st as [sc r]. cbn [fst snd].
  unfold _updatePoseArrayRenderable.
  set (r0 := set_message normalizeFrameId r poseArray t).
  change (settingsChanged r0 s (settings r0)) with (settingsChanged r s (settings r)).
  set (changed := settingsChanged r s (settings r)).
  set (cs := stringToRgba (gradient s).1). set (ce := stringToRgba (gradient s).2).
  set (st2 := if changed then rebuild rgbaGradient (sc, set_settings r0 s) poseArray cs ce
              else (sc, set_settings r0 s)).
  assert (H2 : trolley_data st2.2 = trolley_data r
               /\ next_id sc <= next_id st2.1
               /\ trolley_arrows st2.2 = (if changed then [] else trolley_arrows r)).
  { unfold st2. destruct changed.
    - pose proof (rebuild_trolley_on Marker rgbaGradient (sc, set_settings r0 s) poseArray
                    cs ce) as (A & B & C).
      cbv zeta in A, B, C. split; [exact A|]. split; [exact B|]. apply C. exact Htr.
    - repeat split. cbn. lia. }
  destruct H2 as (D2 & N2 & T2).
  rewrite (sync_pools_trolley st2 poseArray s cs ce Htr). cbv zeta.
  pose proof (sync_trolley_spec Marker createArrowMarker st2.1 st2.2 poseArray)
    as (L3 & N3 & D3).
  cbv zeta in L3, N3, D3. rewrite <- surjective_pairing in L3, N3, D3.
  destruct (_createTrolleyArrowsToMatchPoses createArrowMarker st2 poseArray) as [sc3 r3].
  cbn [fst snd] in L3, N3, D3 |- *.
  pose proof (place_trolley_spec Marker setFromAxisAngle r3 (poses poseArray)) as (L4 & D4).
  set (r4 := place_trolley setFromAxisAngle r3 (poses poseArray)) in *.
  assert (Hm : trolley_marker createArrowMarker st2.2
               = createArrowMarker (trolley_length r, lit_0_025, lit_0_025)
                   {| c_r := Js.zero; c_g := Js.zero; c_b := Js.one; c_a := Js.one |}).
  { unfold trolley_marker. unfold trolley_data in D2. injection D2 as _ _ ->. reflexivity. }
  assert (Hh : forall i,
            trolley_heading setFromAxisAngle r3 i
            = setFromAxisAngle {| v_x := Js.zero; v_y := Js.zero; v_z := Js.one |}
                (Js.add (Js.add (Js.nullish (robot_angle r !! i) Js.NaN)
                           (Js.nullish (trolley_numbers r !! i) Js.NaN)) PI)).
  { intros i. unfold trolley_heading.
    assert (D : trolley_data r3 = trolley_data r) by congruence.
    unfold trolley_data in D. injection D as -> -> _. reflexivity. }
  (* the arrow at each index *)
  assert (Hat : forall i,
            trolley_arrows r4 !! i
            = match poses poseArray !! i with
              | Some p =>
                  arrow_set_pose (position p) (trolley_heading setFromAxisAngle r3 i)
                    <$> (if decide (i < length (trolley_arrows st2.2))
                         then arrow_show (trolley_marker createArrowMarker st2.2)
                                <$> trolley_arrows st2.2 !! i
                         else Some (new_RenderableArrow
                                      (next_id st2.1 + (i - length (trolley_arrows st2.2)))
                                      (trolley_marker createArrowMarker st2.2)))
              | None =>
                  if decide (i < length (trolley_arrows st2.2))
                  then arrow_hide <$> trolley_arrows st2.2 !! i
                  else None
              end).
  { intros i. rewrite L4, L3.
    destruct (poses poseArray !! i) as [p|] eqn:P.
    - pose proof (lookup_lt_Some _ _ _ P) as Hi.
      rewrite (decide_True (P := i < length (poses poseArray))) by exact Hi.
      rewrite (decide_True (P := i < length (poses poseArray))) by exact Hi.
      reflexivity.
    - pose proof (lookup_ge_None_1 _ _ P) as Hi.
      rewrite (decide_False (P := i < length (poses poseArray))) by lia.
      rewrite (decide_False (P := i < length (poses poseArray))) by lia.
      reflexivity. }
  assert (Hvis : forall i a, trolley_arrows r4 !! i = Some a ->
                   arrow_visible a = bool_decide (i < length (poses poseArray))).
  { intros i a Ha. rewrite Hat in Ha.
    destruct (poses poseArray !! i) as [p|] eqn:P.
    - rewrite bool_decide_true by (eapply lookup_lt_Some; exact P).
      destruct (decide (i < length (trolley_arrows st2.2))).
      + destruct (trolley_arrows st2.2 !! i); [|discriminate]. injection Ha as <-. reflexivity.
      + injection Ha as <-. reflexivity.
    - rewrite bool_decide_false by (apply lookup_ge_None_1 in P; lia).
      destruct (decide (i < length (trolley_arrows st2.2))); [|discriminate].
      destruct (trolley_arrows st2.2 !! i); [|discriminate]. injection Ha as <-. reflexivity. }
  split; [|split; [|split; [|split]]].
  - intros i p P. rewrite Hat, P, Hh, Hm.
    destruct (decide (i < length (trolley_arrows st2.2))) as [Hi|Hi].
    + destruct (lookup_lt_is_Some_2 _ _ Hi) as [a0 ->]. cbn.
      eexists. split; [reflexivity|]. repeat split.
    + cbn. eexists. split; [reflexivity|]. repeat split.
  - intros i a Hi Ha. rewrite (Hvis i a Ha). apply bool_decide_false. lia.
  - apply count_prefix.
    + destruct (le_lt_dec (length (poses poseArray)) (length (trolley_arrows r4)))
        as [Hle|Hlt]; [exact Hle|].
      destruct (lookup_lt_is_Some_2 (poses poseArray) (length (trolley_arrows r4)) Hlt)
        as [p P].
      pose proof (Hat (length (trolley_arrows r4))) as Hx. rewrite P in Hx.
      rewrite (lookup_ge_None_2 (trolley_arrows r4)) in Hx by lia.
      destruct (decide (length (trolley_arrows r4) < length (trolley_arrows st2.2)))
        as [Hi|Hi].
      * destruct (lookup_lt_is_Some_2 _ _ Hi) as [a0 E]. rewrite E in Hx. discriminate.
      * discriminate.
    + exact Hvis.
  - intros Hc. fold changed in T2. rewrite Hc in T2. rewrite T2 in Hat. cbn in Hat.
    split.
    + apply Nat.le_antisymm.
      * destruct (le_lt_dec (length (trolley_arrows r4)) (length (poses poseArray)))
          as [Hle|Hlt]; [exact Hle|].
        destruct (lookup_lt_is_Some_2 (trolley_arrows r4) (length (poses poseArray)) Hlt)
          as [a A].
        rewrite Hat, (lookup_ge_None_2 (poses poseArray)) in A by lia. discriminate.
      * destruct (le_lt_dec (length (poses poseArray)) (length (trolley_arrows r4)))
          as [Hle|Hlt]; [exact Hle|].
        destruct (lookup_lt_is_Some_2 (poses poseArray) (length (trolley_arrows r4)) Hlt)
          as [p P].
        pose proof (Hat (length (trolley_arrows r4))) as Hx. rewrite P in Hx.
        rewrite (lookup_ge_None_2 (trolley_arrows r4)) in Hx by lia. discriminate.
    + intros i a A. rewrite Hat in A.
      destruct (poses poseArray !! i); [|discriminate].
      injection A as <-. cbn. lia.
  - intros Hc i a0 A0. fold changed in T2. rewrite Hc in T2. rewrite T2 in Hat.
    rewrite Hat. pose proof (lookup_lt_Some _ _ _ A0) as Hi.
    destruct (decide (i < length (trolley_arrows r))) as [_|Hn]; [|lia]. rewrite A0.
    destruct (poses poseArray !! i); reflexivity.
Qed.

(** X12.  The trolley arrows of an update with the trolley attachment on,
    in every display mode.  For each pose of the message the pool of
    trolley arrows holds, at the index of the pose, a visible arrow
    placed at the position of the pose, whose marker is the blue arrow
    of the length of the trolley and whose heading is the rotation about
    the z axis by robot_angle[i] + trolley_numbers[i] + pi; an angle
    that the renderable does not hold for the index is [undefined], and
    the heading is then the rotation by NaN.  The arrows beyond the
    poses are invisible, so that the visible trolley arrows are as many
    as the poses.  When the settings changed (or the renderable has
    neither axes nor arrows) the former trolley arrows were released and
    all the arrows are new objects; otherwise the arrows there were are
    the ones used. *)
Theorem trolley_arrows_follow_poses (st : state) (poseArray : PoseArray) (t : Z)
    (s : LayerSettingsPoseArray) :
  trolley s = true ->
  let res := update st poseArray t s in
  let N := length (poses poseArray) in
  let blue := {| c_r := Js.zero; c_g := Js.zero; c_b := Js.one; c_a := Js.one |} in
  let changed := settingsChanged (Marker := Marker) st.2 s (settings st.2) in
  (forall i p, poses poseArray !! i = Some p ->
     exists a,
       trolley_arrows res.2 !! i = Some a
       /\ arrow_visible a = true
       /\ arrow_position a = position p
       /\ arrow_quaternion a
          = setFromAxisAngle {| v_x := Js.zero; v_y := Js.zero; v_z := Js.one |}
              (Js.add (Js.add (Js.nullish (robot_angle st.2 !! i) Js.NaN)
                         (Js.nullish (trolley_numbers st.2 !! i) Js.NaN)) PI)
       /\ arrow_marker a
          = createArrowMarker (trolley_length st.2, lit_0_025, lit_0_025) blue)
  /\ (forall i a, N <= i -> trolley_arrows res.2 !! i = Some a -> arrow_visible a = false)
  /\ length (filter (fun a => arrow_visible a = true) (trolley_arrows res.2)) = N
  /\ (changed = true ->
      length (trolley_arrows res.2) = N
      /\ forall i a, trolley_arrows res.2 !! i = Some a -> next_id st.1 <= arrow_id a)
  /\ (changed = false ->
      forall i a0, trolley_arrows st.2 !! i = Some a0 ->
      arrow_id <$> trolley_arrows res.2 !! i = Some (arrow_id a0)).
Proof. exact (trolley_pass_spec st poseArray t s). Qed.

End TrolleyUpdate.

Section PoolRelease.

Import PoseArrays.

Variable Marker : Type.

Local Abbreviation Node := (Renderable Marker).
Local Abbreviation state := (Scene * Renderable Marker)%type.

Lemma set_axes_same (r : Node) : set_axes r (axes r) = r.
Proof. destruct r; reflexivity. Qed.
Lemma set_arrows_same (r : Node) : set_arrows r (arrows r) = r.
Proof. destruct r; reflexivity. Qed.
Lemma set_trolley_arrows_same (r : Node) : set_trolley_arrows r (trolley_arrows r) = r.
Proof. destruct r; reflexivity. Qed.

(** X13.  Releasing a pool.  [removeAxes] calls [dispose()] on every axis
    of the pool once, in pool order, detaches exactly these objects from
    the node, empties the pool and touches neither the other pools nor
    the line; a second call finds nothing to release and changes
    nothing.  [removeArrows], [removeTrolley] and [removeLineStrip] do
    the same for the arrows, the trolley arrows and the line. *)
Theorem pool_release_is_idempotent (st : state) :
  (disposed (removeAxes st).1 = rev (axes_ids st.2) ++ disposed st.1
   /\ (forall c, c ∈ children (removeAxes st).2 <-> c ∈ children st.2 /\ c ∉ axes_ids st.2)
   /\ axes (removeAxes st).2 = []
   /\ arrows (removeAxes st).2 = arrows st.2
   /\ trolley_arrows (removeAxes st).2 = trolley_arrows st.2
   /\ lineStrip (removeAxes st).2 = lineStrip st.2
   /\ removeAxes (removeAxes st) = removeAxes st)
  /\ (disposed (removeArrows st).1 = rev (arrows_ids st.2) ++ disposed st.1
      /\ (forall c, c ∈ children (removeArrows st).2
                    <-> c ∈ children st.2 /\ c ∉ arrows_ids st.2)
      /\ arrows (removeArrows st).2 = []
      /\ axes (removeArrows st).2 = axes st.2
      /\ trolley_arrows (removeArrows st).2 = trolley_arrows st.2
      /\ lineStrip (removeArrows st).2 = lineStrip st.2
      /\ removeArrows (removeArrows st) = removeArrows st)
  /\ (disposed (removeTrolley st).1 = rev (trolley_ids st.2) ++ disposed st.1
      /\ (forall c, c ∈ children (removeTrolley st).2
                    <-> c ∈ children st.2 /\ c ∉ trolley_ids st.2)
      /\ trolley_arrows (removeTrolley st).2 = []
      /\ axes (removeTrolley st).2 = axes st.2
      /\ arrows (removeTrolley st).2 = arrows st.2
      /\ lineStrip (removeTrolley st).2 = lineStrip st.2
      /\ removeTrolley (removeTrolley st) = removeTrolley st)
  /\ (disposed (removeLineStrip st).1 = rev (line_ids st.2) ++ disposed st.1
      /\ (forall c, c ∈ children (removeLineStrip st).2
                    <-> c ∈ children st.2 /\ c ∉ line_ids st.2)
      /\ lineStrip (removeLineStrip st).2 = None
      /\ axes (removeLineStrip st).2 = axes st.2
      /\ arrows (removeLineStrip st).2 = arrows st.2
      /\ trolley_arrows (removeLineStrip st).2 = trolley_arrows st.2
      /\ removeLineStrip (removeLineStrip st) = removeLineStrip st).
Proof.
  split; [|split; [|split]].
  - pose proof (removeAxes_spec Marker st) as ((Hd & _ & Hc & _) & Ha & Har & Ht & Hl).
    repeat (split; [assumption|]).
    unfold removeAxes at 1. rewrite Ha. cbn [foldl].
    destruct (removeAxes st) as [sc r]. cbn [snd] in Ha. rewrite <- Ha, set_axes_same.
    reflexivity.
  - pose proof (removeArrows_spec Marker st) as ((Hd & _ & Hc & _) & Ha & Har & Ht & Hl).
    repeat (split; [assumption|]).
    unfold removeArrows at 1. rewrite Ha. cbn [foldl].
    destruct (removeArrows st) as [sc r]. cbn [snd] in Ha. rewrite <- Ha, set_arrows_same.
    reflexivity.
  - pose proof (removeTrolley_spec Marker st) as ((Hd & _ & Hc & _) & Ha & Har & Ht & Hl).
    repeat (split; [assumption|]).
    unfold removeTrolley at 1. rewrite Ha. cbn [foldl].
    destruct (removeTrolley st) as [sc r]. cbn [snd] in Ha.
    rewrite <- Ha, set_trolley_arrows_same. reflexivity.
  - pose proof (removeLineStrip_spec Marker st) as ((Hd & _ & Hc & _) & Ha & Har & Ht & Hl).
    repeat (split; [assumption|]).
    unfold removeLineStrip at 1. rewrite Ha. reflexivity.
Qed.

End PoolRelease.

Section UpdateMeta.

Import PoseArrays PoseMeta.

Variable AXIS_LENGTH : number.
Variable stringToRgba : string -> ColorRGBA.
Variable rgbaGradient : ColorRGBA -> ColorRGBA -> number -> ColorRGBA.
Variable Marker : Type.
Variable createArrowMarker : number * number * number -> ColorRGBA -> Marker.
Variable normalizeFrameId : string -> string.
Variable setFromAxisAngle : Vector3 -> number -> Quaternion.

Local Abbreviation Node := (Renderable Marker).
Local Abbreviation state := (Scene * Renderable Marker)%type.
Local Abbreviation update :=
  (_updatePoseArrayRenderable AXIS_LENGTH stringToRgba rgbaGradient createArrowMarker
     normalizeFrameId setFromAxisAngle).

Lemma release_fold_meta {X : Type} (idf : X -> nat) (l : list X) (st : state) :
  meta (foldl (fun st a => release st (idf a)) st l).2 = meta st.2.
Proof.
  revert st. induction l as [|a l IH]; intros [sc r]; [reflexivity|].
  cbn [foldl]. rewrite IH. reflexivity.
Qed.

Lemma remove_meta (st : state) :
  meta (removeArrows st).2 = meta st.2
  /\ meta (removeAxes st).2 = meta st.2
  /\ meta (removeTrolley st).2 = meta st.2
  /\ meta (removeLineStrip st).2 = meta st.2.
Proof.
  unfold removeArrows, removeAxes, removeTrolley, removeLineStrip.
  split; [|split; [|split]].
  - pose proof (release_fold_meta (arrow_id (Marker := Marker)) (arrows st.2) st) as H.
    destruct (foldl _ st (arrows st.2)) as [sc r]. exact H.
  - pose proof (release_fold_meta axis_id (axes st.2) st) as H.
    destruct (foldl _ st (axes st.2)) as [sc r]. exact H.
  - pose proof (release_fold_meta (arrow_id (Marker := Marker)) (trolley_arrows st.2) st) as H.
    destruct (foldl _ st (trolley_arrows st.2)) as [sc r]. exact H.
  - destruct st as [sc r]. cbn [snd]. destruct (lineStrip r) as [l|]; reflexivity.
Qed.

Lemma rebuild_meta (st : state) (poseArray : PoseArray) (colorStart colorEnd : ColorRGBA) :
  meta (rebuild rgbaGradient st poseArray colorStart colorEnd).2 = meta st.2.
Proof.
  unfold rebuild.
  set (st1 := if trolley (settings st.2) then removeTrolley st else st).
  assert (D1 : meta st1.2 = meta st.2).
  { unfold st1. destruct (trolley (settings st.2)); [apply remove_meta|reflexivity]. }
  destruct (type (settings st1.2)).
  - destruct (remove_meta (removeArrows st1)) as (_ & _ & _ & ->).
    destruct (remove_meta st1) as (-> & _). exact D1.
  - destruct (remove_meta (removeAxes st1)) as (_ & _ & _ & ->).
    destruct (remove_meta st1) as (_ & -> & _). exact D1.
  - pose proof (remove_meta (removeArrows st1)) as (_ & D3 & _).
    pose proof (remove_meta st1) as (D2 & _).
    destruct (removeAxes (removeArrows st1)) as [sc3 r3]. cbn [snd] in D3.
    destruct (lineStrip r3); cbn; unfold meta in *; cbn; congruence.
Qed.

Lemma sync_pools_meta (st : state) (poseArray : PoseArray) (s : LayerSettingsPoseArray)
    (colorStart colorEnd : ColorRGBA) :
  meta (sync_pools AXIS_LENGTH rgbaGradient createArrowMarker setFromAxisAngle
          st poseArray s colorStart colorEnd).2 = meta st.2.
Proof.
  unfold sync_pools.
  set (st3 := if trolley s then _ else st).
  assert (D3 : meta st3.2 = meta st.2).
  { unfold st3. destruct (trolley s); [|reflexivity].
    unfold _createTrolleyArrowsToMatchPoses. destruct st as [sc r]. cbv zeta.
    set (r1 := Js.for_range 0 _ _ r).
    assert (M1 : meta r1 = meta r).
    { apply (for_range_invariant (fun x : Node => meta x = meta r)); [reflexivity|].
      intros i x _ Hx. rewrite <- Hx. reflexivity. }
    set (body := fun (i : nat) (st : state) => _).
    assert (M2 : meta (Js.for_range (length (trolley_arrows r1))
                         (length (poses poseArray)) body (sc, r1)).2 = meta r).
    { apply (for_range_invariant (fun x : state => meta x.2 = meta r)); [exact M1|].
      intros i [sc' x] _ Hx. cbn in Hx |- *. rewrite <- Hx. reflexivity. }
    destruct (Js.for_range _ _ body (sc, r1)) as [sc2 r2]. cbn [snd] in M2 |- *.
    unfold place_trolley.
    apply (for_range_invariant (fun x : Node => meta x = meta r)).
    - apply (for_range_invariant (fun x : Node => meta x = meta r)); [exact M2|].
      intros i x _ Hx. rewrite <- Hx. reflexivity.
    - intros i x _ Hx. destruct (poses poseArray !! i); [|exact Hx].
      rewrite <- Hx. reflexivity. }
  destruct st3 as [sc3 r3]. cbn [snd] in D3. rewrite <- D3.
  destruct (type s).
  - unfold _createAxesToMatchPoses. cbv zeta.
    set (r1 := Js.for_range 0 _ _ r3).
    assert (M1 : meta r1 = meta r3).
    { apply (for_range_invariant (fun x : Node => meta x = meta r3)); [reflexivity|].
      intros i x _ Hx. rewrite <- Hx. reflexivity. }
    set (body := fun (i : nat) (st : state) => _).
    assert (M2 : meta (Js.for_range (length (axes r1)) (length (poses poseArray))
                         body (sc3, r1)).2 = meta r3).
    { apply (for_range_invariant (fun x : state => meta x.2 = meta r3)); [exact M1|].
      intros i [sc' x] _ Hx. cbn in Hx |- *. rewrite <- Hx. reflexivity. }
    destruct (Js.for_range _ _ body (sc3, r1)) as [sc2 r2]. cbn [snd] in M2 |- *.
    unfold place_axes.
    apply (for_range_invariant (fun x : Node => meta x = meta r3)).
    + apply (for_range_invariant (fun x : Node => meta x = meta r3)); [exact M2|].
      intros i x _ Hx. rewrite <- Hx. reflexivity.
    + intros i x _ Hx. destruct (poses poseArray !! i); [|exact Hx].
      rewrite <- Hx. reflexivity.
  - unfold _createArrowsToMatchPoses. cbv zeta.
    set (r1 := Js.for_range 0 _ _ r3).
    assert (M1 : meta r1 = meta r3).
    { apply (for_range_invariant (fun x : Node => meta x = meta r3)); [reflexivity|].
      intros i x _ Hx. rewrite <- Hx. reflexivity. }
    set (body := fun (i : nat) (st : state) => _).
    assert (M2 : meta (Js.for_range (length (arrows r1)) (length (poses poseArray))
                         body (sc3, r1)).2 = meta r3).
    { apply (for_range_invariant (fun x : state => meta x.2 = meta r3)); [exact M1|].
      intros i [sc' x] _ Hx. cbn in Hx |- *. rewrite <- Hx. reflexivity. }
    destruct (Js.for_range _ _ body (sc3, r1)) as [sc2 r2]. cbn [snd] in M2 |- *.
    unfold place_arrows.
    apply (for_range_invariant (fun x : Node => meta x = meta r3)).
    + apply (for_range_invariant (fun x : Node => meta x = meta r3)); [exact M2|].
      intros i x _ Hx. rewrite <- Hx. reflexivity.
    + intros i x _ Hx. destruct (poses poseArray !! i); [|exact Hx].
      rewrite <- Hx. reflexivity.
  - reflexivity.
Qed.

(** The update records the message, the receive time and the settings
    it is given, and keeps the channel name and the data of the trolley
    attachment. *)
Lemma update_meta (st : state) (poseArray : PoseArray) (t : Z) (s : LayerSettingsPoseArray) :
  meta (update st poseArray t s).2
  = (t, toNanoSec (stamp (header poseArray)),
     normalizeFrameId (frame_id (header poseArray)), s, topic st.2, poseArray,
     trolley_numbers st.2, robot_angle st.2, trolley_length st.2).
Proof.
  destruct st as [sc r]. unfold _updatePoseArrayRenderable.
  rewrite sync_pools_meta.
  destruct (settingsChanged _ _ _); [rewrite rebuild_meta|]; reflexivity.
Qed.

End UpdateMeta.

Section NavPathValidation.

Import PoseArrays PoseHandlers.

Variable normalizeFrameId : string -> string.

(** X14.  [validateNavPath] never rejects a path.  It returns [true] for
    every message; what it does is report: for every pose whose frame,
    after normalisation, differs from the frame of the path it makes one
    call of [addToTopic] with the channel of the message, the id
    [MISMATCHED_FRAME_ID] and the message that names both frames.  The
    calls are made in the order of the poses (the record has the newest
    first) and there is no other call.  A path without poses, or whose
    poses all have the frame of the path, makes no call. *)
Theorem nav_path_validation_never_rejects (ev : MessageEvent PartialNavPath)
    (errs : list Grid.LayerError) :
  let res := validateNavPath normalizeFrameId ev errs in
  let base := frame_of normalizeFrameId (np_header (ev_message ev)) in
  let mismatched :=
    filter (fun p => frame_of normalizeFrameId (ps_header p) <> base)
      (Js.nullish (np_poses (ev_message ev)) []) in
  res.2 = true
  /\ res.1
     = rev (map (fun p =>
                   {| Grid.err_topic := ev_topic ev;
                      Grid.err_id := MISMATCHED_FRAME_ID;
                      Grid.err_message :=
                        mismatch_message base (frame_of normalizeFrameId (ps_header p)) |})
              mismatched)
       ++ errs
  /\ length res.1 = length errs + length mismatched
  /\ (mismatched = [] -> res.1 = errs).
Proof.
  cbv zeta.
  set (base := frame_of normalizeFrameId (np_header (ev_message ev))).
  set (mk := fun p : PartialPoseStamped =>
               {| Grid.err_topic := ev_topic ev; Grid.err_id := MISMATCHED_FRAME_ID;
                  Grid.err_message :=
                    mismatch_message base (frame_of normalizeFrameId (ps_header p)) |}).
  assert (Hfold : forall l e,
            foldl (fun errs pose =>
                     if negb (String.eqb base (frame_of normalizeFrameId (ps_header pose)))
                     then mk pose :: errs else errs) e l
            = rev (map mk (filter (fun p => frame_of normalizeFrameId (ps_header p) <> base)
                             l)) ++ e).
  { induction l as [|p l IH]; intros e; [reflexivity|].
    cbn [foldl]. rewrite IH, filter_cons.
    destruct (String.eqb_spec base (frame_of normalizeFrameId (ps_header p))) as [E|NE].
    - rewrite decide_False by (intros H; apply H; symmetry; exact E). reflexivity.
    - rewrite decide_True by (intros H; apply NE; symmetry; exact H).
      cbn [map rev negb]. rewrite <- app_assoc. reflexivity. }
  assert (Hres : (validateNavPath normalizeFrameId ev errs).1
                 = rev (map mk (filter (fun p => frame_of normalizeFrameId (ps_header p)
                                                 <> base)
                                  (Js.nullish (np_poses (ev_message ev)) []))) ++ errs).
  { unfold validateNavPath. cbn [fst].
    destruct (np_poses (ev_message ev)) as [poses|]; [apply Hfold|reflexivity]. }
  split; [reflexivity|].
  split; [exact Hres|]. split.
  - rewrite Hres, length_app, length_rev, length_map. lia.
  - intros Hm. rewrite Hres, Hm. reflexivity.
Qed.

End NavPathValidation.

Section PoseHandlerFacts.

Import PoseArrays PoseMeta PoseHandlers.

Variable AXIS_LENGTH : number.
Variable stringToRgba : string -> ColorRGBA.
Variable rgbaGradient : ColorRGBA -> ColorRGBA -> number -> ColorRGBA.
Variable rgbaToCssString : ColorRGBA -> string.
Variable Marker : Type.
Variable createArrowMarker : number * number * number -> ColorRGBA -> Marker.
Variable normalizeFrameId : string -> string.
Variable setFromAxisAngle : Vector3 -> number -> Quaternion.
Variable NAV_PATH_DATATYPES_has : string -> bool.

Local Abbreviation Node := (Renderable Marker).
Local Abbreviation Ext := (Extension Marker).
Local Abbreviation update :=
  (_updatePoseArrayRenderable AXIS_LENGTH stringToRgba rgbaGradient createArrowMarker
     normalizeFrameId setFromAxisAngle).
Local Abbreviation add :=
  (addPoseArray AXIS_LENGTH stringToRgba rgbaGradient rgbaToCssString createArrowMarker
     normalizeFrameId setFromAxisAngle NAV_PATH_DATATYPES_has).
Local Abbreviation initial :=
  (initial_settings (Marker := Marker) AXIS_LENGTH rgbaToCssString NAV_PATH_DATATYPES_has).

Lemma update_renderable_eq (ext : Ext) (tp : string) (r : Node) (msg : PoseArray) (t : Z)
    (s : LayerSettingsPoseArray) :
  update_renderable AXIS_LENGTH stringToRgba rgbaGradient createArrowMarker normalizeFrameId
    setFromAxisAngle ext tp r msg t s
  = {| scene := (update (scene ext, r) msg t s).1;
       errors := errors ext;
       config_topics := config_topics ext;
       topicsByName := topicsByName ext;
       renderables := <[tp := (update (scene ext, r) msg t s).2]> (renderables ext) |}.
Proof.
  unfold update_renderable. destruct (update (scene ext, r) msg t s) as [sc r']. reflexivity.
Qed.

Lemma addPoseArray_eq (ext : Ext) (tp : string) (msg : PoseArray) (t : Z) :
  let r0 := match renderables ext !! tp with
            | Some r => r
            | None => new_PoseArrayRenderable normalizeFrameId tp msg t (initial ext tp)
            end in
  add ext tp msg t
  = {| scene := (update (scene ext, r0) msg t (settings r0)).1;
       errors := errors ext;
       config_topics := config_topics ext;
       topicsByName := topicsByName ext;
       renderables := <[tp := (update (scene ext, r0) msg t (settings r0)).2]>
                         (renderables ext) |}.
Proof. cbv zeta. unfold addPoseArray. cbv zeta. apply update_renderable_eq. Qed.

(** X15.  What a pose-array message does to the registry
    ([addPoseArray], the common end of the handlers of pose arrays,
    paths and poses in frame).  After the message its channel has a
    renderable, which records the message, its receive time, its stamp
    and its normalised frame; the renderables of the other channels,
    the diagnostics and the configuration are untouched.  A renderable
    that existed keeps its channel name, its settings and the data of
    the trolley attachment: a message never changes the settings.  A
    new renderable gets the defaults, overridden by the default type of
    the topic and then by the user's configuration of the channel. *)
Theorem pose_message_registers_channel (ext : Ext) (tp : string) (msg : PoseArray) (t : Z) :
  let res := add ext tp msg t in
  (forall k, k <> tp -> renderables res !! k = renderables ext !! k)
  /\ errors res = errors ext
  /\ config_topics res = config_topics ext
  /\ topicsByName res = topicsByName ext
  /\ exists r',
       renderables res !! tp = Some r'
       /\ poseArrayMessage r' = msg
       /\ receiveTime r' = t
       /\ messageTime r' = toNanoSec (stamp (header msg))
       /\ frameId r' = normalizeFrameId (frame_id (header msg))
       /\ match renderables ext !! tp with
          | Some r =>
              topic r' = topic r /\ settings r' = settings r
              /\ trolley_numbers r' = trolley_numbers r
              /\ robot_angle r' = robot_angle r
              /\ trolley_length r' = trolley_length r
          | None =>
              topic r' = tp /\ settings r' = initial ext tp
              /\ trolley_numbers r' = [] /\ robot_angle r' = []
              /\ trolley_length r' = Js.zero
          end.
Proof.
  cbv zeta. rewrite addPoseArray_eq. cbv zeta. cbn [renderables errors config_topics
                                                     topicsByName].
  split; [intros k Hk; apply lookup_insert_ne; congruence|].
  split; [reflexivity|]. split; [reflexivity|]. split; [reflexivity|].
  eexists. split; [apply lookup_insert_eq|].
  match goal with |- context [update ?st msg t ?s] =>
    pose proof (update_meta AXIS_LENGTH stringToRgba rgbaGradient Marker createArrowMarker
                  normalizeFrameId setFromAxisAngle st msg t s) as Hm;
    set (res := update st msg t s) in * end.
  unfold meta in Hm. injection Hm as H1 H2 H3 H4 H5 H6 H7 H8 H9.
  split; [exact H6|]. split; [exact H1|]. split; [exact H2|]. split; [exact H3|].
  cbn [fst snd] in *.
  destruct (renderables ext !! tp) as [r|]; cbn in H4, H5, H7, H8, H9 |- *;
    repeat split; assumption.
Qed.

(** X16.  The first pose array of a channel, in axis or arrow mode
    ([handlePoseArray]).  The handler creates the renderable and fills
    the pool of the display mode of the initial settings with exactly
    one child per pose of the message: each child is a newly allocated
    object, visible, at the position and with the orientation of the
    normalised pose of its index.  Nothing is disposed.  A message
    without a [poses] field counts as a message with no pose and leaves
    the pool empty. *)
Theorem first_pose_array_fills_pool (ext : Ext) (ev : MessageEvent PartialPoseArray) :
  let tp := ev_topic ev in
  let msg := normalizePoseArray (ev_message ev) in
  let s := initial ext tp in
  let res :=
    handlePoseArray AXIS_LENGTH stringToRgba rgbaGradient rgbaToCssString createArrowMarker
      normalizeFrameId setFromAxisAngle NAV_PATH_DATATYPES_has ext ev in
  renderables ext !! tp = None ->
  type s <> line ->
  exists r',
    renderables res !! tp = Some r'
    /\ poses msg
       = map (fun p => normalizePose (Some p)) (Js.nullish (pa_poses (ev_message ev)) [])
    /\ length (pool_view (type s) r') = length (poses msg)
    /\ (forall i p, poses msg !! i = Some p ->
          exists id,
            pool_view (type s) r' !! i = Some (id, true)
            /\ next_id (scene ext) <= id
            /\ pool_pose (type s) r' i = Some (position p, orientation p))
    /\ disposed (scene res) = disposed (scene ext).
Proof.
  cbv zeta. intros Hnew Hty. unfold handlePoseArray. cbv zeta.
  set (tp := ev_topic ev) in *. set (msg := normalizePoseArray (ev_message ev)).
  set (t := toNanoSec (ev_receiveTime ev)).
  rewrite addPoseArray_eq. cbv zeta. rewrite Hnew.
  cbn [renderables scene settings new_PoseArrayRenderable].
  set (r0 := new_PoseArrayRenderable normalizeFrameId tp msg t (initial ext tp)).
  pose proof (pool_sync_step AXIS_LENGTH stringToRgba rgbaGradient Marker createArrowMarker
                normalizeFrameId setFromAxisAngle (scene ext, r0) msg t (initial ext tp) Hty)
    as (Hlen & Hidx & _ & ids & Hd & Hsub).
  cbv zeta in Hlen, Hidx, Hd, Hsub. cbn [fst snd] in Hlen, Hidx, Hd, Hsub.
  assert (Hold : pool_view (type (initial ext tp)) r0 = []).
  { unfold pool_view. destruct (type (initial ext tp)); reflexivity. }
  rewrite Hold in Hlen, Hidx. cbn [length] in Hlen, Hidx.
  assert (Hids : ids = []).
  { destruct ids as [|x ids]; [reflexivity|].
    assert (Hx : x ∈ trolley_ids r0 ++ other_pool_ids (type (initial ext tp)) r0)
      by (apply Hsub; left).
    exfalso. unfold other_pool_ids in Hx. destruct (type (initial ext tp)); cbn in Hx;
      apply elem_of_nil in Hx; exact Hx. }
  eexists. split; [apply lookup_insert_eq|].
  split.
  { unfold msg, normalizePoseArray. cbn [poses].
    destruct (pa_poses (ev_message ev)); reflexivity. }
  split; [rewrite Hlen; lia|].
  split.
  - intros i p Hp. pose proof (lookup_lt_Some _ _ _ Hp) as Hi.
    destruct (Hidx i ltac:(lia)) as (id & Hv & _ & Hn).
    rewrite bool_decide_true in Hv by exact Hi.
    exists id. split; [exact Hv|]. split; [apply Hn; lia|].
    apply update_placed; assumption.
  - rewrite Hd, Hids. reflexivity.
Qed.

(** X17.  The first message of a path ([handleNavPath]).  On a channel
    whose topic has a path datatype and for which the user configured no
    display type, the renderable is created in line mode: it gets no
    axes and no arrows but one line strip, a new object, whose vertices
    are the positions of the normalised poses of the path, in order,
    under the header of the path; the headers of the single poses are
    not used.  Nothing is disposed.  The diagnostics are the ones the
    validation of the path leaves: a path whose poses have mismatched
    frames is reported and drawn all the same. *)
Theorem nav_path_is_drawn_as_line (ext : Ext) (ev : MessageEvent PartialNavPath)
    (m : gmap string Topic) (tpc : Topic) :
  let tp := ev_topic ev in
  let res :=
    handleNavPath AXIS_LENGTH stringToRgba rgbaGradient rgbaToCssString createArrowMarker
      normalizeFrameId setFromAxisAngle NAV_PATH_DATATYPES_has ext ev in
  renderables ext !! tp = None ->
  topicsByName ext = Some m ->
  m !! tp = Some tpc ->
  NAV_PATH_DATATYPES_has (schemaName tpc) = true ->
  (forall u, config_topics ext !! tp = Some u -> p_type u = None) ->
  errors res = (validateNavPath normalizeFrameId ev (errors ext)).1
  /\ exists r' l,
       renderables res !! tp = Some r'
       /\ type (settings r') = line
       /\ axes r' = [] /\ arrows r' = []
       /\ lineStrip r' = Some l
       /\ line_id l = next_id (scene ext)
       /\ ls_points (line_marker l)
          = map (fun p => position (normalizePose (ps_pose p)))
              (Js.nullish (np_poses (ev_message ev)) [])
       /\ ls_header (line_marker l) = normalizeHeader (np_header (ev_message ev))
       /\ disposed (scene res) = disposed (scene ext).
Proof.
  cbv zeta. intros Hnew Hm Htp Hnav Hcfg. unfold handleNavPath.
  assert (V : validateNavPath normalizeFrameId ev (errors ext)
              = ((validateNavPath normalizeFrameId ev (errors ext)).1, true))
    by reflexivity.
  rewrite V. cbn [negb]. clear V.
  set (errs := (validateNavPath normalizeFrameId ev (errors ext)).1).
  set (tp := ev_topic ev) in *.
  set (msg := normalizeNavPathToPoseArray (ev_message ev)).
  set (t := toNanoSec (ev_receiveTime ev)).
  rewrite addPoseArray_eq. cbv zeta.
  cbn [renderables scene errors set_errors config_topics topicsByName]. rewrite Hnew.
  set (s := initial (set_errors ext errs) tp).
  assert (Hs : type s = line).
  { unfold s, initial_settings, mergeSettings, getDefaultType.
    cbn [type topicsByName set_errors config_topics]. rewrite Hm, Htp, Hnav.
    destruct (config_topics ext !! tp) as [u|] eqn:C; [rewrite (Hcfg u eq_refl)|];
      reflexivity. }
  set (r0 := new_PoseArrayRenderable normalizeFrameId tp msg t s).
  change (settings r0) with s.
  pose proof (line_mode_step AXIS_LENGTH stringToRgba rgbaGradient Marker createArrowMarker
                normalizeFrameId setFromAxisAngle (scene ext, r0) msg t s Hs
                (or_intror (conj eq_refl eq_refl)))
    as (Ha & Har & (l & Hl & Hid & _ & Hh & _ & Hp & _) & Hd & Hset).
  cbv zeta in Ha, Har, Hl, Hid, Hh, Hp, Hd, Hset. cbn [fst snd] in *.
  split; [reflexivity|].
  exists (update (scene ext, r0) msg t s).2, l.
  split; [apply lookup_insert_eq|].
  split; [rewrite Hset; exact Hs|].
  split; [exact Ha|]. split; [exact Har|]. split; [exact Hl|].
  split; [exact Hid|].
  split.
  { rewrite Hp. unfold msg, normalizeNavPathToPoseArray. cbn [poses].
    destruct (np_poses (ev_message ev)) as [ps|]; cbn; [|reflexivity].
    rewrite map_map. reflexivity. }
  split; [exact Hh|].
  rewrite Hd. destruct (trolley s); reflexivity.
Qed.

End PoseHandlerFacts.

Section RobotStatePathHandler.

Import PoseArrays PoseMeta PoseHandlers.

Variable AXIS_LENGTH : number.
Variable stringToRgba : string -> ColorRGBA.
Variable rgbaGradient : ColorRGBA -> ColorRGBA -> number -> ColorRGBA.
Variable rgbaToCssString : ColorRGBA -> string.
Variable Marker : Type.
Variable createArrowMarker : number * number * number -> ColorRGBA -> Marker.
Variable normalizeFrameId : string -> string.
Variable setFromAxisAngle : Vector3 -> number -> Quaternion.
Variable setFromEuler : Euler -> Quaternion.
Variable NAV_PATH_DATATYPES_has : string -> bool.

Local Abbreviation Node := (Renderable Marker).
Local Abbreviation Ext := (Extension Marker).
Local Abbreviation update :=
  (_updatePoseArrayRenderable AXIS_LENGTH stringToRgba rgbaGradient createArrowMarker
     normalizeFrameId setFromAxisAngle).
Local Abbreviation initial :=
  (initial_settings (Marker := Marker) AXIS_LENGTH rgbaToCssString NAV_PATH_DATATYPES_has).
Local Abbreviation on_path :=
  (handleMirRobotStatePath AXIS_LENGTH stringToRgba rgbaGradient rgbaToCssString
     createArrowMarker normalizeFrameId setFromAxisAngle setFromEuler NAV_PATH_DATATYPES_has).

Lemma push_fields_fold (field : MirRobotState -> option number)
    (l : list (option MirRobotState)) (out : list number) :
  let res :=
    foldl
      (fun (acc : list number * bool) (_value : option MirRobotState) =>
         let '(out, running) := acc in
         if running then
           match _value with
           | Some v => (out ++ [Js.nullish (field v) Js.zero], true)
           | None => (out, false)
           end
         else acc)
      (out, true) l in
  (Forall is_Some l ->
   res = (out ++ map (fun v => Js.nullish (v ≫= field) Js.zero) l, true))
  /\ (~ Forall is_Some l -> res.2 = false).
Proof.
  cbv zeta. revert out. induction l as [|v l IH]; intros out.
  - cbn. rewrite app_nil_r. split; [reflexivity|]. intros H. exfalso. apply H. constructor.
  - cbn [foldl]. destruct v as [v|].
    + destruct (IH (out ++ [Js.nullish (field v) Js.zero])) as [A B]. split.
      * intros H. inversion H; subst. rewrite A by assumption.
        cbn. rewrite <- app_assoc. reflexivity.
      * intros H. apply B. intros Hl. apply H. constructor; [eexists; reflexivity|exact Hl].
    + split.
      * intros H. inversion H as [|? ? [x Hx]]; discriminate.
      * intros _. clear IH. induction l as [|w l IHl]; [reflexivity|]. exact IHl.
Qed.

Lemma push_fields_spec (field : MirRobotState -> option number)
    (path : option (list (option MirRobotState))) :
  (Forall is_Some (Js.nullish path []) ->
   push_fields field path
   = (map (fun v => Js.nullish (v ≫= field) Js.zero) (Js.nullish path []), true))
  /\ (~ Forall is_Some (Js.nullish path []) -> (push_fields field path).2 = false).
Proof.
  unfold push_fields. destruct path as [l|]; cbn [Js.nullish].
  - apply (push_fields_fold field l []).
  - split; [reflexivity|]. intros H. exfalso. apply H. constructor.
Qed.

(** X18.  The trolley data of a robot-state path
    ([handleMirRobotStatePath]).  When the message says [has_trolley ===
    true] and every element of the path is present, the renderable
    takes from the message the distance to the trolley (0 when absent)
    and, element by element, the heading [pose_theta] and the hook angle
    [hook_angle] (each 0 when absent), so that it holds one heading and
    one hook angle per pose it shows; with the trolley attachment on,
    the trolley arrow of each pose is then visible and headed by
    pose_theta + hook_angle + pi about the z axis.  When the message
    does not say so, the three data are left as they were: the ones of
    an earlier message, or empty.  When it says so and an element of the
    path is [undefined], reading its field throws: the handler is
    interrupted before the update, nothing is allocated or disposed, and
    an existing renderable keeps showing its former message. *)
Theorem robot_state_path_trolley_data (ext : Ext) (ev : MessageEvent MirRobotStatePath) :
  let message := ev_message ev in
  let tp := ev_topic ev in
  let elems := Js.nullish (path message) [] in
  let res := on_path ext ev in
  (has_trolley message = Some true -> Forall is_Some elems ->
   res.2 = Returned
   /\ exists r',
        renderables res.1 !! tp = Some r'
        /\ poseArrayMessage r' = normalizeMirPoseArray setFromEuler (Some message)
        /\ robot_angle r' = map (fun v => Js.nullish (v ≫= pose_theta) Js.zero) elems
        /\ trolley_numbers r' = map (fun v => Js.nullish (v ≫= hook_angle) Js.zero) elems
        /\ trolley_length r' = Js.nullish (robot_to_trolley_dist message) Js.zero
        /\ length (robot_angle r') = length (poses (poseArrayMessage r'))
        /\ length (trolley_numbers r') = length (poses (poseArrayMessage r'))
        /\ (trolley (settings r') = true ->
            forall i v, elems !! i = Some (Some v) ->
            exists a,
              trolley_arrows r' !! i = Some a
              /\ arrow_visible a = true
              /\ arrow_quaternion a
                 = setFromAxisAngle {| v_x := Js.zero; v_y := Js.zero; v_z := Js.one |}
                     (Js.add (Js.add (Js.nullish (pose_theta v) Js.zero)
                                (Js.nullish (hook_angle v) Js.zero)) PI)))
  /\ (has_trolley message <> Some true ->
      res.2 = Returned
      /\ exists r',
           renderables res.1 !! tp = Some r'
           /\ poseArrayMessage r' = normalizeMirPoseArray setFromEuler (Some message)
           /\ match renderables ext !! tp with
              | Some r =>
                  robot_angle r' = robot_angle r
                  /\ trolley_numbers r' = trolley_numbers r
                  /\ trolley_length r' = trolley_length r
              | None =>
                  robot_angle r' = [] /\ trolley_numbers r' = []
                  /\ trolley_length r' = Js.zero
              end)
  /\ (has_trolley message = Some true -> ~ Forall is_Some elems ->
      res.2 = Threw
      /\ scene res.1 = scene ext
      /\ exists r',
           renderables res.1 !! tp = Some r'
           /\ axes r' = match renderables ext !! tp with Some r => axes r | None => [] end
           /\ arrows r' = match renderables ext !! tp with Some r => arrows r | None => [] end
           /\ forall r, renderables ext !! tp = Some r ->
                poseArrayMessage r' = poseArrayMessage r).
Proof.
  cbv zeta. unfold handleMirRobotStatePath. cbv zeta.
  set (message := ev_message ev). set (tp := ev_topic ev).
  set (msg := normalizeMirPoseArray setFromEuler (Some message)).
  set (t := toNanoSec (ev_receiveTime ev)).
  set (r0 := match renderables ext !! tp with
             | Some r => r
             | None => new_PoseArrayRenderable normalizeFrameId tp msg t _
             end).
  destruct (push_fields_spec pose_theta (path message)) as [PA PAn].
  destruct (push_fields_spec hook_angle (path message)) as [PH PHn].
  split; [|split].
  - intros Ht Hall. rewrite Ht, (PA Hall), (PH Hall). cbn [negb].
    rewrite update_renderable_eq. cbn [fst snd renderables scene set_renderable].
    split; [reflexivity|].
    match goal with |- context [update ?st msg t ?s] =>
      pose proof (update_meta AXIS_LENGTH stringToRgba rgbaGradient Marker createArrowMarker
                    normalizeFrameId setFromAxisAngle st msg t s) as Hm;
      pose proof (trolley_pass_spec AXIS_LENGTH stringToRgba rgbaGradient Marker
                    createArrowMarker normalizeFrameId setFromAxisAngle st msg t s) as Htr;
      set (res := update st msg t s) in * end.
    unfold meta in Hm. injection Hm as H1 H2 H3 H4 H5 H6 H7 H8 H9.
    cbn [fst snd set_trolley_numbers set_robot_angle set_trolley_length trolley_numbers
         robot_angle trolley_length settings] in H4, H7, H8, H9, Htr.
    eexists. split; [apply lookup_insert_eq|].
    split; [exact H6|]. split; [exact H8|]. split; [exact H7|]. split; [exact H9|].
    assert (Hlen : length (poses msg) = length (Js.nullish (path message) [])).
    { unfold msg, normalizeMirPoseArray. cbn [poses].
      destruct (path message); cbn; [apply length_map|reflexivity]. }
    split; [rewrite H8, H6, length_map, Hlen; reflexivity|].
    split; [rewrite H7, H6, length_map, Hlen; reflexivity|].
    intros Hon i v Hv.
    rewrite H4 in Hon. cbv zeta in Htr.
    destruct (Htr Hon) as (Hat & _).
    assert (Hp : is_Some (poses msg !! i)).
    { apply lookup_lt_is_Some_2. rewrite Hlen. eapply lookup_lt_Some. exact Hv. }
    destruct Hp as [p Hp].
    destruct (Hat i p Hp) as (a & Ha & Hvz & _ & Hq & _).
    exists a. split; [exact Ha|]. split; [exact Hvz|].
    rewrite Hq, !list_lookup_fmap, Hv. reflexivity.
  - intros Ht.
    assert (E : match has_trolley message with Some true => true | _ => false end = false).
    { destruct (has_trolley message) as [[|]|]; try reflexivity. contradiction. }
    rewrite E. rewrite update_renderable_eq. cbn [fst snd renderables scene set_renderable].
    split; [reflexivity|].
    match goal with |- context [update ?st msg t ?s] =>
      pose proof (update_meta AXIS_LENGTH stringToRgba rgbaGradient Marker createArrowMarker
                    normalizeFrameId setFromAxisAngle st msg t s) as Hm;
      set (res := update st msg t s) in * end.
    unfold meta in Hm. injection Hm as H1 H2 H3 H4 H5 H6 H7 H8 H9.
    cbn [fst snd] in H7, H8, H9.
    eexists. split; [apply lookup_insert_eq|]. split; [exact H6|].
    unfold r0 in H7, H8, H9.
    destruct (renderables ext !! tp) as [r|]; cbn in H7, H8, H9 |- *; repeat split; assumption.
  - intros Ht Hsome. rewrite Ht.
    pose proof (PAn Hsome) as Hf.
    destruct (push_fields pose_theta (path message)) as [angles running].
    cbn [snd] in Hf. subst running. cbn [negb fst snd renderables scene set_renderable].
    split; [reflexivity|]. split; [reflexivity|].
    eexists. split; [apply lookup_insert_eq|].
    cbn [set_robot_angle set_trolley_length axes arrows poseArrayMessage].
    unfold r0. destruct (renderables ext !! tp) as [r|]; cbn.
    + split; [reflexivity|]. split; [reflexivity|]. intros r1 [= <-]. reflexivity.
    + split; [reflexivity|]. split; [reflexivity|]. intros r1 H. discriminate.
Qed.

End RobotStatePathHandler.

Section PoseSettingsAction.

Import PoseArrays PoseMeta PoseHandlers.

Variable AXIS_LENGTH : number.
Variable stringToRgba : string -> ColorRGBA.
Variable rgbaGradient : ColorRGBA -> ColorRGBA -> number -> ColorRGBA.
Variable rgbaToCssString : ColorRGBA -> string.
Variable Marker : Type.
Variable createArrowMarker : number * number * number -> ColorRGBA -> Marker.
Variable normalizeFrameId : string -> string.
Variable setFromAxisAngle : Vector3 -> number -> Quaternion.
Variable Value : Type.
Variable saveSetting : Extension Marker -> list string -> Value -> Extension Marker.

Local Abbreviation Node := (Renderable Marker).
Local Abbreviation Ext := (Extension Marker).
Local Abbreviation update :=
  (_updatePoseArrayRenderable AXIS_LENGTH stringToRgba rgbaGradient createArrowMarker
     normalizeFrameId setFromAxisAngle).
Local Abbreviation on_action :=
  (handleSettingsAction AXIS_LENGTH stringToRgba rgbaGradient rgbaToCssString
     createArrowMarker normalizeFrameId setFromAxisAngle saveSetting).

(** X19.  A settings action on the pose extension.  An action that is not
    an update, or whose path has not exactly three components, does
    nothing, not even save.  Any other action is saved, and when the
    channel it names (the second component of the path) has a
    renderable, that renderable is updated with the message and the
    receive time it holds and with new settings: the defaults
    overridden by the saved configuration of the channel.  The default
    type of the topic is not among them.  So when the configuration of
    the channel has no display type, the renderable is put in axis mode
    whatever its topic is: a path that was drawn as a line loses its
    line, which is disposed, and gets one visible axis per pose. *)
Theorem pose_settings_action (ext : Ext) (act : SettingsTreeAction Value) :
  let res := on_action ext act in
  let path := payload_path act in
  let tp := default EmptyString (path !! 1) in
  let ext1 := saveSetting ext path (payload_value act) in
  (action act <> "update" \/ length path <> 3 -> res = ext)
  /\ (action act = "update" /\ length path = 3 ->
      (renderables ext1 !! tp = None -> res = ext1)
      /\ forall r, renderables ext1 !! tp = Some r ->
           (forall k, k <> tp -> renderables res !! k = renderables ext1 !! k)
           /\ errors res = errors ext1
           /\ config_topics res = config_topics ext1
           /\ exists r',
                renderables res !! tp = Some r'
                /\ settings r'
                   = mergeSettings AXIS_LENGTH rgbaToCssString None
                       (config_topics ext1 !! tp)
                /\ poseArrayMessage r' = poseArrayMessage r
                /\ receiveTime r' = receiveTime r
                /\ topic r' = topic r
                /\ ((forall u, config_topics ext1 !! tp = Some u -> p_type u = None) ->
                    type (settings r') = axis
                    /\ length (filter (fun a => axis_visible a = true) (axes r'))
                       = length (poses (poseArrayMessage r))
                    /\ (type (settings r) = line ->
                        lineStrip r' = None /\ arrows r' = []
                        /\ forall l, lineStrip r = Some l ->
                             line_id l ∈ disposed (scene res)))).
Proof.
  cbv zeta. unfold handleSettingsAction. cbv zeta. split.
  - intros [Ha|Hl].
    + destruct (String.eqb_spec (action act) "update") as [E|_]; [contradiction|]. reflexivity.
    + destruct (Nat.eqb_spec (length (payload_path act)) 3) as [E|_]; [contradiction|].
      rewrite orb_true_r. reflexivity.
  - intros [Ha Hl]. rewrite Ha, Hl. cbn [String.eqb Ascii.eqb Bool.eqb negb orb Nat.eqb].
    set (tp := default EmptyString (payload_path act !! 1)).
    set (ext1 := saveSetting ext (payload_path act) (payload_value act)).
    split; [intros ->; reflexivity|].
    intros r ->. rewrite update_renderable_eq.
    cbn [renderables errors config_topics scene].
    set (s := mergeSettings AXIS_LENGTH rgbaToCssString None (config_topics ext1 !! tp)).
    split; [intros k Hk; apply lookup_insert_ne; congruence|].
    split; [reflexivity|]. split; [reflexivity|].
    pose proof (update_meta AXIS_LENGTH stringToRgba rgbaGradient Marker createArrowMarker
                  normalizeFrameId setFromAxisAngle (scene ext1, r) (poseArrayMessage r)
                  (receiveTime r) s) as Hm.
    pose proof (settings_switch AXIS_LENGTH stringToRgba rgbaGradient Marker createArrowMarker
                  normalizeFrameId setFromAxisAngle (scene ext1, r) (poseArrayMessage r)
                  (receiveTime r) s) as Hsw.
    pose proof (pool_visible_count AXIS_LENGTH stringToRgba rgbaGradient Marker
                  createArrowMarker normalizeFrameId setFromAxisAngle (scene ext1, r)
                  (poseArrayMessage r) (receiveTime r) s) as Hcount.
    cbv zeta in Hsw.
    set (res := update (scene ext1, r) (poseArrayMessage r) (receiveTime r) s) in *.
    unfold meta in Hm. injection Hm as H1 H2 H3 H4 H5 H6 H7 H8 H9. cbn [fst snd] in *.
    eexists. split; [apply lookup_insert_eq|].
    split; [exact H4|]. split; [exact H6|]. split; [exact H1|]. split; [exact H5|].
    intros Hcfg.
    assert (Hs : type s = axis).
    { unfold s, mergeSettings. cbn [type].
      destruct (config_topics ext1 !! tp) as [u|]; [rewrite (Hcfg u eq_refl)|]; reflexivity. }
    split; [rewrite H4; exact Hs|].
    split.
    + assert (Hty : type s <> line) by (rewrite Hs; discriminate).
      specialize (Hcount Hty). rewrite Hs in Hcount. unfold pool_view in Hcount.
      rewrite <- Hcount.
      clear. induction (axes res.2) as [|a l IH]; [reflexivity|].
      cbn [map]. rewrite !filter_cons. cbn [snd].
      destruct (decide (axis_visible a = true)); cbn [length]; rewrite IH; reflexivity.
    + intros Hline.
      destruct Hsw as (Hd & Hmatch & _); [left; rewrite Hs, Hline; discriminate|].
      rewrite Hs in Hmatch, Hd. destruct Hmatch as [Har Hls].
      split; [exact Hls|]. split; [exact Har|].
      intros l Hstrip. rewrite Hd. apply elem_of_app. left.
      apply list_elem_of_In, in_rev. rewrite rev_involutive. apply list_elem_of_In.
      apply elem_of_app. right. unfold other_pool_ids. apply elem_of_app. right.
      unfold line_ids. rewrite Hstrip. apply list_elem_of_singleton. reflexivity.
Qed.

End PoseSettingsAction.

Section ExtraWitnesses.

Import Grid GridRegistry GridSettings Samples HandlerSamples.


Lemma grid_settings_action_keeps_picture_witness :
  (_updateOccupancyGridRenderable same_frame png_throws renderer0 map_renderable grid_4x4 0).2
  = Rendered
  /\ has_png_signature (data (occupancyGrid rendered_map)) = false
  /\ action lock_action = "update"
  /\ length (payload_path lock_action) = 3
  /\ map_registry !! "/map" = Some rendered_map
  /\ (handleSettingsAction same_frame png_throws bool save_frame_lock renderer0 map_registry
        lock_action).2 = Some Rendered.
Proof.
  assert (H1 : (_updateOccupancyGridRenderable same_frame png_throws renderer0 map_renderable
                  grid_4x4 0).2 = Rendered) by (vm_compute; reflexivity).
  assert (H2 : has_png_signature (data (occupancyGrid rendered_map)) = false)
    by (vm_compute; reflexivity).
  assert (H3 : action lock_action = "update") by reflexivity.
  assert (H4 : length (payload_path lock_action) = 3) by reflexivity.
  assert (H5 : map_registry !! "/map" = Some rendered_map) by apply lookup_insert_eq.
  repeat (split; [assumption|]).
  rewrite (grid_settings_action_keeps_picture same_frame png_throws bool save_frame_lock
             renderer0 renderer0 map_renderable grid_4x4 0 map_registry lock_action
             H1 H2 H3 H4 H5).
  reflexivity.
Defined.

End ExtraWitnesses.

Section PoseWitnesses.

Import PoseArrays PoseHandlers Samples PoseSamples HandlerSamples.

Lemma line_mode_update_witness :
  let s := settings_of line false in
  let res := run (scene0, node0 s) (pose_array 3) 0 s in
  type s = line
  /\ (type (settings (node0 s)) <> line \/ (arrows (node0 s) = [] /\ axes (node0 s) = []))
  /\ axes res.2 = [] /\ arrows res.2 = []
  /\ (line_id <$> lineStrip res.2) = Some 0
  /\ disposed res.1 = [].
Proof.
  cbv zeta.
  assert (H1 : type (settings_of line false) = line) by reflexivity.
  assert (H2 : type (settings (node0 (settings_of line false))) <> line
               \/ (arrows (node0 (settings_of line false)) = []
                   /\ axes (node0 (settings_of line false)) = []))
    by (right; split; reflexivity).
  destruct (line_mode_update Js.one parse_color linear_gradient marker make_marker same_frame
              upright (scene0, node0 (settings_of line false)) (pose_array 3) 0
              (settings_of line false) H1 H2)
    as (Ha & Har & (l & Hl & Hid & _) & Hd & _).
  split; [exact H1|]. split; [exact H2|]. split; [exact Ha|]. split; [exact Har|].
  split; [unfold run; rewrite Hl; cbn [fmap option_fmap option_map]; f_equal; exact Hid|].
  exact Hd.
Defined.

Lemma trolley_arrows_follow_poses_witness :
  let s := settings_of axis true in
  let res := run (scene0, node0 s) (pose_array 2) 0 s in
  trolley s = true
  /\ length (filter (fun a => arrow_visible a = true) (trolley_arrows res.2)) = 2.
Proof.
  cbv zeta.
  assert (H1 : trolley (settings_of axis true) = true) by reflexivity.
  split; [exact H1|].
  exact (proj1 (proj2 (proj2
           (trolley_arrows_follow_poses Js.one parse_color linear_gradient marker make_marker
              same_frame upright (scene0, node0 (settings_of axis true)) (pose_array 2) 0
              (settings_of axis true) H1)))).
Defined.

Lemma first_pose_array_fills_pool_witness :
  let res :=
    handlePoseArray Js.one parse_color linear_gradient print_color make_marker same_frame
      upright is_path ext0 poses_event in
  renderables ext0 !! "/poses" = None
  /\ type (initial_settings Js.one print_color is_path ext0 "/poses") <> line
  /\ exists r', renderables res !! "/poses" = Some r'
                /\ length (pool_view axis r') = 2
                /\ disposed (scene res) = [].
Proof.
  cbv zeta.
  assert (H1 : renderables ext0 !! "/poses" = None) by apply lookup_empty.
  assert (H2 : type (initial_settings Js.one print_color is_path ext0 "/poses") <> line).
  { unfold initial_settings, mergeSettings. cbn [type ext0 config_topics topicsByName].
    rewrite lookup_empty. cbn. discriminate. }
  destruct (first_pose_array_fills_pool Js.one parse_color linear_gradient print_color marker
              make_marker same_frame upright is_path ext0 poses_event H1 H2)
    as (r' & Hr & _ & Hlen & _ & Hd).
  split; [exact H1|]. split; [exact H2|].
  exists r'. split; [exact Hr|]. split; [|exact Hd].
  assert (Ht : type (initial_settings Js.one print_color is_path ext0 (ev_topic poses_event))
               = axis).
  { unfold initial_settings, mergeSettings. cbn [type ext0 config_topics topicsByName].
    rewrite lookup_empty. reflexivity. }
  rewrite Ht in Hlen. exact Hlen.
Defined.

Lemma nav_path_is_drawn_as_line_witness :
  let res :=
    handleNavPath Js.one parse_color linear_gradient print_color make_marker same_frame
      upright is_path ext1 plan_event in
  renderables ext1 !! "/plan" = None
  /\ topicsByName ext1 = Some topics1
  /\ topics1 !! "/plan" = Some plan_topic
  /\ is_path (schemaName plan_topic) = true
  /\ (forall u, config_topics ext1 !! "/plan" = Some u -> p_type u = None)
  /\ length (errors res) = 1
  /\ exists r', renderables res !! "/plan" = Some r' /\ type (settings r') = line
                /\ axes r' = [].
Proof.
  cbv zeta.
  assert (H1 : renderables ext1 !! "/plan" = None) by apply lookup_empty.
  assert (H2 : topicsByName ext1 = Some topics1) by reflexivity.
  assert (H3 : topics1 !! "/plan" = Some plan_topic) by apply lookup_insert_eq.
  assert (H4 : is_path (schemaName plan_topic) = true) by reflexivity.
  assert (H5 : forall u, config_topics ext1 !! "/plan" = Some u -> p_type u = None).
  { intros u Hu. cbn in Hu. rewrite lookup_empty in Hu. discriminate. }
  destruct (nav_path_is_drawn_as_line Js.one parse_color linear_gradient print_color marker
              make_marker same_frame upright is_path ext1 plan_event topics1 plan_topic
              H1 H2 H3 H4 H5)
    as (He & r' & l & Hr & Ht & Ha & _).
  repeat (split; [assumption|]).
  split; [rewrite He; reflexivity|].
  exists r'. split; [exact Hr|]. split; [exact Ht | exact Ha].
Defined.

End PoseWitnesses.



Section WriterFacts.

Import PoseHandlers BinaryWriter.

Context {Bridge Registry Definition_ Writer : Type}.
Variable ModuleFactory : option string -> option Bridge.
Variable ModuleWasm : string.
Variable process_defined : bool.
Variable browser_in_process : bool.
Variable NODE_ENV_test : bool.
Variable new_registry : trace Bridge Definition_ Writer -> Registry.
Variable created : trace Bridge Definition_ Writer -> Definition_.
Variable field_added : trace Bridge Definition_ Writer -> bool.
Variable finalized : trace Bridge Definition_ Writer -> bool.
Variable found : trace Bridge Definition_ Writer -> option Definition_.
Variable commands : trace Bridge Definition_ Writer -> list Z.
Variable new_writer : trace Bridge Definition_ Writer -> Writer.
Variable allocated : trace Bridge Definition_ Writer -> Z.
Variable written : trace Bridge Definition_ Writer -> Z.
Variable buffer_of : trace Bridge Definition_ Writer -> list Z.
Variable big_string_of : trace Bridge Definition_ Writer -> list Z.
Variable decode_ascii : list Z -> string.

Lemma add_fields_spec (d : Definition_) (fs : list RosMsgField)
    (tr : trace Bridge Definition_ Writer) :
  match add_fields Bridge Definition_ Writer field_added d fs tr with
  | (tr', Ok _) =>
      tr' = tr ++ map (field_call d) (filter (fun f => not_constant f = true) fs)
  | (tr', Throw e) =>
      exists n f,
        filter (fun f => not_constant f = true) fs !! n = Some f /\
        tr' = tr ++ take (S n) (map (field_call d) (filter (fun f => not_constant f = true) fs)) /\
        field_added tr' = false /\
        e = "Could not add field with type " +:+ dquote +:+ f_type f +:+ dquote
  end.
Proof.
  revert tr. induction fs as [|f fs IH]; intros tr.
  - cbn. by rewrite app_nil_r.
  - assert (Hfil : filter (fun f => not_constant f = true) (f :: fs) =
                    if truthy (f_isConstant f) then filter (fun f => not_constant f = true) fs
                    else f :: filter (fun f => not_constant f = true) fs).
    { rewrite filter_cons.
      destruct (decide (not_constant f = true)) as [Hc|Hc];
        unfold not_constant in Hc; destruct (truthy (f_isConstant f)); done. }
    rewrite Hfil. clear Hfil. cbn [add_fields].
    destruct (truthy (f_isConstant f)) eqn:Ec; [apply IH|].
    destruct (field_added _) eqn:Ea; cbn [negb].
    + specialize (IH (tr ++ [field_call d f])).
      unfold field_call at 1 in IH.
      destruct (add_fields _ _ _ _) as [tr' [[]|e]].
      * rewrite IH. cbn [map]. by rewrite <- app_assoc.
      * destruct IH as (n & g & Hn & Htr & Hf & He).
        exists (S n), g. split; [done|]. split; [|done].
        rewrite Htr. cbn [map take]. by rewrite <- app_assoc.
    + exists 0, f. split; [done|]. split; [by cbn|]. split; [|done]. by cbn.
Qed.

Lemma create_definition_spec (this : BinaryMessageWriter Bridge Registry) (name : string)
    (dt : RosDatatype) (tr : trace Bridge Definition_ Writer) :
  _definitionRegistry this <> None ->
  match _createDefinition Bridge Registry Definition_ Writer created field_added
          this name dt tr with
  | (tr', Ok d) =>
      d = created (tr ++ [Create name]) /\
      tr' = tr ++ definition_calls (name, dt) d
  | (tr', Throw e) =>
      exists n f,
        filter (fun f => not_constant f = true) (fields dt) !! n = Some f /\
        tr' = tr ++ take (S (S n))
                      (definition_calls (name, dt) (created (tr ++ [Create name]))) /\
        field_added tr' = false /\
        e = "Could not add field with type " +:+ dquote +:+ f_type f +:+ dquote
  end.
Proof.
  intros Hr. unfold _createDefinition, _getDefinitions.
  destruct (_definitionRegistry this) as [r|]; [|done].
  pose proof (add_fields_spec (created (tr ++ [Create name])) (fields dt)
                (tr ++ [Create name])) as H.
  destruct (add_fields _ _ _ _ _ _ _) as [tr' [[]|e]].
  - split; [done|]. rewrite H. unfold definition_calls. cbn [fst snd].
    by rewrite <- app_assoc.
  - destruct H as (n & f & Hn & Htr & Hf & He). exists n, f.
    split; [done|]. split; [|done]. rewrite Htr. unfold definition_calls.
    cbn [fst snd take]. by rewrite <- app_assoc.
Qed.

(** X20.  [_createDefinition] on an initialised writer creates the
    definition and then adds its fields in order, except the constant
    ones, with an array length of [-1] where the field has none.  The
    first field the registry refuses ends it with the error naming the
    type of that field, and no later field is added. *)
Theorem constant_fields_are_ignored (this : BinaryMessageWriter Bridge Registry)
    (name : string) (dt : RosDatatype) (tr : trace Bridge Definition_ Writer) :
  _definitionRegistry this <> None ->
  let d := created (tr ++ [Create name]) in
  let kept := filter (fun f => not_constant f = true) (fields dt) in
  let calls :=
    map (fun f => AddField d (f_type f) (f_name f) (f_isArray f)
                    (match f_arrayLength f with Some n => n | None => (-1)%Z end)) kept in
  Forall (fun f => f_isConstant f = None \/ f_isConstant f = Some false) kept /\
  (forall f, f ∈ fields dt -> f_isConstant f = Some true -> f ∉ kept) /\
  match _createDefinition Bridge Registry Definition_ Writer created field_added
          this name dt tr with
  | (tr', Ok d') => d' = d /\ tr' = tr ++ Create name :: calls
  | (tr', Throw e) =>
      exists n f,
        kept !! n = Some f /\
        tr' = tr ++ Create name :: take (S n) calls /\
        field_added tr' = false /\
        e = "Could not add field with type " +:+ dquote +:+ f_type f +:+ dquote
  end.
Proof.
  intros Hr d kept calls.
  split.
  { apply Forall_forall. intros f Hf. apply list_elem_of_filter in Hf as [Hc _].
    unfold not_constant, truthy, Js.nullish in Hc.
    destruct (f_isConstant f) as [[|]|]; [done|by right|by left]. }
  split.
  { intros f _ Hc Hf. apply list_elem_of_filter in Hf as [Hk _].
    unfold not_constant, truthy, Js.nullish in Hk. by rewrite Hc in Hk. }
  pose proof (create_definition_spec this name dt tr Hr) as H.
  destruct (_createDefinition _ _ _ _ _ _ _ _ _ _) as [tr' [d'|e]].
  - destruct H as [-> ->]. done.
  - destruct H as (n & f & Hn & -> & Hf & ->). exists n, f. done.
Qed.

Lemma create_all_spec (this : BinaryMessageWriter Bridge Registry) (dts : RosDatatypes)
    (tr : trace Bridge Definition_ Writer) :
  _definitionRegistry this <> None ->
  match create_all Bridge Registry Definition_ Writer created field_added this dts tr with
  | (tr', Ok ds) =>
      length ds = length dts /\
      tr' = tr ++ concat (zip_with definition_calls dts ds)
  | (tr', Throw e) =>
      exists new ty,
        tr' = tr ++ new /\ Finalize ∉ new /\ field_added tr' = false /\
        e = "Could not add field with type " +:+ dquote +:+ ty +:+ dquote
  end.
Proof.
  intros Hr. revert tr. induction dts as [|[name dt] dts IH]; intros tr.
  - cbn. by rewrite app_nil_r.
  - cbn [create_all].
    pose proof (create_definition_spec this name dt tr Hr) as H.
    destruct (_createDefinition _ _ _ _ _ _ _ _ _ _) as [tr1 [d|e]].
    + destruct H as [Hd Htr1]. specialize (IH tr1).
      destruct (create_all _ _ _ _ _ _ _ _ _) as [tr2 [ds|e]].
      * destruct IH as [Hlen Htr2]. split; [cbn; lia|].
        rewrite Htr2, Htr1. cbn [zip_with concat]. by rewrite <- app_assoc.
      * destruct IH as (new & ty & Htr2 & Hnew & Hf & He).
        exists (definition_calls (name, dt) d ++ new), ty.
        split; [by rewrite Htr2, Htr1, <- app_assoc|].
        split; [|done].
        rewrite elem_of_app. intros [Hin|Hin]; [|done].
        unfold definition_calls in Hin. apply elem_of_cons in Hin as [?|Hin]; [done|].
        apply list_elem_of_fmap in Hin as (f & Hf' & _). done.
    + destruct H as (n & f & Hn & Htr1 & Hf & He).
      eexists _, (f_type f). split; [exact Htr1|]. split; [|done].
      intros Hin. apply elem_of_take in Hin as (i & Hin & _).
      apply list_elem_of_lookup_2 in Hin.
      unfold definition_calls in Hin. apply elem_of_cons in Hin as [?|Hin]; [done|].
      apply list_elem_of_fmap in Hin as (g & Hg & _). done.
Qed.

(** X21.  [registerDefinitions] on an initialised writer creates the
    definitions in the order of the keys, each with its fields that are
    not constants, and validates once, after the last one.  It returns
    one definition per datatype when the validation succeeds; a refused
    field ends it before any validation. *)
Theorem register_definitions_validates_once (this : BinaryMessageWriter Bridge Registry)
    (dts : RosDatatypes) (tr : trace Bridge Definition_ Writer) :
  _definitionRegistry this <> None ->
  match registerDefinitions Bridge Registry Definition_ Writer created field_added finalized
          this dts tr with
  | (tr', Ok ds) =>
      length ds = length dts /\
      tr' = tr ++ concat (zip_with definition_calls dts ds) ++ [Finalize] /\
      finalized tr' = true
  | (tr', Throw e) =>
      (exists ds,
         length ds = length dts /\
         tr' = tr ++ concat (zip_with definition_calls dts ds) ++ [Finalize] /\
         finalized tr' = false /\ e = "Failed to validate definitions") \/
      (exists new ty,
         tr' = tr ++ new /\ Finalize ∉ new /\ field_added tr' = false /\
         e = "Could not add field with type " +:+ dquote +:+ ty +:+ dquote)
  end.
Proof.
  intros Hr. unfold registerDefinitions.
  pose proof (create_all_spec this dts tr Hr) as H.
  destruct (create_all _ _ _ _ _ _ _ _ _) as [tr1 [ds|e]].
  - destruct H as [Hlen Htr1]. unfold _getDefinitions.
    destruct (_definitionRegistry this) as [r|]; [|done].
    destruct (finalized (tr1 ++ [Finalize])) eqn:Ef; cbn [negb].
    + split; [done|]. split; [by rewrite Htr1, <- app_assoc|done].
    + left. exists ds. split; [done|]. split; [by rewrite Htr1, <- app_assoc|done].
  - right. exact H.
Qed.

(** X22.  A writer whose registry is not set, as before [initialize] or
    after an [initialize] for which the module factory gave nothing,
    throws on every method without a call to the module: the three
    methods on definitions with "Definition registry not initialized",
    also for an empty set of datatypes, and [rewriteMessages] with
    "Wasm bridge not initialized" when the bridge is not set either. *)
Theorem writer_requires_initialization (this : BinaryMessageWriter Bridge Registry)
    (name : string) (dt : RosDatatype) (dts : RosDatatypes) (msgs : list Message)
    (tr : trace Bridge Definition_ Writer) :
  _definitionRegistry this = None ->
  registerDefinition Bridge Registry Definition_ Writer created field_added finalized
    this name dt tr = (tr, Throw "Definition registry not initialized") /\
  registerDefinitions Bridge Registry Definition_ Writer created field_added finalized
    this dts tr = (tr, Throw "Definition registry not initialized") /\
  getDefinitionCommands Bridge Registry Definition_ Writer found commands
    this name tr = (tr, Throw "Definition registry not initialized") /\
  rewriteMessages Bridge Registry Definition_ Writer NODE_ENV_test found new_writer allocated
    written buffer_of big_string_of decode_ascii this name msgs tr =
    (tr, Throw (match _bridgeInstance this with
                | Some _ => "Definition registry not initialized"
                | None => "Wasm bridge not initialized"
                end)).
Proof.
  intros Hr.
  unfold registerDefinition, registerDefinitions, getDefinitionCommands, rewriteMessages,
    _createDefinition, _getBridge, _getDefinitions.
  rewrite Hr. split; [done|]. split.
  - destruct dts as [|[ty d] dts]; cbn [create_all]; [done|].
    unfold _createDefinition, _getDefinitions. by rewrite Hr.
  - split; [done|]. by destruct (_bridgeInstance this).
Qed.

Lemma maxBy_fold {A : Type} (f : A -> nat) (l : list A) (best : option A) :
  match foldl
          (fun (best : option A) (x : A) =>
             match best with
             | None => Some x
             | Some b => if f b <? f x then Some x else best
             end) best l with
  | None => best = None /\ l = []
  | Some b =>
      (forall x, best = Some x -> f x <= f b) /\ Forall (fun x => f x <= f b) l
  end.
Proof.
  revert best. induction l as [|x l IH]; intros best.
  - cbn. destruct best as [b|]; [|done]. split; [|done]. by intros ? [= ->].
  - cbn [foldl].
    match goal with |- context [foldl _ ?b l] => specialize (IH b) end.
    destruct (foldl _ _ l) as [r|].
    + destruct IH as [Hb Hl]. destruct best as [b|].
      * destruct (f b <? f x) eqn:E.
        -- apply Nat.ltb_lt in E. specialize (Hb x eq_refl).
           split; [intros ? [= <-]; lia|]. by constructor.
        -- apply Nat.ltb_ge in E. specialize (Hb b eq_refl).
           split; [by intros ? [= <-]|]. constructor; [lia|done].
      * specialize (Hb x eq_refl). split; [done|]. by constructor.
    + destruct IH as [Hb _]. destruct best as [b|]; [|done].
      by destruct (f b <? f x).
Qed.

Lemma max_bytes_spec (msgs : list Message) :
  match byteLength <$> maxBy msgs byteLength with
  | None => msgs = []
  | Some n => msgs <> [] /\ Forall (fun m => byteLength m <= n) msgs
  end.
Proof.
  unfold maxBy. destruct msgs as [|m msgs]; [done|].
  pose proof (maxBy_fold byteLength (m :: msgs) None) as H.
  destruct (foldl _ _ _) as [b|]; cbn.
  - split; [done|]. by destruct H.
  - by destruct H.
Qed.

Lemma write_all_spec (w : Writer) (d : Definition_) (ptr : Z) (name : string)
    (msgs : list Message) (tr : trace Bridge Definition_ Writer) :
  match write_all Bridge Definition_ Writer written w d ptr name msgs tr with
  | (tr', Ok offs) =>
      length offs = length msgs /\
      Forall (fun o => (0 <= o)%Z) offs /\
      (forall i, i < length msgs ->
         offs !! i = Some (written (tr ++ flat_map (message_calls w d ptr) (take (S i) msgs)))) /\
      tr' = tr ++ flat_map (message_calls w d ptr) msgs
  | (tr', Throw e) =>
      exists n m,
        msgs !! n = Some m /\
        tr' = tr ++ flat_map (message_calls w d ptr) (take (S n) msgs) /\
        (written tr' < 0)%Z /\
        e = "Could not write message from " +:+ dquote +:+ m_topic m +:+ dquote
              +:+ " with undefined type " +:+ dquote +:+ name +:+ dquote
  end.
Proof.
  revert tr. induction msgs as [|m msgs IH]; intros tr.
  - cbn. split; [done|]. split; [done|]. split; [intros; lia|]. by rewrite app_nil_r.
  - cbn [write_all]. rewrite <- app_assoc. cbn [app].
    change (tr ++ [HeapSet (map Js.to_uint8 (m_message m)) ptr;
                   Write w d ptr (length (m_message m))])
      with (tr ++ message_calls w d ptr m).
    destruct (written (tr ++ message_calls w d ptr m) <? 0)%Z eqn:E.
    + apply Z.ltb_lt in E. exists 0, m. split; [done|].
      cbn [take flat_map]. rewrite app_nil_r. done.
    + apply Z.ltb_ge in E. specialize (IH (tr ++ message_calls w d ptr m)).
      destruct (write_all _ _ _ _ _ _ _ _ _ _) as [tr' [offs|e]].
      * destruct IH as (Hlen & Hpos & Hoff & Htr). split; [cbn; lia|].
        split; [by constructor|]. split.
        -- intros [|i] Hi.
           ++ cbn [take flat_map]. by rewrite app_nil_r.
           ++ cbn [length] in Hi. rewrite lookup_cons. rewrite Hoff by lia.
              cbn [take flat_map]. by rewrite <- app_assoc.
        -- rewrite Htr. cbn [flat_map]. by rewrite <- app_assoc.
      * destruct IH as (n & m' & Hn & Htr & Hw & He). exists (S n), m'.
        split; [done|]. split; [|done]. rewrite Htr. cbn [take flat_map].
        by rewrite <- app_assoc.
Qed.

(** X23.  When [rewriteMessages] returns, the calls it made to the module
    are: the lookup of the definition, a new writer, the reservation for
    the number of messages and the sum of their sizes, the allocation of
    one buffer large enough for every message, for each message in order
    a copy into that buffer and a write, the release of the buffer, the
    two reads of the result and the deletion of the writer.  The object
    returned has the name given and one offset per message, each the
    value its write returned and none negative. *)
Theorem rewrite_messages_result (this : BinaryMessageWriter Bridge Registry)
    (name : string) (msgs : list Message) (tr tr' : trace Bridge Definition_ Writer)
    (o : BinaryObjects) :
  rewriteMessages Bridge Registry Definition_ Writer NODE_ENV_test found new_writer allocated
    written buffer_of big_string_of decode_ascii this name msgs tr = (tr', Ok o) ->
  exists (d : Definition_) (w : Writer) (ptr : Z) (size : option nat),
    _bridgeInstance this <> None /\ _definitionRegistry this <> None /\
    found (tr ++ [Get name]) = Some d /\
    w = new_writer (tr ++ [Get name; NewWriter]) /\
    ptr <> 0%Z /\
    match size with
    | None => msgs = []
    | Some n => msgs <> [] /\ Forall (fun m => byteLength m <= n) msgs
    end /\
    tr' = tr ++ [Get name; NewWriter;
                 Reserve w d (length msgs) (sumBy msgs byteLength); Malloc size]
             ++ flat_map (message_calls w d ptr) msgs
             ++ [Free ptr; GetBuffer w; GetBigString w; Delete w] /\
    dataType o = name /\
    length (offsets o) = length msgs /\
    Forall (fun off => (0 <= off)%Z) (offsets o) /\
    forall i, i < length msgs ->
      offsets o !! i =
      Some (written (tr ++ [Get name; NewWriter;
                            Reserve w d (length msgs) (sumBy msgs byteLength); Malloc size]
                        ++ flat_map (message_calls w d ptr) (take (S i) msgs))).
Proof.
  unfold rewriteMessages, _getBridge, _getDefinitions.
  destruct (_bridgeInstance this) as [b|]; [|done].
  destruct (_definitionRegistry this) as [r|]; [|done].
  destruct (found (tr ++ [Get name])) as [d|] eqn:Ed; [|done].
  repeat rewrite <- app_assoc. cbn [app].
  set (w := new_writer (tr ++ [Get name; NewWriter])).
  set (size := byteLength <$> maxBy msgs byteLength).
  set (tr0 := tr ++ [Get name; NewWriter;
                     Reserve w d (length msgs) (sumBy msgs byteLength); Malloc size]).
  destruct (allocated tr0 =? 0)%Z eqn:Ep; [done|]. apply Z.eqb_neq in Ep.
  pose proof (write_all_spec w d (allocated tr0) name msgs tr0) as H.
  destruct (write_all _ _ _ _ _ _ _ _ _ _) as [tr1 [offs|e]]; [|done].
  destruct H as (Hlen & Hpos & Hoff & Htr1).
  intros [= <- <-]. exists d, w, (allocated tr0), size.
  split; [done|]. split; [done|]. split; [done|]. split; [done|]. split; [done|].
  split; [exact (max_bytes_spec msgs)|].
  split.
  { rewrite Htr1. unfold tr0. repeat rewrite <- app_assoc. done. }
  split; [done|]. split; [done|]. split; [done|].
  intros i Hi. cbn [offsets]. rewrite (Hoff i Hi). unfold tr0.
  by rewrite <- app_assoc.
Qed.

(** X24.  When [rewriteMessages] throws, the calls it made end at the one
    that failed: a definition not found, an allocation that returned 0
    (the size asked for is [undefined] when there is no message), or the
    first write that returned a negative offset, whose error names the
    topic of that message.  In the last two cases the writer has been
    created and is not deleted, and after a failed write the buffer is
    not released and the later messages are not written. *)
Theorem rewrite_messages_failure (this : BinaryMessageWriter Bridge Registry)
    (name : string) (msgs : list Message) (tr tr' : trace Bridge Definition_ Writer)
    (e : string) :
  rewriteMessages Bridge Registry Definition_ Writer NODE_ENV_test found new_writer allocated
    written buffer_of big_string_of decode_ascii this name msgs tr = (tr', Throw e) ->
  (exists new, tr' = tr ++ new /\
     (forall p, Free p ∉ new) /\ (forall w, Delete w ∉ new)) /\
  ((tr' = tr /\ _bridgeInstance this = None /\ e = "Wasm bridge not initialized") \/
   (tr' = tr /\ _definitionRegistry this = None /\
    e = "Definition registry not initialized") \/
   (tr' = tr ++ [Get name] /\ found tr' = None /\
    e = "No definition found with type " +:+ dquote +:+ name +:+ dquote) \/
   (exists d w size,
      tr' = tr ++ [Get name; NewWriter;
                   Reserve w d (length msgs) (sumBy msgs byteLength); Malloc size] /\
      allocated tr' = 0%Z /\
      (size = None <-> msgs = []) /\
      e = "Could not allocate memory for data buffer with size " +:+ dquote
            +:+ match size with Some n => pretty n | None => "undefined" end +:+ dquote) \/
   (exists d w size ptr n m,
      msgs !! n = Some m /\
      tr' = tr ++ [Get name; NewWriter;
                   Reserve w d (length msgs) (sumBy msgs byteLength); Malloc size]
               ++ flat_map (message_calls w d ptr) (take (S n) msgs) /\
      (written tr' < 0)%Z /\
      e = "Could not write message from " +:+ dquote +:+ m_topic m +:+ dquote
            +:+ " with undefined type " +:+ dquote +:+ name +:+ dquote)).
Proof.
  unfold rewriteMessages, _getBridge, _getDefinitions.
  destruct (_bridgeInstance this) as [b|].
  2:{ intros [= <- <-]. split; [|by left].
      exists []. rewrite app_nil_r. split; [done|]. split; intros ?; apply not_elem_of_nil. }
  destruct (_definitionRegistry this) as [r|].
  2:{ intros [= <- <-]. split; [|by right; left].
      exists []. rewrite app_nil_r. split; [done|]. split; intros ?; apply not_elem_of_nil. }
  destruct (found (tr ++ [Get name])) as [d|] eqn:Ed.
  2:{ intros [= <- <-]. split; [|by right; right; left].
      exists [Get name]. split; [done|].
      split; intros ? H; apply list_elem_of_singleton in H; done. }
  repeat rewrite <- app_assoc. cbn [app].
  set (w := new_writer (tr ++ [Get name; NewWriter])).
  set (size := byteLength <$> maxBy msgs byteLength).
  set (head := [Get name; NewWriter;
                Reserve w d (length msgs) (sumBy msgs byteLength); Malloc size]).
  assert (Hhead : (forall p, Free p ∉ head) /\ (forall w', Delete w' ∉ head)).
  { split; intros ? H; unfold head in H; repeat (apply elem_of_cons in H as [H|H]; [done|]);
      inversion H. }
  assert (Hcalls : forall l ptr,
            (forall p, Free p ∉ flat_map (message_calls (Bridge:=Bridge) w d ptr) l) /\
            (forall w', Delete w' ∉ flat_map (message_calls (Bridge:=Bridge) w d ptr) l)).
  { intros l ptr. split; intros ? H; apply list_elem_of_In, in_flat_map in H as (m & _ & H);
      unfold message_calls in H; cbn in H; destruct H as [H|[H|[]]]; done. }
  destruct (allocated (tr ++ head) =? 0)%Z eqn:Ep.
  { apply Z.eqb_eq in Ep. intros [= <- <-]. split.
    - exists head. split; [done|]. exact Hhead.
    - right; right; right; left. exists d, w, size. split; [done|]. split; [done|].
      split; [|done]. pose proof (max_bytes_spec msgs) as H. fold size in H.
      destruct size; [split; [done|by destruct H]|done]. }
  pose proof (write_all_spec w d (allocated (tr ++ head)) name msgs (tr ++ head)) as H.
  destruct (write_all _ _ _ _ _ _ _ _ _ _) as [tr1 [offs|e1]]; [done|].
  destruct H as (n & m & Hn & Htr1 & Hw & He). intros [= <- <-]. split.
  - eexists (head ++ _). split; [by rewrite Htr1, <- app_assoc|].
    destruct Hhead as [Hf Hd].
    destruct (Hcalls (take (S n) msgs) (allocated (tr ++ head))) as [Hf' Hd'].
    split; intros x; rewrite elem_of_app; intros [H|H];
      [by apply (Hf x)|by apply (Hf' x)|by apply (Hd x)|by apply (Hd' x)].
  - right; right; right; right.
    exists d, w, size, (allocated (tr ++ head)), n, m.
    split; [done|]. split; [by rewrite Htr1, <- app_assoc|]. done.
Qed.

End WriterFacts.

Section WriterWitnesses.

Import BinaryWriter WriterSamples.

Lemma constant_fields_are_ignored_witness :
  _definitionRegistry ready_writer <> None
  /\ _createDefinition unit unit nat nat handle accepts ready_writer "Point" point_type []
     = ([Create "Point"; AddField 1 "float64" "x" None (-1)%Z;
         AddField 1 "float64" "cov" (Some true) 9%Z], Ok 1).
Proof.
  assert (H1 : _definitionRegistry ready_writer <> None) by discriminate.
  split; [exact H1|].
  destruct (constant_fields_are_ignored handle accepts ready_writer "Point" point_type [] H1)
    as (_ & _ & H).
  destruct (_createDefinition _ _ _ _ _ _ _ _ _ _) as [tr' [d'|e]].
  - destruct H as [-> ->]. reflexivity.
  - destruct H as (n & f & _ & _ & Hf & _). discriminate Hf.
Defined.

Lemma register_definitions_validates_once_witness :
  let res :=
    registerDefinitions unit unit nat nat handle accepts accepts ready_writer
      [("Point", point_type); ("Empty", {| fields := [] |})] [] in
  _definitionRegistry ready_writer <> None
  /\ res = ([Create "Point"; AddField 1 "float64" "x" None (-1)%Z;
             AddField 1 "float64" "cov" (Some true) 9%Z; Create "Empty"; Finalize],
            Ok [1; 4])
  /\ match res with
     | (tr', Ok ds) => length ds = 2
     | (tr', Throw e) => False
     end.
Proof.
  cbv zeta.
  assert (H1 : _definitionRegistry ready_writer <> None) by discriminate.
  split; [exact H1|]. split; [vm_compute; reflexivity|].
  pose proof (register_definitions_validates_once handle accepts accepts ready_writer
                [("Point", point_type); ("Empty", {| fields := [] |})] [] H1) as H.
  destruct (registerDefinitions _ _ _ _ _ _ _ _ _ _) as [tr' [ds|e]].
  - exact (proj1 H).
  - destruct H as [(ds & _ & _ & Hf & _)|(new & ty & _ & _ & Hf & _)]; discriminate Hf.
Defined.

Lemma writer_requires_initialization_witness :
  let this := (initialize unit unit nat nat no_module "module.wasm" true true
                 (fun _ => tt) fresh_writer []).2 in
  _definitionRegistry this = None
  /\ registerDefinitions unit unit nat nat handle accepts accepts this [] []
     = ([], Throw "Definition registry not initialized")
  /\ rewriteMessages unit unit nat nat false finds handle at_8 offset_of no_bytes no_bytes
       ascii this "Point" two_messages []
     = ([], Throw "Wasm bridge not initialized").
Proof.
  cbv zeta.
  assert (H1 : _definitionRegistry
                 (initialize unit unit nat nat no_module "module.wasm" true true
                    (fun _ => tt) fresh_writer []).2 = None) by reflexivity.
  split; [exact H1|].
  destruct (writer_requires_initialization false handle accepts accepts finds no_bytes handle
              at_8 offset_of no_bytes no_bytes ascii _ "Point" point_type [] two_messages []
              H1) as (_ & H2 & _ & H3).
  split; [exact H2|exact H3].
Defined.

Lemma rewrite_messages_result_witness :
  let res :=
    rewriteMessages unit unit nat nat false finds handle at_8 offset_of no_bytes no_bytes
      ascii ready_writer "Point" two_messages [] in
  res = ([Get "Point"; NewWriter; Reserve 2 0 2 4; Malloc (Some 3);
          HeapSet [1; 2; 3]%Z 8%Z; Write 2 0 8%Z 3; HeapSet [4]%Z 8%Z; Write 2 0 8%Z 1;
          Free 8%Z; GetBuffer 2; GetBigString 2; Delete 2],
         Ok {| dataType := "Point"; offsets := [6; 8]%Z; buffer := [];
               bigString := EmptyString |})
  /\ _bridgeInstance ready_writer <> None.
Proof.
  cbv zeta.
  assert (H1 : rewriteMessages unit unit nat nat false finds handle at_8 offset_of no_bytes
                 no_bytes ascii ready_writer "Point" two_messages []
               = ([Get "Point"; NewWriter; Reserve 2 0 2 4; Malloc (Some 3);
                   HeapSet [1; 2; 3]%Z 8%Z; Write 2 0 8%Z 3; HeapSet [4]%Z 8%Z;
                   Write 2 0 8%Z 1; Free 8%Z; GetBuffer 2; GetBigString 2; Delete 2],
                  Ok {| dataType := "Point"; offsets := [6; 8]%Z; buffer := [];
                        bigString := EmptyString |})) by (vm_compute; reflexivity).
  split; [exact H1|].
  destruct (rewrite_messages_result false finds handle at_8 offset_of no_bytes no_bytes ascii
              ready_writer "Point" two_messages [] _ _ H1)
    as (d & w & ptr & size & Hb & _).
  exact Hb.
Defined.

Lemma rewrite_messages_failure_witness :
  let res :=
    rewriteMessages unit unit nat nat false finds handle at_8 refuses no_bytes no_bytes
      ascii ready_writer "Point" two_messages [] in
  res = ([Get "Point"; NewWriter; Reserve 2 0 2 4; Malloc (Some 3);
          HeapSet [1; 2; 3]%Z 8%Z; Write 2 0 8%Z 3],
         Throw ("Could not write message from " +:+ PoseHandlers.dquote +:+ "/a"
                  +:+ PoseHandlers.dquote +:+ " with undefined type "
                  +:+ PoseHandlers.dquote +:+ "Point" +:+ PoseHandlers.dquote))
  /\ (forall p, Free p ∉ res.1) /\ (forall w, Delete w ∉ res.1).
Proof.
  cbv zeta.
  assert (H1 : rewriteMessages unit unit nat nat false finds handle at_8 refuses no_bytes
                 no_bytes ascii ready_writer "Point" two_messages []
               = ([Get "Point"; NewWriter; Reserve 2 0 2 4; Malloc (Some 3);
                   HeapSet [1; 2; 3]%Z 8%Z; Write 2 0 8%Z 3],
                  Throw ("Could not write message from " +:+ PoseHandlers.dquote +:+ "/a"
                           +:+ PoseHandlers.dquote +:+ " with undefined type "
                           +:+ PoseHandlers.dquote +:+ "Point" +:+ PoseHandlers.dquote)))
    by (vm_compute; reflexivity).
  split; [exact H1|].
  destruct (rewrite_messages_failure false finds handle at_8 refuses no_bytes no_bytes ascii
              ready_writer "Point" two_messages [] _ _ H1)
    as ((new & Hnew & Hf & Hd) & _).
  rewrite H1. cbn [fst]. cbn [app] in Hnew. rewrite Hnew. split; [exact Hf|exact Hd].
Defined.

End WriterWitnesses.
